(** * Multi-agent orchestrator of grok-code: pipelines, intelligent
    orchestration and the memory engine

    A shallow embedding of [MultiAgentOrchestrator] (the class that owns
    [executePipeline], [executePipelineWithMemory],
    [executeIntelligentOrchestration], [pruneAgentMemories] and
    [calculateMemoryRelevance]) together with [EnhancedGrokApiClient.chat],
    followed by the properties of the specification that are checked on it.
    The other methods of the orchestrator ([runCodeDevelopmentPipeline],
    [runAnalysisPipeline], [runCodeDevelopmentPipelineWithMemory],
    [analyzeMemoriesForPipeline], [storeAgentMemories],
    [getAvailablePipelines], [analyzeWorkflowChoice]),
    [EnhancedGrokApiClient.robustRequest] and [FileTools.updatePermissions]
    are embedded as well, and further properties of the code follow those
    of the specification.

    Conventions.
    - A JavaScript string is a [string]: the sequence of its code units,
      for the code units U+0000..U+00FF.  [length], [toLowerCase], [includes],
      [split] and the class [\s] are the ECMAScript ones on that range.  The
      symbols that open some log lines are kept as their UTF-8 bytes; no
      code inspects them.
    - [async]/[await] is sequential composition: every method is a function
      of the state of the outside world and returns the new one.  The
      pacing delay between two steps is left out.
    - An exception is a value of [exn]; a method that can throw returns an
      [Outcome].
    - The HTTP client, the clock and [JSON] are parameters, gathered in the
      class [Host].
    - Runs are instrumented: the requests posted ([sent]) and the agent
      calls made ([calls], [history]) are recorded for the statements; the
      program reads neither. *)

From Stdlib Require Import String Ascii List Bool Arith Lia NArith ZArith DecimalString.
Import ListNotations.
Local Open Scope list_scope.
Local Open Scope string_scope.

Set Implicit Arguments.

(* ================================================================== *)
(** ** JavaScript strings *)
(* ================================================================== *)

Module JS.

(** The double quote and the line feed, which string literals of this
    file never hold. *)
Definition dq : string := String (ascii_of_nat 34) EmptyString.
Definition nl : string := String (ascii_of_nat 10) EmptyString.

(** [`"${s}"`] *)
Definition quoted (s : string) : string := dq ++ s ++ dq.

(** [String(n)] for a natural number. *)
Definition of_nat (n : nat) : string := NilZero.string_of_uint (Nat.to_uint n).
Definition of_N (n : N) : string := NilZero.string_of_uint (N.to_uint n).

(** [String(n)] for an integer. *)
Definition of_Z (z : Z) : string := NilZero.string_of_int (Z.to_int z).
Definition of_bool (b : bool) : string := if b then "true" else "false".

(** [c.toLowerCase()] on U+0000..U+00FF: A-Z, and the Latin-1 capitals
    U+00C0..U+00DE except the multiplication sign U+00D7. *)
Definition lower_char (c : ascii) : ascii :=
  let n := nat_of_ascii c in
  if (((65 <=? n) && (n <=? 90))
      || ((192 <=? n) && (n <=? 222) && negb (n =? 215)))%nat
  then ascii_of_nat (n + 32) else c.

Fixpoint toLowerCase (s : string) : string :=
  match s with
  | EmptyString => EmptyString
  | String c r => String (lower_char c) (toLowerCase r)
  end.

(** [s.startsWith(p)] *)
Fixpoint startsWith (p s : string) : bool :=
  match p, s with
  | EmptyString, _ => true
  | String a p', String b s' => Ascii.eqb a b && startsWith p' s'
  | String _ _, EmptyString => false
  end.

(** [s.includes(p)] *)
Fixpoint includes (s p : string) : bool :=
  startsWith p s ||
  match s with
  | EmptyString => false
  | String _ r => includes r p
  end.

(** [s.substring(0, n)] and [s.slice(0, n)] for [n >= 0]. *)
Fixpoint take (n : nat) (s : string) : string :=
  match n, s with
  | S k, String c r => String c (take k r)
  | _, _ => EmptyString
  end.

Fixpoint drop (n : nat) (s : string) : string :=
  match n, s with
  | S k, String _ r => drop k r
  | _, _ => s
  end.

(** [xs.join(sep)] *)
Fixpoint join (sep : string) (xs : list string) : string :=
  match xs with
  | [] => ""
  | [x] => x
  | x :: r => x ++ sep ++ join sep r
  end.

(** The reversed accumulator of a scanner, as a string. *)
Fixpoint rev_string (acc : list ascii) (tail : string) : string :=
  match acc with
  | [] => tail
  | c :: r => rev_string r (String c tail)
  end.

(** [s.split(sep)] for a non-empty separator [sep]: [cur] holds, reversed,
    the code units of the piece being read, and [skip] counts the code
    units of a separator just matched that are still to be passed. *)
Fixpoint split_from (sep : string) (skip : nat) (cur : list ascii) (s : string)
  : list string :=
  match s with
  | EmptyString => [rev_string cur ""]
  | String c r =>
      match skip with
      | S k => split_from sep k cur r
      | 0 =>
          if startsWith sep s
          then rev_string cur "" :: split_from sep (String.length sep - 1) [] r
          else split_from sep 0 (c :: cur) r
      end
  end.

Definition split (sep s : string) : list string := split_from sep 0 [] s.

(** The class [\s] on U+0000..U+00FF: TAB, LF, VT, FF, CR, SP and NBSP. *)
Definition is_space (c : ascii) : bool :=
  let n := nat_of_ascii c in
  (((9 <=? n) && (n <=? 13)) || (n =? 32) || (n =? 160))%nat.

(** [s.split(/\s+/)]: [in_run] says that the code unit before was a
    white space, so that a run of white space separates once. *)
Fixpoint split_ws_from (in_run : bool) (cur : list ascii) (s : string) : list string :=
  match s with
  | EmptyString => [rev_string cur ""]
  | String c r =>
      if is_space c
      then if in_run
           then split_ws_from true cur r
           else rev_string cur "" :: split_ws_from true [] r
      else split_ws_from false (c :: cur) r
  end.

Definition split_ws (s : string) : list string := split_ws_from false [] s.

End JS.

Import JS.

(* ================================================================== *)
(** ** Maps, exceptions and the outside world *)
(* ================================================================== *)

(** A JavaScript [Map] with string keys: the entries in insertion order
    ([context.results.entries()] is read in that order by the supervisor's
    summary).  [set] on a key that is present replaces its value in place. *)
Definition Map (V : Type) : Type := list (string * V).

Fixpoint Map_get {V} (m : Map V) (k : string) : option V :=
  match m with
  | [] => None
  | (k', v) :: r => if String.eqb k' k then Some v else Map_get r k
  end.

Definition Map_has {V} (m : Map V) (k : string) : bool :=
  match Map_get m k with Some _ => true | None => false end.

Fixpoint Map_set {V} (m : Map V) (k : string) (v : V) : Map V :=
  match m with
  | [] => [(k, v)]
  | (k', v') :: r => if String.eqb k' k then (k', v) :: r else (k', v') :: Map_set r k v
  end.

Definition Map_size {V} (m : Map V) : nat := List.length m.
Definition Map_values {V} (m : Map V) : list V := List.map snd m.

(** [xs.push(x)] *)
Definition push {A} (xs : list A) (x : A) : list A := (xs ++ [x])%list.

(** A thrown value: its constructor's name and its [message]. *)
Record exn : Type := mkExn { ename : string; message : string }.

(** [new Error(m)] *)
Definition Error (m : string) : exn := mkExn "Error" m.

(** [`${e}`] for a thrown error [e]. *)
Definition exn_toString (e : exn) : string := ename e ++ ": " ++ message e.

(** What a call that can throw comes back with. *)
Inductive Outcome (A : Type) : Type :=
| Returned (a : A)
| Raised (e : exn).
Arguments Returned {A} a.
Arguments Raised {A} e.

(** [GrokApiRequest] (types.ts).  [temperature] is counted in tenths. *)
Record ChatMessage : Type := mkMessage { msg_role : string; msg_content : string }.

Record GrokApiRequest : Type := mkRequest {
  messages : list ChatMessage;
  model : string;
  temperature : nat;
  max_tokens : nat
}.

(** What [this.client.post('/chat/completions', ...)] followed by
    [data.choices[0]?.message?.content] comes to: the content of the first
    choice, [None] when there is none, or a failure with its message. *)
Inductive PostReply : Type :=
| Replied (content : option string)
| PostFailed (msg : string).

(** [AgentMemory] (types.ts), over the type [J] of parsed JSON values. *)
Record AgentMemory (J : Type) : Type := mkMemory {
  agentRole : string;
  memoryType : string;
  content : J;
  timestamp : N;
  relevanceScore : nat;
  retentionFlags : list string
}.

(** [{ agent: agentName, ...memory }] *)
Record FlatMemory (J : Type) : Type := mkFlat {
  flat_agent : string;
  flat_memory : AgentMemory J
}.

(** The argument [output] of [generateAgentMemory]: the response of a
    pipeline step, or [{ instructions, response }] of a single agent. *)
Inductive AgentOutput : Type :=
| ResponseText (response : string)
| InstructedResponse (instructions response : string).

(** A step of the plan the workflow director returns. *)
Record PlannedStep : Type := mkPlanned {
  plan_agent : string;
  instructions : string;
  required : bool;
  iterativeFeedback : option bool;
  feedbackOutput : option string
}.

Record WorkflowPlan : Type := mkPlan { plan_steps : list PlannedStep }.

(** The value [JSON.parse] gave for the director's answer, as
    [executeIntelligentOrchestration] reads it at
    [workflowPlan.steps.length]: a plan, or a value that has no steps to
    count ([{}], [42], [null], ...), on which that read throws the
    [TypeError] given. *)
Inductive PlanReading : Type :=
| Planned (plan : WorkflowPlan)
| Planless (typeError : exn).

(** The pruning agent's analysis as [pruneAgentMemories] reads it: a field
    is [None] when it is absent or falsy, so that [||] takes the default. *)
Record Analysis (J : Type) : Type := mkAnalysis {
  an_relevantMemories : option (list J);
  an_prunedMemories : option (list J);
  an_contextSummary : option string;
  an_cleanupRecommendations : option (list string)
}.

(** What the source takes from its platform.  The HTTP client, the clock
    and [JSON].  The payloads the agents send back are typed [any] in the
    source.  [parse_plan] fails exactly when [JSON.parse] throws; a value
    that parses is a [PlanReading]: steps that are present are read at the
    shape the director's prompt prescribes.  [parse_analysis] fails when
    [JSON.parse] throws or gives [null], the two ways the [try] block of
    [pruneAgentMemories] can throw; any other value is read field by
    field. *)
Class Host : Type := {
  World : Type;
  post : GrokApiRequest -> World -> PostReply * World;
  now : World -> N;
  JSON : Type;
  JSON_parse : string -> Outcome JSON;
  JSON_stringify : JSON -> string;
  (** [JSON.stringify(output)] *)
  stringify_output : AgentOutput -> string;
  (** [JSON.parse(...)] of the director's answer, [JSON.stringify(plan, null, 2)] *)
  parse_plan : string -> Outcome PlanReading;
  stringify_plan : WorkflowPlan -> string;
  (** [JSON.stringify(memories, null, 2)] *)
  stringify_memories : list (FlatMemory JSON) -> string;
  (** [JSON.parse(...)] read as the pruning agent's analysis *)
  parse_analysis : string -> Outcome (Analysis JSON)
}.

(** [Agent] (types.ts), as far as the orchestrator fills it.  [allowExec]
    is [fileTools.permissions.allowExec]; the read paths, which
    [path.resolve] makes depend on the working directory, are left out. *)
Record Agent : Type := mkAgent {
  agent_name : string;
  agent_description : string;
  systemPrompt : string;
  capabilities : list string;
  allowExec : bool
}.

(** [AgentContext] (types.ts) *)
Record AgentContext : Type := mkContext {
  userPrompt : string;
  results : Map string;
  errors : list string;
  stepCount : nat;
  maxSteps : nat
}.

Definition set_result (c : AgentContext) (k v : string) : AgentContext :=
  mkContext (userPrompt c) (Map_set (results c) k v) (errors c) (stepCount c) (maxSteps c).
Definition push_error (c : AgentContext) (e : string) : AgentContext :=
  mkContext (userPrompt c) (results c) (push (errors c) e) (stepCount c) (maxSteps c).
Definition set_stepCount (c : AgentContext) (n : nat) : AgentContext :=
  mkContext (userPrompt c) (results c) (errors c) n (maxSteps c).

(** [AgentStep] and [AgentPipeline] (types.ts) *)
Record AgentStep : Type := mkStep {
  step_agent : Agent;
  role : string;
  inputMap : AgentContext -> string;
  outputKey : option string
}.

Record AgentPipeline : Type := mkPipeline {
  id : string;
  pipeline_name : string;
  pipeline_description : string;
  enabled : bool;
  steps : list AgentStep
}.

(** One agent call of a run, for the statements below: the role, the user
    message it was given and whether the call succeeded.  The program keeps
    no such record; its runs are instrumented with it. *)
Record AgentCall : Type := mkCall {
  call_role : string;
  call_input : string;
  call_ok : bool
}.

(** [PipelineResult] (types.ts); [history] is the instrumentation. *)
Record PipelineResult (J : Type) : Type := mkResult {
  success : bool;
  finalResult : string;
  context : AgentContext;
  executionLog : list string;
  agentMemories : option (Map (list (AgentMemory J)));
  history : list AgentCall
}.

(** The memories of a [MemoryAnalysisResult]: those the orchestrator
    recorded, or the ones the pruning agent reported. *)
Inductive Memories (J : Type) : Type :=
| Recorded (ms : list (FlatMemory J))
| Reported (ms : list J).

(** [MemoryAnalysisResult] (types.ts) *)
Record MemoryAnalysisResult (J : Type) : Type := mkAnalysisResult {
  relevantMemories : Memories J;
  prunedMemories : Memories J;
  contextSummary : string;
  cleanupRecommendations : list string
}.

(** The symbols that open some lines of the execution log. *)
Definition cross_mark : string := "❌".
Definition target_mark : string := "🎯".
Definition cycle_mark : string := "🔄".

(** A text of several lines. *)
Definition lines (ls : list string) : string := join nl ls.

(** [x || d] for a string [x] that may be [undefined]. *)
Definition or_else (x : option string) (d : string) : string :=
  match x with
  | Some EmptyString | None => d
  | Some v => v
  end.

(** [`${x}`] for a string [x] that may be [undefined]. *)
Definition interpolate (x : option string) : string :=
  match x with Some v => v | None => "undefined" end.

(** [response.split('```json')[1]?.split('```')[0] || response] *)
Definition jsonBlock (response : string) : string :=
  or_else
    (match nth_error (split "```json" response) 1 with
     | Some fenced => nth_error (split "```" fenced) 0
     | None => None
     end)
    response.

Section Orchestrator.

Context {H : Host}.

(** The world together with the requests posted so far; [sent] is a
    ghost field, the program does not read it. *)
Record Sys : Type := mkSys { world : World; sent : list GrokApiRequest }.

(** [EnhancedGrokApiClient.chat] *)
Definition chat (request : GrokApiRequest) (s : Sys) : Outcome string * Sys :=
  let (reply, w) := post request (world s) in
  let s' := mkSys w (push (sent s) request) in
  match reply with
  | Replied c => (Returned (or_else c "No response from Grok"), s')
  | PostFailed m => (Raised (Error ("Failed to communicate with Grok API: " ++ m)), s')
  end.

(** [getMemoryTypeForRole].  (A role that names a property of
    [Object.prototype] is outside the table and outside this model.) *)
Definition memoryTypes : Map string :=
  [ ("interpreter", "requirements-analysis");
    ("analysis", "codebase-analysis");
    ("retrieval", "code-snippets");
    ("judge", "quality-assessment");
    ("coder", "implementation-patterns");
    ("quality-judge", "testing-insights");
    ("supervisor", "pipeline-optimization") ].

Definition getMemoryTypeForRole (agentRole : string) : string :=
  or_else (Map_get memoryTypes agentRole) "general-experience".

(** [createMemoryAnalysisAgent] *)
Definition createMemoryAnalysisAgent (targetRole memoryType : string) : Agent :=
  mkAgent
    (targetRole ++ "-memory-agent")
    ("Memory analysis agent for " ++ targetRole)
    (lines [
       "You are a specialized memory analysis agent for the " ++ quoted targetRole
         ++ " role. Your task is to analyze completed work and extract key learnings, insights, and contextual information that should be stored as memories for future use.";
       "";
       "You must respond with a JSON object containing:";
       "{";
       "  " ++ quoted "keyInsights" ++ ": [" ++ quoted "string" ++ "],";
       "  " ++ quoted "technicalDecisions" ++ ": [" ++ quoted "string" ++ "],";
       "  " ++ quoted "contextInformation" ++ ": [" ++ quoted "string" ++ "],";
       "  " ++ quoted "learnings" ++ ": [" ++ quoted "string" ++ "],";
       "  " ++ quoted "relevanceAssessment" ++ ": number // 1-10 scale";
       "}";
       "";
       "Focus on information that would be valuable for:";
       "- Future iterations of similar tasks";
       "- Other agents needing context";
       "- System improvement and learning";
       "- Pattern recognition and reuse";
       "";
       "Be specific, actionable, and focused on long-term value." ])
    [] false.

(** The loop of [calculateMemoryRelevance]. *)
Fixpoint countMatches (memoryText : string) (promptWords : list string)
         (relevanceScore : nat) : nat :=
  match promptWords with
  | [] => relevanceScore
  | word :: rest =>
      countMatches memoryText rest
        (if (3 <? String.length word)%nat && includes memoryText word
         then relevanceScore + 1 else relevanceScore)
  end.

(** [calculateMemoryRelevance] *)
Definition calculateMemoryRelevance (memoryContent : JSON) (userPrompt : string) : nat :=
  let promptWords := split_ws (toLowerCase userPrompt) in
  let memoryText := toLowerCase (JSON_stringify memoryContent) in
  Nat.min (countMatches memoryText promptWords 0) 10.

(** [determineRetentionFlags] *)
Definition determineRetentionFlags (agentRole : string) (memoryContent : JSON)
  : list string :=
  let text := JSON_stringify memoryContent in
  ((if String.eqb agentRole "interpreter"
    then ["core-interpretation"; "permanent-retention"] else [])
  ++ (if String.eqb agentRole "coder" || String.eqb agentRole "analysis"
      then ["implementation-patterns"; "technical-decisions"] else [])
  ++ (if includes agentRole "judge"
      then ["quality-insights"; "error-prevention"] else [])
  ++ (if includes text "error" || includes text "bug" || includes text "fix"
      then ["problem-resolution"] else []))%list.

(** [generateAgentMemory] *)
Definition generateAgentMemory (agentRole : string) (output : AgentOutput)
           (userPrompt : string) (context : AgentContext) (s : Sys)
  : Outcome (AgentMemory JSON) * Sys :=
  let memoryType := getMemoryTypeForRole agentRole in
  let memoryAgent := createMemoryAnalysisAgent agentRole memoryType in
  let prompt := lines [
    "Based on your role as " ++ quoted agentRole ++ " in this development pipeline:";
    "";
    "Original User Request: " ++ quoted userPrompt;
    "Your Work Output: " ++ quoted (take 2000 (stringify_output output));
    "Pipeline Context: " ++ of_nat (Map_size (results context)) ++ " total results generated";
    "";
    "Create a memory entry that captures the most important learnings, insights, or contextual information that other agents (or future iterations of yourself) should remember. Focus on:";
    "";
    "1. **Key Insights** you gained about the user's requirements";
    "2. **Technical Decisions** you made and why";
    "3. **Context Information** that's relevant for related future tasks";
    "4. **Patterns or Lessons** that could help with similar work";
    "";
    "Keep it concise but comprehensive - this memory will be used to improve future pipeline executions." ] in
  match chat (mkRequest [ mkMessage "system" (systemPrompt memoryAgent);
                          mkMessage "user" prompt ]
                        "grok-code-fast-1" 1 1000) s with
  | (Raised e, s1) => (Raised e, s1)
  | (Returned response, s1) =>
      match JSON_parse (jsonBlock response) with
      | Raised e => (Raised e, s1)
      | Returned memoryContent =>
          (Returned (mkMemory agentRole memoryType memoryContent (now (world s1))
                       (calculateMemoryRelevance memoryContent userPrompt)
                       (determineRetentionFlags agentRole memoryContent)),
           s1)
      end
  end.


(** [createMemoryPruningAgent] *)
Definition createMemoryPruningAgent : Agent :=
  mkAgent
    "memory-pruner-agent"
    "Intelligent memory cleanup and pruning agent"
    (lines [
       "You are the Memory Pruning Agent, a highly sophisticated AI specializing in intelligent memory management for agent pipelines.";
       "";
       "Your MISSION:";
       "- ANALYZE: Examine all agent memories against current task needs";
       "- PRESERVE: Always maintain the original user prompt interpretation";
       "- PRUNE: Remove irrelevant, outdated, or redundant memories";
       "- OPTIMIZE: Keep useful context while reducing cognitive load";
       "- RECOMMEND: Provide insights for better memory management";
       "";
       "KEY PRINCIPLES:";
       "1. **Original Interpretation FIRST**: The interpreter agent's understanding is sacred";
       "2. **Task Relevance SECOND**: Memories must relate to current work";
       "3. **Signal vs Noise THIRD**: Useful information over accumulated clutter";
       "4. **Learning Opportunities**: Identify patterns for future improvement";
       "";
       "ALWAYS respond with valid JSON. Focus on creating cleaner, more focused memory contexts for optimal agent performance." ])
    [] false.

(** [Array.from(agentMemories.entries()).flatMap(...)] *)
Definition flattenMemories (agentMemories : Map (list (AgentMemory JSON)))
  : list (FlatMemory JSON) :=
  flat_map (fun entry => List.map (mkFlat (fst entry)) (snd entry)) agentMemories.

(** The user message of [pruneAgentMemories]. *)
Definition pruningPrompt (originalUserPrompt currentPrompt : string)
           (allMemories : list (FlatMemory JSON)) : string :=
  lines [
    "MEMORY PRUNING ANALYSIS:";
    "";
    "ORIGINAL USER PROMPT: " ++ quoted originalUserPrompt;
    "CURRENT TASK CONTEXT: " ++ quoted currentPrompt;
    "";
    "ALL RECORDED MEMORIES FROM PIPELINE EXECUTION:";
    stringify_memories (firstn 10 allMemories) ++ " // Limit to prevent token overflow";
    "";
    "INSTRUCTIONS:";
    "1. EVALUATE all memories against the CURRENT TASK CONTEXT";
    "2. RETAIN the original interpretation (highest priority)";
    "3. KEEP memories directly relevant to current work";
    "4. PRUNE outdated, irrelevant, or redundant information";
    "5. FOCUS on maintaining core understanding while reducing noise";
    "";
    "PROVIDE ANALYSIS IN THIS JSON FORMAT:";
    "{";
    "  " ++ quoted "coreInterpretationMemory" ++ ": { /* the original interpreter memory */ },";
    "  " ++ quoted "relevantMemories" ++ ": [ /* list of memories to keep */ ],";
    "  " ++ quoted "prunedMemories" ++ ": [ /* list of memories to discard */ ],";
    "  " ++ quoted "contextSummary" ++ ": " ++ quoted "Summary of what's retained vs removed" ++ ",";
    "  " ++ quoted "cleanupRecommendations" ++ ": [" ++ quoted "suggestions for future memory management" ++ "]";
    "}";
    "";
    "BE CAREFUL: Preserve the original prompt interpretation but intelligently prune based on relevance to current task." ].

Definition pruningRequest (originalUserPrompt currentPrompt : string)
           (allMemories : list (FlatMemory JSON)) : GrokApiRequest :=
  let pruningAgent := createMemoryPruningAgent in
  let prompt := pruningPrompt originalUserPrompt currentPrompt allMemories in
  mkRequest [ mkMessage "system" (systemPrompt pruningAgent);
              mkMessage "user" prompt ]
            "grok-code-fast-1" 1 1500.

(** [pruneAgentMemories].  The call to the pruning agent stands before
    the [try]: its failure is thrown to the caller. *)
Definition pruneAgentMemories (originalUserPrompt : string)
           (agentMemories : Map (list (AgentMemory JSON)))
           (currentPrompt : string) (s : Sys)
  : Outcome (MemoryAnalysisResult JSON) * Sys :=
  let allMemories := flattenMemories agentMemories in
  match chat (pruningRequest originalUserPrompt currentPrompt allMemories) s with
  | (Raised e, s1) => (Raised e, s1)
  | (Returned response, s1) =>
      match parse_analysis (jsonBlock response) with
      | Returned analysis =>
          (Returned
             (mkAnalysisResult
                (Reported (match an_relevantMemories analysis with
                           | Some ms => ms | None => [] end))
                (Reported (match an_prunedMemories analysis with
                           | Some ms => ms | None => [] end))
                (or_else (an_contextSummary analysis) "Memory analysis completed")
                (match an_cleanupRecommendations analysis with
                 | Some rs => rs | None => [] end)),
           s1)
      | Raised parseError =>
          (Returned
             (mkAnalysisResult
                (Recorded (firstn 5 allMemories))
                (Recorded (skipn 5 allMemories))
                "Automatic pruning performed due to parsing error"
                ["Implement better JSON parsing for memory analysis"]),
           s1)
      end
  end.


(* ---------------------------------------------------------------- *)
(** *** The registered pipelines *)

(** [createAgentWithRole] *)
Definition createAgentWithRole (name role systemPrompt : string) : Agent :=
  mkAgent
    (name ++ "-agent")
    (role ++ " agent for multi-agent pipelines")
    systemPrompt
    [role; "multi-agent"; "specialized"]
    (includes role "analysis" || includes role "supervisor").

(** [`${ctx.results.get(key)}`] *)
Definition result_text (ctx : AgentContext) (key : string) : string :=
  interpolate (Map_get (results ctx) key).

(** [createCodeDevelopmentSteps] *)
Definition createCodeDevelopmentSteps : list AgentStep :=
  let interpreterAgent := createAgentWithRole "interpreter" "interpret" "Expert at understanding user requirements..." in
  let analysisAgent := createAgentWithRole "analysis" "analyze" "Code analysis expert..." in
  let codeRetrievalAgent := createAgentWithRole "retrieval" "retrieve" "Precision code retriever..." in
  let judgeAgent := createAgentWithRole "judge" "judge" "Code appropriateness judge..." in
  let coderAgent := createAgentWithRole "coder" "code" "Production code generation expert..." in
  let qualityJudgeAgent := createAgentWithRole "quality-judge" "quality-check" "Quality assurance expert..." in
  let supervisorAgent := createAgentWithRole "supervisor" "supervise" "Pipeline supervisor..." in
  [ mkStep interpreterAgent "interpreter"
      (fun ctx => "Analyze this user request and provide a clear interpretation: "
                  ++ quoted (userPrompt ctx))
      (Some "interpretation");
    mkStep analysisAgent "analysis"
      (fun ctx => "Using this interpretation " ++ quoted (result_text ctx "interpretation")
                  ++ ", analyze the codebase and identify relevant files and components. Focus on what needs to be modified or created.")
      (Some "analysis");
    mkStep codeRetrievalAgent "retrieval"
      (fun ctx => "Based on this analysis " ++ quoted (result_text ctx "analysis")
                  ++ ", extract the exact relevant code segments from the identified files. Preserve all type signatures, imports, and comments verbatim.")
      (Some "code_segments");
    mkStep judgeAgent "judge"
      (fun ctx => "Evaluate if these code segments " ++ quoted (result_text ctx "code_segments")
                  ++ " are appropriate for the task " ++ quoted (userPrompt ctx)
                  ++ ". Provide specific feedback on relevance and completeness.")
      (Some "judgment");
    mkStep coderAgent "coder"
      (fun ctx => lines [
         "Generate production code for " ++ quoted (userPrompt ctx) ++ " using this context:";
         "        - Interpretation: " ++ result_text ctx "interpretation";
         "        - Analysis: " ++ result_text ctx "analysis";
         "        - Code segments: " ++ result_text ctx "code_segments";
         "        - Judge feedback: " ++ result_text ctx "judgment";
         "";
         "        Write complete, functional code following best practices." ])
      (Some "generated_code");
    mkStep qualityJudgeAgent "quality-check"
      (fun ctx => "Review this generated code " ++ quoted (result_text ctx "generated_code")
                  ++ " for the task " ++ quoted (userPrompt ctx)
                  ++ ". Check syntax, logic, integration, and provide detailed feedback on any issues.")
      (Some "quality_assessment");
    mkStep supervisorAgent "supervisor"
      (fun ctx => lines [
         "";
         "Pipeline Summary:";
         "        - Steps completed: " ++ of_nat (stepCount ctx) ++ "/" ++ of_nat (maxSteps ctx);
         "        - Errors encountered: "
           ++ (if (0 <? List.length (errors ctx))%nat then join ", " (errors ctx) else "None");
         "        - Final result ready: " ++ of_bool (Map_has (results ctx) "generated_code");
         "";
         "        Provide overall pipeline success assessment and final deliverable." ])
      (Some "final_summary") ].

(** [createAnalysisSteps] *)
Definition createAnalysisSteps : list AgentStep :=
  let analysisOnlyAgent := createAgentWithRole "analyzer" "analyze" (lines [
    "You are a specialized code analysis agent. Your role is to:";
    "    - Perform comprehensive code analysis without generating new code";
    "    - Identify patterns, issues, and optimization opportunities";
    "    - Provide detailed technical recommendations";
    "    - Suggest architectural improvements and best practices";
    "    - Focus on analysis, not implementation" ]) in
  [ mkStep analysisOnlyAgent "analyzer"
      (fun ctx => "Perform comprehensive analysis on: " ++ quoted (userPrompt ctx)
                  ++ ". Provide detailed technical insights, recommendations, and best practices.")
      (Some "analysis") ].

(** The fields of a [MultiAgentOrchestrator] that its methods read and
    write: the registered pipelines and the memory store.  ([apiClient] is
    the [Host]; [agentManager] is not used by the methods below.) *)
Record MultiAgentOrchestrator : Type := mkOrchestrator {
  pipelines : Map AgentPipeline;
  memoryStore : Map (list (AgentMemory JSON))
}.

(** The two pipelines of [initializePipelines]. *)
Definition codeDevelopmentPipeline : AgentPipeline :=
  mkPipeline "code-development" "Code Development Pipeline"
    "Full software development pipeline with specialized agents"
    true createCodeDevelopmentSteps.

Definition analysisOnlyPipeline : AgentPipeline :=
  mkPipeline "analysis-only" "Analysis Pipeline"
    "Analysis and recommendation pipeline without code generation"
    true createAnalysisSteps.

(** [initializePipelines]: both pipelines are registered under their id. *)
Definition initializePipelines : Map AgentPipeline :=
  fold_left (fun registry pipeline => Map_set registry (id pipeline) pipeline)
    [ codeDevelopmentPipeline; analysisOnlyPipeline ]
    [].

(** [new MultiAgentOrchestrator(apiKey)] *)
Definition newMultiAgentOrchestrator : MultiAgentOrchestrator :=
  mkOrchestrator initializePipelines [].

(** [getAvailablePipelines] *)
Definition getAvailablePipelines (self : MultiAgentOrchestrator) : list AgentPipeline :=
  filter enabled (Map_values (pipelines self)).

(* ---------------------------------------------------------------- *)
(** *** Static pipelines *)

(** The variables of one run: [context], [executionLog], [agentMemories],
    and the instrumentation [calls]. *)
Record Run : Type := mkRun {
  ctx : AgentContext;
  log : list string;
  memories : Map (list (AgentMemory JSON));
  calls : list AgentCall
}.

Definition with_ctx (r : Run) (c : AgentContext) : Run :=
  mkRun c (log r) (memories r) (calls r).
Definition push_log (r : Run) (line : string) : Run :=
  mkRun (ctx r) (push (log r) line) (memories r) (calls r).
Definition push_call (r : Run) (c : AgentCall) : Run :=
  mkRun (ctx r) (log r) (memories r) (push (calls r) c).

(** [if (!agentMemories.has(agentName)) agentMemories.set(agentName, []);
     agentMemories.get(agentName)!.push(memory)] *)
Definition push_memory (r : Run) (agentName : string) (memory : AgentMemory JSON) : Run :=
  mkRun (ctx r) (log r)
    (Map_set (memories r) agentName
       (push (match Map_get (memories r) agentName with
              | Some ms => ms | None => [] end) memory))
    (calls r).

(** [new Map(), [], stepCount: 0] *)
Definition initialRun (userPrompt : string) (maxSteps : nat) : Run :=
  mkRun (mkContext userPrompt [] [] 0 maxSteps) [] [] [].

(** [if (step.outputKey)]: a key that is present and not empty. *)
Definition truthy_key (k : option string) : option string :=
  match k with
  | Some EmptyString | None => None
  | Some key => Some key
  end.

Definition stepRequest (step : AgentStep) (prompt : string) : GrokApiRequest :=
  mkRequest [ mkMessage "system" (systemPrompt (step_agent step));
              mkMessage "user" prompt ]
            "grok-code-fast-1" 2 2000.

(** The [for] loop of [executePipeline] from index [i] on, [steps] being
    [pipeline.steps.slice(i)] and [total] being [pipeline.steps.length]. *)
Fixpoint pipelineLoop (total i : nat) (steps : list AgentStep) (r : Run) (s : Sys)
  : Run * Sys :=
  match steps with
  | [] => (r, s)
  | step :: rest =>
      let r := with_ctx r (set_stepCount (ctx r) (i + 1)) in
      let r := push_log r ("Executing step " ++ of_nat (i + 1) ++ "/" ++ of_nat total
                           ++ ": " ++ role step) in
      let prompt := inputMap step (ctx r) in
      match chat (stepRequest step prompt) s with
      | (Returned response, s) =>
          let r := match truthy_key (outputKey step) with
                   | Some key => with_ctx r (set_result (ctx r) key response)
                   | None => r
                   end in
          let r := push_log r ("Step " ++ role step ++ " completed successfully") in
          let r := push_call r (mkCall (role step) prompt true) in
          pipelineLoop total (i + 1) rest r s
      | (Raised error, s) =>
          let errorMsg := "Step " ++ role step ++ " failed: " ++ message error in
          let r := with_ctx r (push_error (ctx r) errorMsg) in
          let r := push_log r ("ERROR: " ++ errorMsg) in
          let r := push_call r (mkCall (role step) prompt false) in
          if String.eqb (role step) "supervisor"
          then (r, s)
          else pipelineLoop total (i + 1) rest r s
      end
  end.

(** [context.results.get('final_summary') || context.results.get('generated_code') || placeholder] *)
Definition selectFinalResult (c : AgentContext) (placeholder : string) : string :=
  or_else (Map_get (results c) "final_summary")
    (or_else (Map_get (results c) "generated_code") placeholder).

(** [this.pipelines.get(pipelineId)] with the guard
    [if (!pipeline || !pipeline.enabled) throw ...] *)
Definition lookupPipeline (self : MultiAgentOrchestrator) (pipelineId : string)
  : Outcome AgentPipeline :=
  match Map_get (pipelines self) pipelineId with
  | Some pipeline =>
      if enabled pipeline then Returned pipeline
      else Raised (Error ("Pipeline " ++ pipelineId ++ " not found or disabled"))
  | None => Raised (Error ("Pipeline " ++ pipelineId ++ " not found or disabled"))
  end.

(** [executePipeline] *)
Definition executePipeline (self : MultiAgentOrchestrator)
           (pipelineId userPrompt : string) (s : Sys)
  : Outcome (PipelineResult JSON) * Sys :=
  match lookupPipeline self pipelineId with
  | Raised e => (Raised e, s)
  | Returned pipeline =>
      let total := List.length (steps pipeline) in
      let (r, s) := pipelineLoop total 0 (steps pipeline) (initialRun userPrompt total) s in
      (Returned (mkResult
                   (Nat.eqb (List.length (errors (ctx r))) 0)
                   (selectFinalResult (ctx r) "Pipeline completed")
                   (ctx r) (log r) None (calls r)),
       s)
  end.

(** The [for] loop of [executePipelineWithMemory]. *)
Fixpoint memoryLoop (userPrompt : string) (total i : nat) (steps : list AgentStep)
         (r : Run) (s : Sys) : Run * Sys :=
  match steps with
  | [] => (r, s)
  | step :: rest =>
      let r := with_ctx r (set_stepCount (ctx r) (i + 1)) in
      let r := push_log r ("Executing step " ++ of_nat (i + 1) ++ "/" ++ of_nat total
                           ++ ": " ++ role step) in
      let prompt := inputMap step (ctx r) in
      match chat (stepRequest step prompt) s with
      | (Returned response, s) =>
          let (r, s) :=
            match truthy_key (outputKey step) with
            | Some key =>
                let r := with_ctx r (set_result (ctx r) key response) in
                match generateAgentMemory (role step) (ResponseText response)
                        userPrompt (ctx r) s with
                | (Returned memory, s) =>
                    let agentName := role step ++ "-agent" in
                    let r := push_memory r agentName memory in
                    (push_log r ("Memory generated for " ++ role step), s)
                | (Raised memoryError, s) =>
                    (push_log r ("Memory generation failed for " ++ role step ++ ": "
                                 ++ exn_toString memoryError), s)
                end
            | None => (r, s)
            end in
          let r := push_log r ("Step " ++ role step ++ " completed successfully") in
          let r := push_call r (mkCall (role step) prompt true) in
          memoryLoop userPrompt total (i + 1) rest r s
      | (Raised error, s) =>
          let errorMsg := "Step " ++ role step ++ " failed: " ++ message error in
          let r := with_ctx r (push_error (ctx r) errorMsg) in
          let r := push_log r ("ERROR: " ++ errorMsg) in
          let r := push_call r (mkCall (role step) prompt false) in
          memoryLoop userPrompt total (i + 1) rest r s
      end
  end.

(** [storeAgentMemories] *)
Definition storeAgentMemories (self : MultiAgentOrchestrator) (pipelineId : string)
           (memories : Map (list (AgentMemory JSON))) (s : Sys)
  : MultiAgentOrchestrator :=
  let key := "pipeline-" ++ pipelineId ++ "-" ++ of_N (now (world s)) in
  mkOrchestrator (pipelines self)
    (Map_set (memoryStore self) key (List.concat (Map_values memories))).

(** [executePipelineWithMemory] *)
Definition executePipelineWithMemory (self : MultiAgentOrchestrator)
           (pipelineId userPrompt : string) (s : Sys)
  : Outcome (PipelineResult JSON) * MultiAgentOrchestrator * Sys :=
  match lookupPipeline self pipelineId with
  | Raised e => (Raised e, self, s)
  | Returned pipeline =>
      let total := List.length (steps pipeline) in
      let (r, s) := memoryLoop userPrompt total 0 (steps pipeline)
                      (initialRun userPrompt total) s in
      let self := storeAgentMemories self pipelineId (memories r) s in
      (Returned (mkResult
                   (Nat.eqb (List.length (errors (ctx r))) 0)
                   (selectFinalResult (ctx r) "Pipeline completed")
                   (ctx r) (log r) (Some (memories r)) (calls r)),
       self, s)
  end.


(* ---------------------------------------------------------------- *)
(** *** Intelligent orchestration *)

Definition qualityAssurancePrompt : string :=
  lines [
    "You are a quality assurance expert. Your role is to:";
    "- Validate code quality and correctness";
    "- Identify syntax, logic, and integration issues";
    "- Assess completeness and appropriateness";
    "- Provide specific, actionable feedback";
    "- Ensure production readiness";
    "";
    "Be thorough, critical, and specific in your evaluations." ].

(** The table of [getSystemPromptForAgent]. *)
Definition prompts : Map string :=
  [ ("interpreter", lines [
       "You are an expert requirements interpreter. Your role is to:";
       "- Break down user requests into clear, actionable tasks";
       "- Identify technical components, languages, frameworks needed";
       "- Determine what specific outcomes are required";
       "- Provide strategic guidance for subsequent agents";
       "";
       "Focus on understanding INTENT and providing clear interpretations that guide technical execution." ]);
    ("analysis", lines [
       "You are a code analysis expert. Your role is to:";
       "- Examine project structure and identify relevant files";
       "- Analyze existing code patterns and architectures";
       "- Determine what code needs to be modified or created";
       "- Provide detailed technical assessments";
       "- Use file reading/analysis tools to understand context";
       "";
       "Provide comprehensive analysis that other agents can use to make informed decisions." ]);
    ("retrieval", lines [
       "You are a precision code retriever. Your role is to:";
       "- Extract verbatim code segments from specified files";
       "- Preserve exact imports, signatures, comments, and formatting";
       "- Handle cross-file dependencies accurately";
       "- Provide complete, accurate code snippets";
       "- Focus on precision and completeness";
       "";
       "Every character must be preserved exactly as it appears in the source code." ]);
    ("coder", lines [
       "You are a production code generation expert. Your role is to:";
       "- Write high-quality, production-ready code";
       "- Implement exact requirements and specifications";
       "- Follow best practices, patterns, and conventions";
       "- Include proper error handling and documentation";
       "- Generate immediately buildable and runnable code";
       "";
       "Focus on quality, correctness, and production-readiness." ]);
    ("judge", qualityAssurancePrompt);
    ("quality-judge", qualityAssurancePrompt);
    ("supervisor", lines [
       "You are the pipeline supervisor. Your role is to:";
       "- Monitor overall pipeline execution";
       "- Ensure successful completion of objectives";
       "- Handle coordination and quality control";
       "- Provide final assessments and deliverables";
       "- Maintain pipeline integrity";
       "";
       "Focus on successful task completion and quality outcomes." ]) ].

(** [getSystemPromptForAgent] *)
Definition getSystemPromptForAgent (agentRole : string) : string :=
  or_else (Map_get prompts agentRole) ("You are a specialized " ++ agentRole ++ " agent.").

(** [executeSingleAgent]: the flag is [success] of what it returns. *)
Definition executeSingleAgent (agentRole instructions userPrompt : string)
           (r : Run) (s : Sys) : bool * Run * Sys :=
  let r := push_log r ("Executing " ++ agentRole ++ " agent...") in
  let agent := createAgentWithRole agentRole agentRole (getSystemPromptForAgent agentRole) in
  let messages := [ mkMessage "system" (systemPrompt agent);
                    mkMessage "user" instructions ] in
  match chat (mkRequest messages "grok-code-fast-1" 2 2000) s with
  | (Returned response, s) =>
      let outputKey := agentRole ++ "_result" in
      let r := with_ctx r (set_result (ctx r) outputKey response) in
      let r := with_ctx r (set_stepCount (ctx r) (stepCount (ctx r) + 1)) in
      let (r, s) :=
        match generateAgentMemory agentRole (InstructedResponse instructions response)
                userPrompt (ctx r) s with
        | (Returned memory, s) =>
            let agentName := agentRole ++ "-agent" in
            (push_memory r agentName memory, s)
        | (Raised memoryError, s) =>
            (push_log r ("Memory generation failed for " ++ agentRole ++ ": "
                         ++ exn_toString memoryError), s)
        end in
      let r := push_log r (agentRole ++ " completed successfully") in
      (true, push_call r (mkCall agentRole instructions true), s)
  | (Raised error, s) =>
      let errorMsg := agentRole ++ " failed: " ++ message error in
      let r := with_ctx r (push_error (ctx r) errorMsg) in
      let r := push_log r (cross_mark ++ " " ++ errorMsg) in
      (false, push_call r (mkCall agentRole instructions false), s)
  end.

(** The plan [determineWorkflowFromInterpretation] falls back to. *)
Definition fallbackWorkflow (interpretation : string) : WorkflowPlan :=
  mkPlan
    [ mkPlanned "analysis" ("Analyze codebase for: " ++ interpretation) true None None;
      mkPlanned "coder" ("Generate code based on analysis: " ++ interpretation) true None None;
      mkPlanned "judge" "Review the generated code for quality and correctness" false None None ].

Definition workflowDirectorPrompt : string :=
  lines [
    "You are a workflow director who determines the optimal sequence of agents to execute based on user requirements.";
    "";
    "Available agents and their capabilities:";
    "- ANALYSIS: Examines codebase structure, finds relevant files, analyzes dependencies";
    "- RETRIEVAL: Extracts verbatim code segments from specific files";
    "- CODER: Generates new code or modifies existing code";
    "- JUDGE: Validates code quality, appropriateness, and completeness";
    "";
    "Your task: Analyze the interpretation and create an optimal workflow of agents. Return JSON:";
    "{";
    "  " ++ quoted "steps" ++ ": [";
    "    {";
    "      " ++ quoted "agent" ++ ": " ++ quoted "analysis|retrieval|coder|judge" ++ ",";
    "      " ++ quoted "instructions" ++ ": " ++ quoted "Detailed instructions for this agent" ++ ",";
    "      " ++ quoted "required" ++ ": true|false,";
    "      " ++ quoted "iterativeFeedback" ++ ": true|false (if this step can iterate),";
    "      " ++ quoted "feedbackOutput" ++ ": " ++ quoted "output_key_to_check" ++ " (for iteration)";
    "    }";
    "  ]";
    "}" ].

(** The user message of [determineWorkflowFromInterpretation]. *)
Definition workflowRequestText (interpretation originalPrompt : string) : string :=
  "User Request: " ++ quoted originalPrompt ++ nl
  ++ "Interpretation: " ++ quoted interpretation ++ nl ++ nl
  ++ "Determine the optimal workflow sequence of agents.".

(** [determineWorkflowFromInterpretation].  The call to the director
    stands before the [try]: its failure is thrown to the caller.  The
    [try] holds [JSON.parse] alone: whatever value it gives is returned
    as it is, and the plan of the [catch] only when it throws. *)
Definition determineWorkflowFromInterpretation (interpretation originalPrompt : string)
           (s : Sys) : Outcome PlanReading * Sys :=
  let agent := createAgentWithRole "workflow-director" "orchestrate" workflowDirectorPrompt in
  let messages := [ mkMessage "system" (systemPrompt agent);
                    mkMessage "user" (workflowRequestText interpretation originalPrompt) ] in
  match chat (mkRequest messages "grok-code-fast-1" 1 1500) s with
  | (Raised e, s) => (Raised e, s)
  | (Returned response, s) =>
      match parse_plan (jsonBlock response) with
      | Returned reading => (Returned reading, s)
      | Raised e => (Returned (Planned (fallbackWorkflow interpretation)), s)
      end
  end.

(** [qualityCheck.toLowerCase().includes('error') || ... ] *)
Definition signalsIssues (qualityCheck : string) : bool :=
  includes (toLowerCase qualityCheck) "error"
  || includes (toLowerCase qualityCheck) "issues"
  || includes (toLowerCase qualityCheck) "fix needed".

(** [step.iterativeFeedback && context.results.has(step.feedbackOutput)],
    and then the text under that key, [|| ''] *)
Definition feedbackFor (step : PlannedStep) (c : AgentContext) : option string :=
  match iterativeFeedback step, feedbackOutput step with
  | Some true, Some key =>
      match Map_get (results c) key with
      | Some v => Some (or_else (Some v) "")
      | None => None
      end
  | _, _ => None
  end.

Definition iterationInstructions (step : PlannedStep) (qualityCheck : string) : string :=
  instructions step ++ nl ++ nl ++ "PREVIOUS FEEDBACK FROM QUALITY CHECK:" ++ nl
  ++ qualityCheck ++ nl ++ nl ++ "Please address these issues and improve the solution.".

(** The body of the loop over [workflowPlan.steps]; the flag is [false]
    when the body leaves the loop by [break]. *)
Definition workflowStep (userPrompt : string) (step : PlannedStep) (r : Run) (s : Sys)
  : bool * Run * Sys :=
  let '(ok, r, s) := executeSingleAgent (plan_agent step) (instructions step)
                       userPrompt r s in
  if negb ok && required step
  then (false,
        push_log r (cross_mark ++ " Required step '" ++ plan_agent step
                    ++ "' failed - stopping workflow"),
        s)
  else
    match feedbackFor step (ctx r) with
    | Some qualityCheck =>
        if signalsIssues qualityCheck
        then
          let r := push_log r (cycle_mark ++ " Quality issues detected - sending feedback to "
                               ++ plan_agent step ++ " for iteration") in
          let '(_, r, s) := executeSingleAgent (plan_agent step)
                              (iterationInstructions step qualityCheck) userPrompt r s in
          (true, r, s)
        else (true, r, s)
    | None => (true, r, s)
    end.

Fixpoint workflowLoop (userPrompt : string) (steps : list PlannedStep) (r : Run) (s : Sys)
  : Run * Sys :=
  match steps with
  | [] => (r, s)
  | step :: rest =>
      let '(continue, r, s) := workflowStep userPrompt step r s in
      if continue then workflowLoop userPrompt rest r s else (r, s)
  end.

Definition interpreterInstructions (userPrompt : string) : string :=
  lines [
    "Analyze this user request and determine what needs to be done: " ++ quoted userPrompt;
    "";
    "Based on the request, decide which AGENT should run NEXT and provide specific instructions for that agent.";
    "";
    "Available agents:";
    "- ANALYSIS: Codebase examination and structure analysis";
    "- RETRIEVAL: Specific code extraction and verbatim copying";
    "- CODER: Code generation and implementation";
    "- JUDGE: Quality assessment and validation";
    "";
    "Choose the most appropriate next agent and provide detailed instructions for what it should accomplish." ].

Definition supervisorInstructions (userPrompt interpretation : string) (r : Run) : string :=
  lines [
    "";
    "Pipeline Completion Summary:";
    "      - Original Request: " ++ quoted userPrompt;
    "      - Interpretation: " ++ interpretation;
    "      - Steps Executed: "
      ++ of_nat (List.length (filter (fun l => includes l "completed") (log r)));
    "      - Results Generated: "
      ++ join (nl ++ "        ")
           (List.map (fun kv => fst kv ++ ": " ++ take 100 (snd kv) ++ "...")
                     (results (ctx r)));
    "";
    "      Provide the final deliverable and completion assessment." ].

(** [executeIntelligentOrchestration].  The header of the loop over the
    plan, [workflowPlan.steps.length], stands in no [try]: on a value
    without steps its [TypeError] is thrown to the caller. *)
Definition executeIntelligentOrchestration (userPrompt : string) (s : Sys)
  : Outcome (PipelineResult JSON) * Sys :=
  let r := initialRun userPrompt 10 in
  let '(interpreterOk, r, s) :=
    executeSingleAgent "interpreter" (interpreterInstructions userPrompt) userPrompt r s in
  if negb interpreterOk
  then (Returned (mkResult false "Interpretation failed - cannot determine next steps"
                    (ctx r)
                    (push (log r) (cross_mark ++ " Pipeline failed at interpretation stage"))
                    None (calls r)),
        s)
  else
    let interpretation := or_else (Map_get (results (ctx r)) "interpretation") "" in
    match determineWorkflowFromInterpretation interpretation userPrompt s with
    | (Raised e, s) => (Raised e, s)
    | (Returned (Planless typeError), s) => (Raised typeError, s)
    | (Returned (Planned workflowPlan), s) =>
        let r := push_log r (target_mark ++ " Workflow determined: "
                             ++ stringify_plan workflowPlan) in
        let (r, s) := workflowLoop userPrompt (plan_steps workflowPlan) r s in
        let '(supervisorOk, r, s) :=
          executeSingleAgent "supervisor" (supervisorInstructions userPrompt interpretation r)
            userPrompt r s in
        (Returned (mkResult supervisorOk
                     (selectFinalResult (ctx r) "Workflow completed")
                     (ctx r) (log r) (Some (memories r)) (calls r)),
         s)
    end.

(* ---------------------------------------------------------------- *)
(** *** The other methods of the orchestrator and of the client *)

(** The loop of [EnhancedGrokApiClient.robustRequest]: [attempts] is the
    number of attempts still to make, [lastError] the error of the attempt
    before.  The loop ends with the response of the first attempt that
    succeeds, or with the last error.  (The wait between two attempts is
    left out.) *)
Fixpoint robustAttempts (request : GrokApiRequest) (attempts : nat)
         (lastError : option exn) (s : Sys) : (string + option exn) * Sys :=
  match attempts with
  | 0 => (inr lastError, s)
  | S remaining =>
      match chat request s with
      | (Returned response, s) => (inl response, s)
      | (Raised error, s) => robustAttempts request remaining (Some error) s
      end
  end.

(** [EnhancedGrokApiClient.robustRequest].  [maxRetries] is an integer, 3
    when the caller gives none; the loop
    [for (attempt = 1; attempt <= maxRetries; attempt++)] makes no attempt
    when it is zero or negative.  (A [maxRetries] that is no integer is
    left out.) *)
Definition robustRequest (request : GrokApiRequest) (maxRetries : option Z) (s : Sys)
  : Outcome string * Sys :=
  let maxRetries := match maxRetries with Some n => n | None => 3%Z end in
  match robustAttempts request (Z.to_nat maxRetries) None s with
  | (inl response, s) => (Returned response, s)
  | (inr lastError, s) =>
      (Raised (Error ("All " ++ of_Z maxRetries ++ " attempts failed. Last error: "
                      ++ interpolate (option_map message lastError))),
       s)
  end.

(** The request of [analyzeWorkflowChoice]. *)
Definition workflowChoiceRequest (prompt : string) : GrokApiRequest :=
  let agent := createAgentWithRole "workflow-director" "orchestrate"
                 "You are a workflow director. Analyze this request and determine the optimal agent workflow without executing it. Return a detailed analysis of what agents would be needed and why." in
  mkRequest [ mkMessage "system" (systemPrompt agent);
              mkMessage "user" ("Request: " ++ quoted prompt ++ nl ++ nl
                                ++ "What agents should handle this? Why? Provide detailed analysis without executing.") ]
            "grok-code-fast-1" 1 800.

(** [analyzeWorkflowChoice] *)
Definition analyzeWorkflowChoice (prompt : string) (s : Sys) : Outcome string * Sys :=
  chat (workflowChoiceRequest prompt) s.

(** [runCodeDevelopmentPipeline] and [runAnalysisPipeline] *)
Definition runCodeDevelopmentPipeline (self : MultiAgentOrchestrator)
           (userPrompt : string) (s : Sys) : Outcome (PipelineResult JSON) * Sys :=
  executePipeline self "code-development" userPrompt s.

Definition runAnalysisPipeline (self : MultiAgentOrchestrator)
           (userPrompt : string) (s : Sys) : Outcome (PipelineResult JSON) * Sys :=
  executePipeline self "analysis-only" userPrompt s.

(** The memories [analyzeMemoriesForPipeline] collects: those of the
    entries of the store whose key starts with [`pipeline-${pipelineId}`],
    in the order of the store. *)
Definition storedMemoriesFor (self : MultiAgentOrchestrator) (pipelineId : string)
  : list (AgentMemory JSON) :=
  List.concat
    (List.map snd
       (filter (fun entry => startsWith ("pipeline-" ++ pipelineId) (fst entry))
               (memoryStore self))).

(** [if (!m.has(k)) m.set(k, []); m.get(k)!.push(v)] *)
Definition Map_push {V} (m : Map (list V)) (k : string) (v : V) : Map (list V) :=
  Map_set m k (push (match Map_get m k with Some vs => vs | None => [] end) v).

(** The grouping of [analyzeMemoriesForPipeline]: by [agentRole]. *)
Definition groupByRole (memories : list (AgentMemory JSON))
  : Map (list (AgentMemory JSON)) :=
  fold_left (fun groupedMemories memory =>
               Map_push groupedMemories (agentRole memory) memory)
            memories [].

(** [analyzeMemoriesForPipeline]: [None] is [null]. *)
Definition analyzeMemoriesForPipeline (self : MultiAgentOrchestrator)
           (pipelineId userPrompt : string) (s : Sys)
  : Outcome (option (MemoryAnalysisResult JSON)) * Sys :=
  let memories := storedMemoriesFor self pipelineId in
  if Nat.eqb (List.length memories) 0 then (Returned None, s)
  else
    match pruneAgentMemories userPrompt (groupByRole memories) userPrompt s with
    | (Returned analysis, s) => (Returned (Some analysis), s)
    | (Raised e, s) => (Raised e, s)
    end.



End Orchestrator.

(* ================================================================== *)
(** ** File tool permissions *)
(* ================================================================== *)

(** [FileToolPermissions] (file-tools) *)
Record FileToolPermissions : Type := mkPermissions {
  readPaths : list string;
  writePaths : list string;
  execAllowed : bool   (* [allowExec] *)
}.

(** [Partial<FileToolPermissions>]: a field is [None] when it is absent
    (or [undefined]). *)
Record PartialPermissions : Type := mkPartial {
  newReadPaths : option (list string);
  newWritePaths : option (list string);
  newExecAllowed : option bool
}.

(** [FileTools.updatePermissions]: an array, even an empty one, is truthy,
    so [||] takes the new paths whenever they are given. *)
Definition updatePermissions (permissions : FileToolPermissions)
           (newPermissions : PartialPermissions) : FileToolPermissions :=
  mkPermissions
    (match newReadPaths newPermissions with Some ps => ps | None => readPaths permissions end)
    (match newWritePaths newPermissions with Some ps => ps | None => writePaths permissions end)
    (match newExecAllowed newPermissions with
     | Some b => b | None => execAllowed permissions end).

(** Two updates given as one: the later one wins, field by field. *)
Definition mergePartial (first second : PartialPermissions) : PartialPermissions :=
  mkPartial
    (match newReadPaths second with Some ps => Some ps | None => newReadPaths first end)
    (match newWritePaths second with Some ps => Some ps | None => newWritePaths first end)
    (match newExecAllowed second with Some b => Some b | None => newExecAllowed first end).

(* ================================================================== *)
(** ** The text around the first occurrence of a separator *)
(* ================================================================== *)

(** The text after the first occurrence of [sep] in [s], if there is one. *)
Fixpoint text_after (sep s : string) : option string :=
  if startsWith sep s then Some (drop (String.length sep) s)
  else match s with
       | EmptyString => None
       | String _ r => text_after sep r
       end.

(** The code unit [c] does not occur in [s]. *)
Fixpoint lacks (c : ascii) (s : string) : bool :=
  match s with
  | EmptyString => true
  | String d r => negb (Ascii.eqb c d) && lacks c r
  end.

(** The text before the first occurrence of [sep] in [s]; all of [s] when
    there is none. *)
Fixpoint text_before (sep s : string) : string :=
  if startsWith sep s then ""
  else match s with
       | EmptyString => ""
       | String c r => String c (text_before sep r)
       end.

(* ================================================================== *)
(** ** The specification's reading of the relevance score *)
(* ================================================================== *)

Section RelevanceSpec.

Context {H : Host}.

(** A token counts when it is longer than 3 characters and occurs in the
    text, the case of letters being ignored. *)
Definition token_counts (memoryText token : string) : bool :=
  (3 <? String.length token)%nat
  && includes (toLowerCase memoryText) (toLowerCase token).

(** The white-space separated tokens of the prompt that count. *)
Definition matchingTokens (memoryText userPrompt : string) : list string :=
  filter (token_counts memoryText) (split_ws userPrompt).

(** [min(n, 10)], [n] being the number of tokens that count. *)
Definition relevance_spec (memoryContent : JSON) (userPrompt : string) : nat :=
  Nat.min (List.length (matchingTokens (JSON_stringify memoryContent) userPrompt)) 10.

End RelevanceSpec.

(* ================================================================== *)
(** ** What the claims say of a run *)
(* ================================================================== *)

(** No value of the map is the empty string. *)
Definition all_nonempty (m : Map string) : Prop :=
  Forall (fun kv => snd kv <> "") m.

Definition Map_keys {V} (m : Map V) : list string := List.map fst m.

(** The last code unit of a string. *)
Fixpoint last_char (s : string) : option ascii :=
  match s with
  | EmptyString => None
  | String c EmptyString => Some c
  | String _ r => last_char r
  end.

(** The bookkeeping of an intelligent orchestration: the keys of [results]
    are the keys [role ++ "_result"] of the calls that succeeded, and
    [stepCount] is the number of those calls. *)
Definition tracks (c : AgentContext) (cs : list AgentCall) : Prop :=
  (forall k, In k (Map_keys (results c))
             <-> exists call, In call cs /\ call_ok call = true
                              /\ k = call_role call ++ "_result")
  /\ stepCount c = List.length (filter call_ok cs).

(** A failed call of the role supervisor. *)
Definition failed_supervisor (c : AgentCall) : bool :=
  String.eqb (call_role c) "supervisor" && negb (call_ok c).


(** In the list of steps, a step of the role supervisor has no successor. *)
Fixpoint supervisor_only_last (steps : list AgentStep) : bool :=
  match steps with
  | [] => true
  | step :: rest =>
      (if String.eqb (role step) "supervisor"
       then match rest with [] => true | _ :: _ => false end
       else true)
      && supervisor_only_last rest
  end.

(** The substrings that signal unresolved issues in a feedback output. *)
Definition issueMarkers : list string := ["error"; "issues"; "fix needed"].

Section RunSpec.

Context {H : Host}.



(** The plain reading of [finalResult]: the value under the first of the
    two keys that is present, else the placeholder. *)
Definition finalResult_spec (c : AgentContext) (placeholder : string) : string :=
  match Map_get (results c) "final_summary" with
  | Some v => v
  | None =>
      match Map_get (results c) "generated_code" with
      | Some v => v
      | None => placeholder
      end
  end.

End RunSpec.

(* ================================================================== *)
(** ** What a run adds: calls, requests, errors, keys and memories *)
(* ================================================================== *)

Section LedgerSpec.

Context {H : Host}.

Unset Implicit Arguments.

(** A call that failed. *)
Definition failed (c : AgentCall) : bool := negb (call_ok c).

(** The step at position [j] succeeded and stored its output under [k]. *)
Definition stored_by (steps : list AgentStep) (new : list AgentCall) (k : string) : Prop :=
  exists j step call,
    nth_error steps j = Some step /\ nth_error new j = Some call
    /\ call_ok call = true /\ truthy_key (outputKey step) = Some k.

(** What the loop of [executePipeline] adds to a run. *)
Record PipelineLedger (steps : list AgentStep) (i : nat) (r r' : Run) (s s' : Sys)
       (new : list AgentCall) : Prop := mkLedger {
  ledger_calls : calls r' = (calls r ++ new)%list;
  ledger_roles : List.map call_role new = firstn (List.length new) (List.map role steps);
  ledger_short : List.length new <= List.length steps;
  ledger_sent : List.length (sent s') = List.length (sent s) + List.length new;
  ledger_errors : List.length (errors (ctx r'))
                  = List.length (errors (ctx r)) + List.length (filter failed new);
  ledger_stop : List.length new < List.length steps ->
                exists before input, new = (before ++ [mkCall "supervisor" input false])%list;
  ledger_all : supervisor_only_last steps = true -> List.length new = List.length steps;
  ledger_count : stepCount (ctx r')
                 = match new with [] => stepCount (ctx r) | _ :: _ => i + List.length new end;
  ledger_max : maxSteps (ctx r') = maxSteps (ctx r);
  ledger_keys : forall k, In k (Map_keys (results (ctx r')))
                          <-> In k (Map_keys (results (ctx r))) \/ stored_by steps new k
}.

(** What [generateAgentMemory] writes into a memory for a role. *)
Definition memory_for (agentRole0 : string) (m : AgentMemory JSON) : Prop :=
  agentRole m = agentRole0
  /\ relevanceScore m <= 10
  /\ memoryType m = getMemoryTypeForRole agentRole0
  /\ retentionFlags m = determineRetentionFlags agentRole0 (content m).

(** A memory of the map was there before, or is a new memory of a call of
    the list that succeeded, stored under the name of its agent. *)
Definition memory_origin (before : Map (list (AgentMemory JSON))) (new : list AgentCall)
           (k : string) (m : AgentMemory JSON) : Prop :=
  (exists ms0, In (k, ms0) before /\ In m ms0)
  \/ (k = agentRole m ++ "-agent"
      /\ memory_for (agentRole m) m
      /\ exists call, In call new /\ call_ok call = true /\ call_role call = agentRole m).

(** What the loop of [executePipelineWithMemory] adds to a run. *)
Record MemoryLedger (steps : list AgentStep) (i : nat) (r r' : Run) (s s' : Sys)
       (new : list AgentCall) : Prop := mkMemoryLedger {
  mem_calls : calls r' = (calls r ++ new)%list;
  mem_roles : List.map call_role new = List.map role steps;
  mem_sent_low : List.length (sent s) + List.length new <= List.length (sent s');
  mem_sent_high : List.length (sent s')
                  <= List.length (sent s) + List.length new
                     + List.length (filter call_ok new);
  mem_errors : List.length (errors (ctx r'))
               = List.length (errors (ctx r)) + List.length (filter failed new);
  mem_count : stepCount (ctx r')
              = match new with [] => stepCount (ctx r) | _ :: _ => i + List.length new end;
  mem_max : maxSteps (ctx r') = maxSteps (ctx r);
  mem_keys : forall k, In k (Map_keys (results (ctx r')))
                       <-> In k (Map_keys (results (ctx r))) \/ stored_by steps new k;
  mem_origin : forall k ms m, In (k, ms) (memories r') -> In m ms ->
                              memory_origin (memories r) new k m;
  mem_total : List.length (List.concat (Map_values (memories r')))
              <= List.length (List.concat (Map_values (memories r)))
                 + List.length (filter call_ok new)
}.

(** The memories of a role among those seen, as the grouping keeps them:
    no entry when there is none. *)
Definition group_of (k : string) (seen : list (AgentMemory JSON))
  : option (list (AgentMemory JSON)) :=
  match filter (fun memory => String.eqb (agentRole memory) k) seen with
  | [] => None
  | ms => Some ms
  end.

(** The books of an intelligent orchestration balance: one error for each
    failed call; [base] requests, one for each call and one more, for its
    memory, for each call that succeeded; and every memory is the memory of
    a call that succeeded. *)
Definition accounted (base : nat) (r : Run) (s : Sys) : Prop :=
  List.length (errors (ctx r)) = List.length (filter failed (calls r))
  /\ List.length (sent s)
     = base + List.length (calls r) + List.length (filter call_ok (calls r))
  /\ forall k ms m, In (k, ms) (memories r) -> In m ms -> memory_origin [] (calls r) k m.

(** The requests to the workflow director in a run with these calls: one,
    when the first call, the interpreter's, succeeded. *)
Definition directorRequests (cs : list AgentCall) : nat :=
  match cs with
  | c :: _ => if call_ok c then 1 else 0
  | [] => 0
  end.

(** The calls of the plan [determineWorkflowFromInterpretation] falls back
    to, the interpretation being empty: the analysis, then the coder, both
    required, then the judge. *)
Definition fallback_calls (planned : list AgentCall) : Prop :=
  planned = [ mkCall "analysis" "Analyze codebase for: " false ]
  \/ planned = [ mkCall "analysis" "Analyze codebase for: " true;
                 mkCall "coder" "Generate code based on analysis: " false ]
  \/ exists judgeOk,
      planned = [ mkCall "analysis" "Analyze codebase for: " true;
                  mkCall "coder" "Generate code based on analysis: " true;
                  mkCall "judge" "Review the generated code for quality and correctness"
                         judgeOk ].

(** The line [executePipeline] records in [errors] for a call that
    failed: the role, and the message of the error of the client. *)
Definition failure_text (call : AgentCall) (text : string) : Prop :=
  exists m, text = "Step " ++ call_role call
                   ++ " failed: Failed to communicate with Grok API: " ++ m.

(** Where the prompts of the calls come from: the prompt of the call at
    position [j] is the [inputMap] of the step at that position, on a
    context with the user's prompt and [maxSteps] of [c0], with [stepCount]
    [i + j + 1], and with the errors and the results the calls before it
    have added to those of [c0]; these errors are the first of [added],
    the errors the whole loop adds, one line for each call that failed. *)
Definition prompted (steps : list AgentStep) (i : nat) (c0 : AgentContext)
           (new : list AgentCall) (added : list string) : Prop :=
  forall j step call,
    nth_error steps j = Some step -> nth_error new j = Some call ->
    exists c : AgentContext,
      call_input call = inputMap step c
      /\ userPrompt c = userPrompt c0
      /\ stepCount c = i + j + 1
      /\ maxSteps c = maxSteps c0
      /\ List.length (errors c)
         = List.length (errors c0) + List.length (filter failed (firstn j new))
      /\ (forall k, In k (Map_keys (results c))
                    <-> In k (Map_keys (results c0))
                        \/ stored_by (firstn j steps) (firstn j new) k)
      /\ exists listed later,
          errors c = (errors c0 ++ listed)%list
          /\ added = (listed ++ later)%list
          /\ Forall2 failure_text (filter failed (firstn j new)) listed.

(** The world after the first [i] attempts of a request that is posted
    again and again. *)
Fixpoint after_attempts (request : GrokApiRequest) (i : nat) (s : Sys) : Sys :=
  match i with
  | 0 => s
  | S j => snd (chat request (after_attempts request j s))
  end.

(** The outcome of the attempt number [i], counted from zero. *)
Definition attempt (request : GrokApiRequest) (i : nat) (s : Sys) : Outcome string :=
  fst (chat request (after_attempts request i s)).

(** The turns the loop of [robustRequest] can take: [maxRetries] of them,
    three when none is given, none when it is not positive. *)
Definition turns (maxRetries : option Z) : nat :=
  match maxRetries with
  | Some (Zpos n) => Pos.to_nat n
  | Some _ => 0
  | None => 3
  end.


End LedgerSpec.

(* ================================================================== *)
(** ** Hosts for the examples *)
(* ================================================================== *)

Module Scripted.

Definition syntaxError : exn := mkExn "SyntaxError" "Unexpected token in JSON".

(** The JSON text of a plan whose strings need no escape. *)
Definition stepJSON (step : PlannedStep) : string :=
  "{" ++ quoted "agent" ++ ":" ++ quoted (plan_agent step)
  ++ "," ++ quoted "instructions" ++ ":" ++ quoted (instructions step)
  ++ "," ++ quoted "required" ++ ":" ++ of_bool (required step)
  ++ match iterativeFeedback step with
     | Some b => "," ++ quoted "iterativeFeedback" ++ ":" ++ of_bool b
     | None => ""
     end
  ++ match feedbackOutput step with
     | Some key => "," ++ quoted "feedbackOutput" ++ ":" ++ quoted key
     | None => ""
     end
  ++ "}".

Definition planJSON (steps : list PlannedStep) : string :=
  "{" ++ quoted "steps" ++ ":[" ++ join "," (List.map stepJSON steps) ++ "]}".

(** A service that answers its n-th request with [script n].  Its world
    is the number of requests seen, which is also its clock.  The only
    text that parses is [planJSON plan], and it parses as [plan]: the
    other answers of the examples are plain English, on which [JSON.parse]
    throws.  The serializers print placeholders. *)
Definition service (script : nat -> PostReply) (plan : list PlannedStep) : Host :=
  {| World := nat;
     post := fun _ n => (script n, S n);
     now := N.of_nat;
     JSON := string;
     JSON_parse := fun _ => Raised syntaxError;
     JSON_stringify := fun j => j;
     stringify_output := fun _ => "{}";
     parse_plan := fun text =>
       if String.eqb text (planJSON plan) then Returned (Planned (mkPlan plan))
       else Raised syntaxError;
     stringify_plan := fun p => planJSON (plan_steps p);
     stringify_memories := fun _ => "[]";
     parse_analysis := fun _ => Raised syntaxError |}.

(** A service that answers every request with the same text. *)
Definition constant (answer : string) : Host :=
  service (fun _ => Replied (Some answer)) [].

(** The world before the first request. *)
Definition start (H : Host) (w : @World H) : @Sys H := @mkSys H w [].

(** Nine optional analysis steps. *)
Definition ninePlan : list PlannedStep :=
  List.map (fun n => mkPlanned "analysis" ("Examine module " ++ of_nat n) false None None)
           (seq 1 9).

(** The interpreter, its memory and every later agent answer in plain
    words; the director answers with the nine steps. *)
Definition nineHost : Host :=
  service (fun n => if (n =? 2)%nat then Replied (Some (planJSON ninePlan))
                     else Replied (Some "done"))
           ninePlan.

(** The interpreter's answer names the next agent. *)
Definition interpreterAnswer : string := "Run the CODER agent on the startup module".

Definition answeringHost : Host :=
  service (fun n => if (n =? 0)%nat then Replied (Some interpreterAnswer)
                     else Replied (Some "done"))
           [].

(** The first request, the interpreter's, fails. *)
Definition offlineHost : Host :=
  service (fun _ => PostFailed "timeout of 120000ms exceeded") [].

(** The director answers in prose, so the fallback plan runs; its first
    step, the required analysis, fails (request 3); the supervisor
    answers. *)
Definition flakyHost : Host :=
  service (fun n => if (n =? 3)%nat then PostFailed "socket hang up"
                     else Replied (Some "done"))
           [].

(** A judge, then a required coder that declares iterative feedback on
    the judge's result. *)
Definition feedbackPlan : list PlannedStep :=
  [ mkPlanned "judge" "Review the parser" false None None;
    mkPlanned "coder" "Repair the parser" true (Some true) (Some "judge_result") ].

(** The judge (request 3) reports issues; the coder's call (request 5)
    fails. *)
Definition brokenCoderHost : Host :=
  service (fun n => if (n =? 2)%nat then Replied (Some (planJSON feedbackPlan))
                     else if (n =? 3)%nat then Replied (Some "There are issues in the parser")
                     else if (n =? 5)%nat then PostFailed "socket hang up"
                     else Replied (Some "done"))
           feedbackPlan.

(** The same plan with every call answered. *)
Definition retryHost : Host :=
  service (fun n => if (n =? 2)%nat then Replied (Some (planJSON feedbackPlan))
                     else if (n =? 3)%nat then Replied (Some "There are issues in the parser")
                     else Replied (Some "done"))
           feedbackPlan.

(** The supervisor's request, the seventh of the code-development
    pipeline, fails. *)
Definition supervisorDownHost : Host :=
  service (fun n => if (n =? 6)%nat then PostFailed "socket hang up"
                     else Replied (Some "done"))
           [].

Definition crashPrompt : string := "fix crash on startup".

(** The roles called in a run, each with the success of its call. *)
Definition outline_of (cs : list AgentCall) : list (string * bool) :=
  List.map (fun c => (call_role c, call_ok c)) cs.

Definition outline {J} (r : PipelineResult J) : list (string * bool) :=
  outline_of (history r).

(** A list of steps that no pipeline of [initializePipelines] has: the
    supervisor step of the code-development pipeline followed by the
    analyzer step. *)
Definition supervisorFirstSteps : list AgentStep :=
  (skipn 6 createCodeDevelopmentSteps ++ createAnalysisSteps)%list.

(** Only the first request fails. *)
Definition firstDownHost : Host :=
  service (fun n => if (n =? 0)%nat then PostFailed "socket hang up"
                    else Replied (Some "done"))
          [].

(** Six memories of two agents, their content being JSON text. *)
Definition note (agentRole text : string) : AgentMemory string :=
  mkMemory agentRole (or_else (Map_get memoryTypes agentRole) "general-experience")
           text 0 0 [].

Definition sixMemories : Map (list (AgentMemory string)) :=
  [ ("interpreter-agent", [note "interpreter" "{}"]);
    ("coder-agent", [note "coder" "[1]"; note "coder" "[2]"; note "coder" "[3]"]);
    ("judge-agent", [note "judge" "[4]"; note "judge" "[5]"]) ].

(** The pruning agent answers in prose. *)
Definition proseHost : Host := constant "I would keep the interpreter memory.".

Definition stubAnswer : string := "analysis complete: no issues found".

(** What a run returned, for a run that did return. *)
Definition noResult {J} : PipelineResult J :=
  mkResult false "" (mkContext "" [] [] 0 0) [] None [].

Definition result_of {J S} (run : Outcome (PipelineResult J) * S) : PipelineResult J :=
  match fst run with Returned r => r | Raised _ => noResult end.

(** A service like [service] whose [JSON.parse] accepts every text, a JSON
    value being its text: the memories of a run are generated. *)
Definition recording (script : nat -> PostReply) : Host :=
  {| World := nat;
     post := fun _ n => (script n, S n);
     now := N.of_nat;
     JSON := string;
     JSON_parse := fun text => Returned text;
     JSON_stringify := fun j => j;
     stringify_output := fun _ => "{}";
     parse_plan := fun _ => Raised syntaxError;
     stringify_plan := fun p => planJSON (plan_steps p);
     stringify_memories := fun _ => "[]";
     parse_analysis := fun _ => Raised syntaxError |}.

(** The fifth request, the one of the retrieval step of the
    code-development pipeline run with memories, fails; every other request
    is answered with a note on the startup crash. *)
Definition startupNote : string := "crash on startup traced to the config loader".

Definition recordingHost : Host :=
  recording (fun n => if (n =? 4)%nat then PostFailed "socket hang up"
                      else Replied (Some startupNote)).

(** The interpreter and its memory are answered; the third request, the
    one to the workflow director, fails. *)
Definition directorDownHost : Host :=
  service (fun n => if (n =? 2)%nat then PostFailed "socket hang up"
                    else Replied (Some "done"))
          [].

(** An orchestrator whose store holds the memories of an earlier run of
    the code-development pipeline. *)
Definition earlierMemories : list (AgentMemory string) :=
  [ note "coder" "[1]"; note "judge" "[2]"; note "coder" "[3]" ].

Definition storedOrchestrator : @MultiAgentOrchestrator offlineHost :=
  @mkOrchestrator offlineHost initializePipelines
    [ ("pipeline-code-development-1700000000000", earlierMemories) ].

(** The memories a run returned, and the first one under a key. *)
Definition memories_of {J} (r : PipelineResult J) : Map (list (AgentMemory J)) :=
  match agentMemories r with Some stored => stored | None => [] end.

Definition memories_under {J} (k : string) (r : PipelineResult J) : list (AgentMemory J) :=
  match Map_get (memories_of r) k with Some ms => ms | None => [] end.




(** The pruning agent answers with an empty object, which parses and has
    none of the fields. *)
Definition emptyObjectHost : Host :=
  {| World := nat;
     post := fun _ n => (Replied (Some "{}"), S n);
     now := N.of_nat;
     JSON := string;
     JSON_parse := fun text => Returned text;
     JSON_stringify := fun j => j;
     stringify_output := fun _ => "{}";
     parse_plan := fun _ => Raised syntaxError;
     stringify_plan := fun p => planJSON (plan_steps p);
     stringify_memories := fun _ => "[]";
     parse_analysis := fun text =>
       if String.eqb text "{}" then Returned (mkAnalysis None None None None)
       else Raised syntaxError |}.

(** The [TypeError] of [workflowPlan.steps.length] on a value without
    steps. *)
Definition noStepsError : exn :=
  mkExn "TypeError" "Cannot read properties of undefined (reading 'length')".

(** The director, whose request is the third, answers with an empty
    object: it parses, and it is no plan. *)
Definition planlessHost : Host :=
  {| World := nat;
     post := fun _ n => (Replied (Some (if (n =? 2)%nat then "{}" else "done")), S n);
     now := N.of_nat;
     JSON := string;
     JSON_parse := fun _ => Raised syntaxError;
     JSON_stringify := fun j => j;
     stringify_output := fun _ => "{}";
     parse_plan := fun text =>
       if String.eqb text "{}" then Returned (Planless noStepsError)
       else Raised syntaxError;
     stringify_plan := fun p => planJSON (plan_steps p);
     stringify_memories := fun _ => "[]";
     parse_analysis := fun _ => Raised syntaxError |}.

(** The first two requests fail, the third is answered. *)
Definition twiceDownHost : Host :=
  service (fun n => if (n <? 2)%nat then PostFailed "socket hang up"
                    else Replied (Some "done"))
          [].

End Scripted.

(* ================================================================== *)
(** ** Strings: facts used below *)
(* ================================================================== *)

Lemma is_space_lower_char (c : ascii) : is_space (lower_char c) = is_space c.
Proof. destruct c as [[] [] [] [] [] [] [] []]; reflexivity. Qed.

Lemma length_toLowerCase (s : string) : String.length (toLowerCase s) = String.length s.
Proof. induction s as [|c s IH]; simpl; congruence. Qed.

Lemma toLowerCase_app (a b : string) :
  toLowerCase (a ++ b) = toLowerCase a ++ toLowerCase b.
Proof. induction a as [|c a IH]; simpl; congruence. Qed.

Lemma toLowerCase_rev_string (cur : list ascii) (tail : string) :
  toLowerCase (rev_string cur tail)
  = rev_string (List.map lower_char cur) (toLowerCase tail).
Proof.
  revert tail. induction cur as [|c cur IH]; intros tail; simpl.
  - reflexivity.
  - rewrite IH. reflexivity.
Qed.

(** Lowering the case commutes with splitting at white space. *)
Lemma split_ws_from_toLowerCase (s : string) :
  forall in_run cur,
    split_ws_from in_run (List.map lower_char cur) (toLowerCase s)
    = List.map toLowerCase (split_ws_from in_run cur s).
Proof.
  induction s as [|c s IH]; intros in_run cur; simpl.
  - now rewrite (toLowerCase_rev_string cur "").
  - rewrite is_space_lower_char. destruct (is_space c).
    + destruct in_run.
      * apply IH.
      * simpl. rewrite (toLowerCase_rev_string cur ""). f_equal. apply (IH true []).
    + apply (IH false (c :: cur)).
Qed.

Lemma split_ws_toLowerCase (s : string) :
  split_ws (toLowerCase s) = List.map toLowerCase (split_ws s).
Proof. apply (split_ws_from_toLowerCase s false []). Qed.

Lemma filter_map_length {A B} (f : A -> B) (p : B -> bool) (l : list A) :
  List.length (filter p (List.map f l)) = List.length (filter (fun x => p (f x)) l).
Proof.
  induction l as [|x l IH]; simpl; [reflexivity|].
  destruct (p (f x)); simpl; congruence.
Qed.

(** After a white space the tokens are read afresh: the tokens that count
    in [a ++ " " ++ b] are those of [a] and those of [b]. *)
Lemma split_ws_from_restart (b : string) (keep : string -> bool) :
  keep "" = false ->
  List.length (filter keep (split_ws_from true [] b))
  = List.length (filter keep (split_ws_from false [] b)).
Proof.
  intros Hempty. destruct b as [|c b]; [reflexivity|].
  simpl. destruct (is_space c); [|reflexivity].
  simpl. now rewrite Hempty.
Qed.

Lemma split_ws_from_app_space (a : string) (keep : string -> bool) :
  keep "" = false ->
  forall in_run cur b,
    (in_run = true -> cur = []) ->
    List.length (filter keep (split_ws_from in_run cur (a ++ String " " b)))
    = List.length (filter keep (split_ws_from in_run cur a))
      + List.length (filter keep (split_ws b)).
Proof.
  intros Hempty. unfold split_ws.
  induction a as [|c a IH]; intros in_run cur b Hrun.
  - simpl. change (is_space " ") with true. cbv iota.
    rewrite <- (split_ws_from_restart b keep Hempty). destruct in_run.
    + rewrite (Hrun eq_refl). simpl. now rewrite Hempty.
    + simpl. destruct (keep (rev_string cur "")); reflexivity.
  - simpl. destruct (is_space c).
    + destruct in_run.
      * apply IH, Hrun.
      * simpl. destruct (keep (rev_string cur "")); simpl;
          rewrite (IH true [] b (fun _ => eq_refl)); reflexivity.
    + apply IH. discriminate.
Qed.

Section RelevanceFacts.

Context {H : Host}.

Lemma countMatches_filter (memoryText : string) (promptWords : list string) :
  forall relevanceScore,
    countMatches memoryText promptWords relevanceScore
    = relevanceScore
      + List.length (filter (fun word => (3 <? String.length word)%nat
                                         && includes memoryText word) promptWords).
Proof.
  induction promptWords as [|word rest IH]; intros acc; simpl.
  - lia.
  - rewrite IH. destruct ((3 <? String.length word)%nat && includes memoryText word);
      simpl; lia.
Qed.

(** The number of tokens that count is additive over a white space. *)
Lemma matching_count_app (memoryText a b : string) :
  List.length (filter (fun word => (3 <? String.length word)%nat
                                   && includes memoryText word)
                      (split_ws (toLowerCase (a ++ " " ++ b))))
  = List.length (filter (fun word => (3 <? String.length word)%nat
                                     && includes memoryText word)
                        (split_ws (toLowerCase a)))
    + List.length (filter (fun word => (3 <? String.length word)%nat
                                       && includes memoryText word)
                          (split_ws (toLowerCase b))).
Proof.
  rewrite toLowerCase_app. simpl toLowerCase.
  change (lower_char " ") with " "%char.
  apply split_ws_from_app_space; [reflexivity | discriminate].
Qed.

(** C6: [calculateMemoryRelevance] is [min(n, 10)], [n] being the number
    of white-space separated tokens of the prompt that are longer than 3
    characters and occur, case ignored, in the serialized memory content;
    the score is at most 10, and a prompt to which further tokens are
    added, after it or before it, never scores less. *)
Theorem calculateMemoryRelevance_spec :
  forall (memoryContent : JSON) (userPrompt : string),
    calculateMemoryRelevance memoryContent userPrompt
    = relevance_spec memoryContent userPrompt
    /\ calculateMemoryRelevance memoryContent userPrompt <= 10
    /\ forall more : string,
        calculateMemoryRelevance memoryContent userPrompt
        <= calculateMemoryRelevance memoryContent (userPrompt ++ " " ++ more)
        /\ calculateMemoryRelevance memoryContent userPrompt
           <= calculateMemoryRelevance memoryContent (more ++ " " ++ userPrompt).
Proof.
  intros memoryContent userPrompt. split; [|split].
  - unfold calculateMemoryRelevance, relevance_spec, matchingTokens.
    rewrite countMatches_filter, split_ws_toLowerCase, filter_map_length. simpl.
    f_equal. f_equal. apply filter_ext. intros token. unfold token_counts.
    now rewrite length_toLowerCase.
  - unfold calculateMemoryRelevance. apply Nat.le_min_r.
  - intros more. unfold calculateMemoryRelevance.
    rewrite !countMatches_filter, !Nat.add_0_l, !matching_count_app.
    split; apply Nat.min_le_compat_r; lia.
Qed.

End RelevanceFacts.

(* ================================================================== *)
(** ** Maps and the chat client: facts used below *)
(* ================================================================== *)

Unset Implicit Arguments.

Lemma Map_set_nonempty (m : Map string) (k v : string) :
  all_nonempty m -> v <> "" -> all_nonempty (Map_set m k v).
Proof.
  unfold all_nonempty. intros Hm Hv. induction m as [|[k' v'] m IH]; simpl.
  - constructor; [exact Hv | constructor].
  - inversion Hm as [|? ? Hhead Htail]; subst.
    destruct (String.eqb k' k); constructor; auto.
Qed.

Lemma Map_get_nonempty (m : Map string) (k v : string) :
  all_nonempty m -> Map_get m k = Some v -> v <> "".
Proof.
  unfold all_nonempty. intros Hm. induction m as [|[k' v'] m IH]; simpl; [discriminate|].
  inversion Hm as [|? ? Hhead Htail]; subst.
  destruct (String.eqb k' k); [|now auto].
  intros E; inversion E; subst. exact Hhead.
Qed.

Lemma or_else_nonempty (x : option string) (d : string) :
  (forall v, x = Some v -> v <> "") ->
  or_else x d = match x with Some v => v | None => d end.
Proof.
  intros Hx. destruct x as [[|c v]|]; try reflexivity.
  now destruct (Hx "" eq_refl).
Qed.

Lemma Map_get_set_other {V} (m : Map V) (k k' : string) (v : V) :
  k <> k' -> Map_get (Map_set m k v) k' = Map_get m k'.
Proof.
  intros Hk. induction m as [|[k0 v0] m IH]; simpl.
  - destruct (String.eqb_spec k k'); [contradiction | reflexivity].
  - destruct (String.eqb_spec k0 k) as [->|Hk0]; simpl.
    + destruct (String.eqb_spec k k'); [contradiction | reflexivity].
    + destruct (String.eqb_spec k0 k'); [reflexivity | exact IH].
Qed.



Lemma In_push {A} (xs : list A) (x y : A) : In y (push xs x) <-> In y xs \/ y = x.
Proof.
  unfold push. rewrite in_app_iff. simpl. intuition congruence.
Qed.

Lemma Map_keys_set {V} (m : Map V) (k : string) (v : V) (k' : string) :
  In k' (Map_keys (Map_set m k v)) <-> k' = k \/ In k' (Map_keys m).
Proof.
  induction m as [|[k0 v0] m IH]; simpl.
  - intuition congruence.
  - destruct (String.eqb_spec k0 k) as [->|Hk0]; simpl.
    + intuition congruence.
    + rewrite IH. intuition congruence.
Qed.

Lemma Map_get_In_keys {V} (m : Map V) (k : string) (v : V) :
  Map_get m k = Some v -> In k (Map_keys m).
Proof.
  induction m as [|[k0 v0] m IH]; simpl; [discriminate|].
  destruct (String.eqb_spec k0 k); [now left | intros E; right; auto].
Qed.

Lemma In_keys_Map_has {V} (m : Map V) (k : string) :
  In k (Map_keys m) -> Map_has m k = true.
Proof.
  unfold Map_has. induction m as [|[k0 v0] m IH]; simpl; [contradiction|].
  destruct (String.eqb_spec k0 k); [reflexivity|].
  intros [E|Hin]; [contradiction | now apply IH].
Qed.

Lemma filter_push {A} (p : A -> bool) (xs : list A) (x : A) :
  filter p (push xs x) = (filter p xs ++ (if p x then [x] else []))%list.
Proof. unfold push. rewrite filter_app. reflexivity. Qed.

Lemma tracks_success (c : AgentContext) (cs : list AgentCall)
      (agentRole instructions response : string) :
  tracks c cs ->
  tracks (set_stepCount (set_result c (agentRole ++ "_result") response) (stepCount c + 1))
         (push cs (mkCall agentRole instructions true)).
Proof.
  intros [Hkeys Hcount]. split; simpl.
  - intros k. rewrite Map_keys_set, Hkeys. split.
    + intros [->|(call & Hin & Hok & Hk)].
      * exists (mkCall agentRole instructions true). rewrite In_push. auto.
      * exists call. rewrite In_push. auto.
    + intros (call & Hin & Hok & Hk). rewrite In_push in Hin.
      destruct Hin as [Hin| ->]; [right; eauto | left; exact Hk].
  - rewrite filter_push, length_app, Hcount. reflexivity.
Qed.

Lemma tracks_failure (c : AgentContext) (cs : list AgentCall)
      (agentRole instructions errorMsg : string) :
  tracks c cs ->
  tracks (push_error c errorMsg) (push cs (mkCall agentRole instructions false)).
Proof.
  intros [Hkeys Hcount]. split; simpl.
  - intros k. rewrite Hkeys. split.
    + intros (call & Hin & Hok & Hk). exists call. rewrite In_push. auto.
    + intros (call & Hin & Hok & Hk). rewrite In_push in Hin.
      destruct Hin as [Hin| ->]; [eauto | discriminate].
  - rewrite filter_push, length_app, Hcount. simpl. lia.
Qed.

Lemma last_char_app (a b : string) : b <> "" -> last_char (a ++ b) = last_char b.
Proof.
  intros Hb. induction a as [|c a IH]; [reflexivity|].
  simpl. destruct (a ++ b) eqn:E.
  - destruct a; simpl in E; [contradiction | discriminate].
  - exact IH.
Qed.

(** A key that does not end in "t" is no key [role ++ "_result"]. *)
Lemma not_result_key (k : string) :
  last_char k <> Some "t"%char -> forall agentRole, agentRole ++ "_result" <> k.
Proof.
  intros Hk agentRole E. apply Hk. rewrite <- E.
  rewrite last_char_app by discriminate. reflexivity.
Qed.

Lemma tracks_no_other_key (c : AgentContext) (cs : list AgentCall) (k : string) :
  tracks c cs -> last_char k <> Some "t"%char -> Map_get (results c) k = None.
Proof.
  intros [Hkeys _] Hk. destruct (Map_get (results c) k) as [v|] eqn:E; [|reflexivity].
  apply Map_get_In_keys, Hkeys in E. destruct E as (call & _ & _ & E).
  symmetry in E. now destruct (not_result_key k Hk _ E).
Qed.

Lemma feedbackFor_spec (step : PlannedStep) (c : AgentContext) (qualityCheck : string) :
  feedbackFor step c = Some qualityCheck
  <-> iterativeFeedback step = Some true
      /\ exists key, feedbackOutput step = Some key
                     /\ Map_get (results c) key = Some qualityCheck.
Proof.
  unfold feedbackFor. split.
  - destruct (iterativeFeedback step) as [[|]|]; try discriminate.
    destruct (feedbackOutput step) as [key|]; try discriminate.
    destruct (Map_get (results c) key) as [v|] eqn:E; try discriminate.
    destruct v; simpl; intros Hq; inversion Hq; subst; eauto.
  - intros (-> & key & -> & ->). destruct qualityCheck; reflexivity.
Qed.

Lemma signalsIssues_spec (qualityCheck : string) :
  signalsIssues qualityCheck = true
  <-> exists marker, In marker issueMarkers
                     /\ includes (toLowerCase qualityCheck) marker = true.
Proof.
  unfold signalsIssues, issueMarkers. rewrite !orb_true_iff. simpl. split.
  - intros [[Hm|Hm]|Hm]; eauto 6.
  - intros (marker & [<-|[<-|[<-|[]]]] & Hm); auto.
Qed.

Section Facts.

Context {H : Host}.

Lemma chat_sent (request : GrokApiRequest) (s s' : Sys) (o : Outcome string) :
  chat request s = (o, s') -> sent s' = push (sent s) request.
Proof.
  unfold chat. destruct (post request (world s)) as [reply w].
  destruct reply; intros E; inversion E; reflexivity.
Qed.

(** [chat] never returns the empty string. *)
Lemma chat_nonempty (request : GrokApiRequest) (s s' : Sys) (response : string) :
  chat request s = (Returned response, s') -> response <> "".
Proof.
  unfold chat. destruct (post request (world s)) as [reply w].
  destruct reply as [[[|c v]|]|m]; intros E; inversion E; discriminate.
Qed.

(* ---------------------------------------------------------------- *)
(** *** Static pipelines *)

Lemma pipelineLoop_results_nonempty (steps : list AgentStep) :
  forall total i r s r' s',
    pipelineLoop total i steps r s = (r', s') ->
    all_nonempty (results (ctx r)) ->
    all_nonempty (results (ctx r')).
Proof.
  induction steps as [|step rest IH]; intros total i r s r' s'; simpl.
  - intros E; inversion E; subst; auto.
  - destruct (chat _ s) as [[response|error] s1] eqn:Echat.
    + intros E Hr. apply (IH _ _ _ _ _ _ E).
      destruct (truthy_key (outputKey step)); simpl; [|exact Hr].
      apply Map_set_nonempty; [exact Hr | exact (chat_nonempty _ _ _ _ Echat)].
    + destruct (String.eqb (role step) "supervisor").
      * intros E Hr; inversion E; subst; exact Hr.
      * intros E Hr. apply (IH _ _ _ _ _ _ E). exact Hr.
Qed.

Lemma selectFinalResult_spec (c : AgentContext) (placeholder : string) :
  all_nonempty (results c) ->
  selectFinalResult c placeholder = finalResult_spec c placeholder.
Proof.
  intros Hc. unfold selectFinalResult, finalResult_spec.
  rewrite (or_else_nonempty (Map_get (results c) "final_summary"))
    by (intros v; apply Map_get_nonempty, Hc).
  destruct (Map_get (results c) "final_summary"); [reflexivity|].
  apply or_else_nonempty. intros v; apply Map_get_nonempty, Hc.
Qed.

(** The counter of a static run: it is the index of the last step that
    was started, and never passes the number of steps. *)
Lemma pipelineLoop_stepCount (steps : list AgentStep) :
  forall total i r s r' s',
    pipelineLoop total i steps r s = (r', s') ->
    maxSteps (ctx r') = maxSteps (ctx r)
    /\ (steps = [] -> stepCount (ctx r') = stepCount (ctx r))
    /\ (steps <> [] -> i < stepCount (ctx r') <= i + List.length steps).
Proof.
  induction steps as [|step rest IH]; intros total i r s r' s'; simpl.
  - intros E; inversion E; subst. repeat split; congruence.
  - assert (Hgo : forall r1 s1, pipelineLoop total (i + 1) rest r1 s1 = (r', s') ->
              maxSteps (ctx r1) = maxSteps (ctx r) -> stepCount (ctx r1) = i + 1 ->
              maxSteps (ctx r') = maxSteps (ctx r)
              /\ (step :: rest = [] -> stepCount (ctx r') = stepCount (ctx r))
              /\ (step :: rest <> [] -> i < stepCount (ctx r') <= i + S (List.length rest))).
    { intros r1 s1 E Hmax Hcount. destruct (IH _ _ _ _ _ _ E) as (Hm & Hnil & Hcons).
      split; [congruence|]. split; [discriminate|]. intros _.
      destruct rest as [|step' rest'].
      - rewrite (Hnil eq_refl), Hcount. simpl. lia.
      - assert (Hne : step' :: rest' <> []) by discriminate.
        specialize (Hcons Hne). simpl in *. lia. }
    destruct (chat _ s) as [[response|error] s1] eqn:Echat.
    + intros E. apply (Hgo _ _ E).
      * destruct (truthy_key (outputKey step)); reflexivity.
      * destruct (truthy_key (outputKey step)); reflexivity.
    + destruct (String.eqb (role step) "supervisor").
      * intros E; inversion E; subst; simpl.
        split; [reflexivity|]. split; [discriminate|]. intros _. lia.
      * intros E. apply (Hgo _ _ E); reflexivity.
Qed.

(** For a static pipeline the counter never passes [maxSteps], the
    number of its steps. *)
Lemma executePipeline_stepCount (self : MultiAgentOrchestrator)
      (pipelineId userPrompt : string) (s s' : Sys) (r : PipelineResult JSON) :
  executePipeline self pipelineId userPrompt s = (Returned r, s') ->
  stepCount (context r) <= maxSteps (context r).
Proof.
  unfold executePipeline. destruct (lookupPipeline self pipelineId) as [pipeline|e];
    [|discriminate].
  destruct (pipelineLoop _ 0 (steps pipeline) _ s) as [r1 s1] eqn:Eloop.
  intros E; inversion E; subst; simpl.
  destruct (pipelineLoop_stepCount _ _ _ _ _ _ _ Eloop) as (Hm & Hnil & Hcons).
  simpl in Hm, Hnil, Hcons. rewrite Hm.
  destruct (steps pipeline) as [|step rest] eqn:Esteps.
  - rewrite (Hnil eq_refl). simpl. lia.
  - assert (Hne : step :: rest <> []) by discriminate. specialize (Hcons Hne). lia.
Qed.











Lemma initializePipelines_get (pipelineId : string) :
  Map_get initializePipelines pipelineId
  = if String.eqb "code-development" pipelineId then Some codeDevelopmentPipeline
    else if String.eqb "analysis-only" pipelineId then Some analysisOnlyPipeline
    else None.
Proof. reflexivity. Qed.



(* ---------------------------------------------------------------- *)
(** *** Intelligent orchestration *)

Lemma executeSingleAgent_tracks (agentRole instructions userPrompt : string)
      (r r' : Run) (s s' : Sys) (ok : bool) :
  executeSingleAgent agentRole instructions userPrompt r s = (ok, r', s') ->
  calls r' = push (calls r) (mkCall agentRole instructions ok)
  /\ maxSteps (ctx r') = maxSteps (ctx r)
  /\ (tracks (ctx r) (calls r) -> tracks (ctx r') (calls r')).
Proof.
  unfold executeSingleAgent.
  destruct (chat _ s) as [[response|error] s1].
  - destruct (generateAgentMemory _ _ _ _ s1) as [[memory|memoryError] s2];
      intros E; inversion E; subst; simpl;
      (split; [reflexivity|]); (split; [reflexivity|]);
      apply tracks_success.
  - intros E; inversion E; subst; simpl.
    split; [reflexivity|]. split; [reflexivity|]. apply tracks_failure.
Qed.


Lemma or_else_some_empty (v : string) : or_else (Some v) "" = v.
Proof. destruct v; reflexivity. Qed.

Lemma workflowStep_tracks (userPrompt : string) (step : PlannedStep)
      (r r' : Run) (s s' : Sys) (continue : bool) :
  workflowStep userPrompt step r s = (continue, r', s') ->
  (exists new, calls r' = (calls r ++ new)%list)
  /\ maxSteps (ctx r') = maxSteps (ctx r)
  /\ (tracks (ctx r) (calls r) -> tracks (ctx r') (calls r')).
Proof.
  unfold workflowStep.
  destruct (executeSingleAgent (plan_agent step) (instructions step) userPrompt r s)
    as [[ok r1] s1] eqn:E1.
  destruct (executeSingleAgent_tracks _ _ _ _ _ _ _ _ E1) as (Hc1 & Hm1 & Ht1).
  assert (Hone : forall r2 s2 c, (c, r1, s1) = (continue, r2, s2) ->
                 (exists new, calls r2 = (calls r ++ new)%list)
                 /\ maxSteps (ctx r2) = maxSteps (ctx r)
                 /\ (tracks (ctx r) (calls r) -> tracks (ctx r2) (calls r2))).
  { intros r2 s2 c E; inversion E; subst. split; [|split; assumption].
    eexists. exact Hc1. }
  destruct (negb ok && required step).
  - intros E; inversion E; subst; simpl. split; [|split; assumption].
    eexists. exact Hc1.
  - destruct (feedbackFor step (ctx r1)) as [qualityCheck|]; [|apply Hone].
    destruct (signalsIssues qualityCheck); [|apply Hone].
    destruct (executeSingleAgent _ _ _ _ s1) as [[ok2 r2] s2] eqn:E2.
    destruct (executeSingleAgent_tracks _ _ _ _ _ _ _ _ E2) as (Hc2 & Hm2 & Ht2).
    simpl in Hc2, Hm2, Ht2.
    intros E; inversion E; subst. split; [|split].
    + rewrite Hc2, Hc1. unfold push. rewrite <- app_assoc. eexists. reflexivity.
    + congruence.
    + intros Ht. apply Ht2, Ht1, Ht.
Qed.



Lemma workflowLoop_tracks (userPrompt : string) (steps : list PlannedStep) :
  forall r s r' s',
    workflowLoop userPrompt steps r s = (r', s') ->
    (exists new, calls r' = (calls r ++ new)%list)
    /\ maxSteps (ctx r') = maxSteps (ctx r)
    /\ (tracks (ctx r) (calls r) -> tracks (ctx r') (calls r')).
Proof.
  induction steps as [|step rest IH]; intros r s r' s'; simpl.
  - intros E; inversion E; subst. split; [|split; auto].
    exists []. now rewrite app_nil_r.
  - destruct (workflowStep userPrompt step r s) as [[continue r1] s1] eqn:E1.
    destruct (workflowStep_tracks _ _ _ _ _ _ _ E1) as ([new1 Hc1] & Hm1 & Ht1).
    destruct continue.
    + intros E. destruct (IH _ _ _ _ E) as ([new2 Hc2] & Hm2 & Ht2).
      split; [|split].
      * rewrite Hc2, Hc1, <- app_assoc. eexists. reflexivity.
      * congruence.
      * intros Ht. apply Ht2, Ht1, Ht.
    + intros E; inversion E; subst. split; [|split; assumption].
      eexists. exact Hc1.
Qed.

Lemma initialRun_tracks (userPrompt : string) (n : nat) :
  tracks (ctx (initialRun userPrompt n)) (calls (initialRun userPrompt n)).
Proof.
  split; simpl; [|reflexivity]. intros k. split; [contradiction|].
  intros (call & Hin & _). contradiction.
Qed.

(** The shape of every run of [executeIntelligentOrchestration] that
    returns: the interpreter is called first; when it fails nothing else
    is called; when it succeeds the supervisor is called last. *)
Lemma orchestration_shape (userPrompt : string) (s s' : Sys) (r : PipelineResult JSON) :
  executeIntelligentOrchestration userPrompt s = (Returned r, s') ->
  tracks (context r) (history r)
  /\ maxSteps (context r) = 10
  /\ exists interpreterOk rest,
      history r = mkCall "interpreter" (interpreterInstructions userPrompt) interpreterOk
                    :: rest
      /\ (interpreterOk = false ->
          rest = [] /\ success r = false
          /\ finalResult r = "Interpretation failed - cannot determine next steps")
      /\ (interpreterOk = true ->
          (exists planned supervisorInput supervisorOk,
              rest = push planned (mkCall "supervisor" supervisorInput supervisorOk)
              /\ success r = supervisorOk)
          /\ finalResult r = selectFinalResult (context r) "Workflow completed").
Proof.
  unfold executeIntelligentOrchestration.
  destruct (executeSingleAgent "interpreter" _ userPrompt _ s) as [[ok0 r0] s0] eqn:E0.
  destruct (executeSingleAgent_tracks _ _ _ _ _ _ _ _ E0) as (Hc0 & Hm0 & Ht0).
  specialize (Ht0 (initialRun_tracks _ _)). simpl in Hc0, Hm0.
  destruct ok0; simpl.
  - destruct (determineWorkflowFromInterpretation _ userPrompt s0)
      as [[[workflowPlan|typeError]|e] s1]; [|discriminate|discriminate].
    destruct (workflowLoop userPrompt (plan_steps workflowPlan) _ s1)
      as [r2 s2] eqn:E2.
    destruct (workflowLoop_tracks _ _ _ _ _ _ E2) as ([planned Hc2] & Hm2 & Ht2).
    simpl in Hc2, Hm2, Ht2. specialize (Ht2 Ht0).
    destruct (executeSingleAgent "supervisor" _ userPrompt r2 s2)
      as [[ok3 r3] s3] eqn:E3.
    destruct (executeSingleAgent_tracks _ _ _ _ _ _ _ _ E3) as (Hc3 & Hm3 & Ht3).
    specialize (Ht3 Ht2).
    intros E; inversion E; subst; simpl.
    split; [exact Ht3|]. split; [congruence|].
    exists true, (push planned (mkCall "supervisor"
                    (supervisorInstructions userPrompt
                       (or_else (Map_get (results (ctx r0)) "interpretation") "") r2) ok3)).
    split; [|split; [discriminate|]].
    + rewrite Hc3, Hc2, Hc0. reflexivity.
    + intros _. split; [|reflexivity]. eexists _, _, _. split; reflexivity.
  - intros E; inversion E; subst; simpl.
    split; [exact Ht0|]. split; [exact Hm0|].
    exists false, []. split; [exact Hc0|]. split; [auto | discriminate].
Qed.

End Facts.

(* ================================================================== *)
(** ** The claims, for every host *)
(* ================================================================== *)

Section Claims.

Context {H : Host}.

(** C3 (amended): a run of [executeIntelligentOrchestration] that returns
    called the interpreter first.  When that call succeeded, the
    supervisor was called last, whatever the planned steps did in
    between, and [success] is the success of that supervisor call alone.
    When the interpreter failed, no other agent was called, the
    supervisor included, and [success] is [false]. *)
Theorem orchestration_success_is_supervisor_success :
  forall (userPrompt : string) (s s' : Sys) (r : PipelineResult JSON),
    executeIntelligentOrchestration userPrompt s = (Returned r, s') ->
    exists interpreterOk rest,
      history r = mkCall "interpreter" (interpreterInstructions userPrompt) interpreterOk
                    :: rest
      /\ (interpreterOk = false -> rest = [] /\ success r = false)
      /\ (interpreterOk = true ->
          exists planned supervisorInput supervisorOk,
            rest = push planned (mkCall "supervisor" supervisorInput supervisorOk)
            /\ success r = supervisorOk).
Proof.
  intros userPrompt s s' r Hrun.
  destruct (orchestration_shape _ _ _ _ Hrun)
    as (_ & _ & ok & rest & Hhistory & Hfailed & Hpassed).
  exists ok, rest. split; [exact Hhistory|]. split.
  - intros Hok. destruct (Hfailed Hok) as (Hrest & Hsuccess & _). auto.
  - intros Hok. exact (proj1 (Hpassed Hok)).
Qed.

(** C10 (amended): in a run of [executeIntelligentOrchestration] that
    returns, the keys of [results] are exactly the keys
    [role ++ "_result"] of the agent calls that succeeded, so neither
    "final_summary" nor "generated_code" is ever present; [finalResult]
    is the placeholder "Workflow completed" when the interpreter
    succeeded, and the message of the failed interpretation when it did
    not. *)
Theorem orchestration_finalResult_is_placeholder :
  forall (userPrompt : string) (s s' : Sys) (r : PipelineResult JSON),
    executeIntelligentOrchestration userPrompt s = (Returned r, s') ->
    (forall k, In k (Map_keys (results (context r)))
               <-> exists call, In call (history r) /\ call_ok call = true
                                /\ k = call_role call ++ "_result")
    /\ Map_get (results (context r)) "final_summary" = None
    /\ Map_get (results (context r)) "generated_code" = None
    /\ exists interpreterOk rest,
        history r = mkCall "interpreter" (interpreterInstructions userPrompt) interpreterOk
                      :: rest
        /\ finalResult r
           = if interpreterOk then "Workflow completed"
             else "Interpretation failed - cannot determine next steps".
Proof.
  intros userPrompt s s' r Hrun.
  destruct (orchestration_shape _ _ _ _ Hrun)
    as (Htracks & _ & ok & rest & Hhistory & Hfailed & Hpassed).
  assert (Hsummary : Map_get (results (context r)) "final_summary" = None)
    by (apply (tracks_no_other_key _ _ _ Htracks); discriminate).
  assert (Hcode : Map_get (results (context r)) "generated_code" = None)
    by (apply (tracks_no_other_key _ _ _ Htracks); discriminate).
  split; [exact (proj1 Htracks)|]. split; [exact Hsummary|]. split; [exact Hcode|].
  exists ok, rest. split; [exact Hhistory|]. destruct ok.
  - rewrite (proj2 (Hpassed eq_refl)). unfold selectFinalResult.
    now rewrite Hsummary, Hcode.
  - exact (proj2 (proj2 (Hfailed eq_refl))).
Qed.

(** C9 (amended): a planned step calls its agent once with its
    instructions.  When that call failed and the step is required the
    workflow stops and the agent is not called again.  Otherwise, when
    the step declares [iterativeFeedback] and the output stored under its
    [feedbackOutput] key contains, case ignored, "error", "issues" or
    "fix needed", the same agent is called exactly once more, with the
    instructions followed by that feedback; and when the step declares no
    iterative feedback, or nothing is stored under the key, or the stored
    output holds none of the three substrings, the agent is not called
    again.  A planned step never makes more than two calls. *)
Theorem iterative_feedback_retries_once :
  forall (userPrompt : string) (step : PlannedStep) (r : Run) (s : Sys),
    let '(ok, r1, _) :=
      executeSingleAgent (plan_agent step) (instructions step) userPrompt r s in
    let '(continue, r2, _) := workflowStep userPrompt step r s in
    calls r1 = push (calls r) (mkCall (plan_agent step) (instructions step) ok)
    /\ (ok = false -> required step = true -> continue = false /\ calls r2 = calls r1)
    /\ (ok = true \/ required step = false ->
        continue = true
        /\ (forall key feedback,
              iterativeFeedback step = Some true ->
              feedbackOutput step = Some key ->
              Map_get (results (ctx r1)) key = Some feedback ->
              (exists marker, In marker issueMarkers
                              /\ includes (toLowerCase feedback) marker = true) ->
              exists ok2,
                calls r2 = push (calls r1)
                             (mkCall (plan_agent step)
                                (iterationInstructions step feedback) ok2))
        /\ (iterativeFeedback step <> Some true
            \/ (forall key, feedbackOutput step = Some key ->
                            Map_get (results (ctx r1)) key = None)
            \/ (forall key feedback,
                   feedbackOutput step = Some key ->
                   Map_get (results (ctx r1)) key = Some feedback ->
                   forall marker, In marker issueMarkers ->
                                  includes (toLowerCase feedback) marker = false) ->
            calls r2 = calls r1))
    /\ List.length (calls r2) <= List.length (calls r) + 2.
Proof.
  intros userPrompt step r s. unfold workflowStep.
  destruct (executeSingleAgent (plan_agent step) (instructions step) userPrompt r s)
    as [[ok r1] s1] eqn:E1.
  destruct (executeSingleAgent_tracks _ _ _ _ _ _ _ _ E1) as (Hc1 & _ & _).
  assert (Hlen1 : List.length (calls r1) = List.length (calls r) + 1)
    by (rewrite Hc1; unfold push; rewrite length_app; reflexivity).
  destruct (negb ok && required step) eqn:Estop.
  - (* the workflow stops *)
    apply andb_prop in Estop. destruct Estop as [Hok Hreq].
    apply negb_true_iff in Hok. simpl.
    split; [exact Hc1|]. split; [auto|]. split; [|lia].
    intros [Hok'|Hreq']; congruence.
  - assert (Hgo : ok = false -> required step = true -> False).
    { intros Hok Hreq. rewrite Hok, Hreq in Estop. discriminate. }
    destruct (feedbackFor step (ctx r1)) as [qualityCheck|] eqn:Efeedback.
    + apply feedbackFor_spec in Efeedback.
      destruct Efeedback as (Hdeclares & key0 & Hkey0 & Hstored).
      destruct (signalsIssues qualityCheck) eqn:Esignals.
      * (* one more call *)
        destruct (executeSingleAgent _ _ _ _ s1) as [[ok2 r2] s2] eqn:E2.
        destruct (executeSingleAgent_tracks _ _ _ _ _ _ _ _ E2) as (Hc2 & _ & _).
        simpl in Hc2.
        split; [exact Hc1|]. split; [intros; now exfalso; auto|]. split.
        -- intros _. split; [reflexivity|]. split.
           ++ intros key feedback _ Hkey Hget _. exists ok2.
              assert (feedback = qualityCheck) by congruence. subst feedback.
              exact Hc2.
           ++ apply signalsIssues_spec in Esignals.
              intros [Hno|[Habsent|Hclean]].
              ** contradiction.
              ** rewrite (Habsent _ Hkey0) in Hstored. discriminate.
              ** destruct Esignals as (marker & Hin & Hfound).
                 rewrite (Hclean _ _ Hkey0 Hstored _ Hin) in Hfound. discriminate.
        -- rewrite Hc2. unfold push. rewrite length_app. simpl. lia.
      * (* the feedback signals nothing *)
        split; [exact Hc1|]. split; [intros; now exfalso; auto|]. split; [|lia].
        intros _. split; [reflexivity|]. split; [|reflexivity].
        intros key feedback _ Hkey Hget Hmarker.
        assert (feedback = qualityCheck) by congruence. subst feedback.
        apply signalsIssues_spec in Hmarker. congruence.
    + (* no feedback to read *)
      split; [exact Hc1|]. split; [intros; now exfalso; auto|]. split; [|lia].
      intros _. split; [reflexivity|]. split; [|reflexivity].
      intros key feedback Hdeclares Hkey Hget _.
      assert (Hsome : feedbackFor step (ctx r1) = Some feedback)
        by (apply feedbackFor_spec; eauto).
      congruence.
Qed.


(** C7: a run of [executePipeline] that completes has [success] exactly
    when [errors] is empty, and its [finalResult] is the value under
    "final_summary" if that key is present, else the value under
    "generated_code" if that one is, else "Pipeline completed".  With the
    registered pipelines, a run of "analysis-only" against a service that
    always answers "analysis complete: no issues found" yields
    [success], the placeholder, and [results] holding the one key
    "analysis" with that answer. *)
Theorem executePipeline_completion :
  forall (self : MultiAgentOrchestrator) (pipelineId userPrompt : string)
         (s s' : Sys) (r : PipelineResult JSON),
    executePipeline self pipelineId userPrompt s = (Returned r, s') ->
    (success r = true <-> errors (context r) = [])
    /\ finalResult r = finalResult_spec (context r) "Pipeline completed"
    /\ (pipelines self = initializePipelines ->
        pipelineId = "analysis-only" ->
        (forall request w,
            fst (post request w) = Replied (Some "analysis complete: no issues found")) ->
        success r = true
        /\ finalResult r = "Pipeline completed"
        /\ results (context r) = [("analysis", "analysis complete: no issues found")]).
Proof.
  intros self pipelineId userPrompt s s' r. unfold executePipeline.
  destruct (lookupPipeline self pipelineId) as [pipeline|e] eqn:Elookup; [|discriminate].
  destruct (pipelineLoop _ 0 (steps pipeline) _ s) as [r1 s1] eqn:Eloop.
  intros E; inversion E; subst; simpl. split; [|split].
  - rewrite Nat.eqb_eq. destruct (errors (ctx r1)); simpl; split; congruence.
  - apply selectFinalResult_spec.
    apply (pipelineLoop_results_nonempty _ _ _ _ _ _ _ Eloop). constructor.
  - intros Hself -> Hservice. revert Elookup Eloop.
    unfold lookupPipeline. rewrite Hself, initializePipelines_get.
    change (String.eqb "code-development" "analysis-only") with false.
    change (String.eqb "analysis-only" "analysis-only") with true.
    cbv iota. change (enabled analysisOnlyPipeline) with true. cbv iota.
    intros Elookup; inversion Elookup; subst pipeline.
    change (steps analysisOnlyPipeline) with createAnalysisSteps.
    unfold createAnalysisSteps, pipelineLoop, chat.
    match goal with |- context [post ?q ?w] =>
      specialize (Hservice q w); destruct (post q w) as [reply w'] end.
    simpl in Hservice. subst reply.
    intros Eloop; inversion Eloop; subst. repeat split.
Qed.

(** C8: [executePipeline] throws exactly when no pipeline is registered
    under [pipelineId] or the registered one is disabled; it then throws
    before anything else happens: no request has been posted, the world
    is unchanged, and the error is the one of the guard. *)
Theorem executePipeline_throws_iff_not_runnable :
  forall (self : MultiAgentOrchestrator) (pipelineId userPrompt : string) (s : Sys),
    ((exists e s', executePipeline self pipelineId userPrompt s = (Raised e, s'))
     <-> (Map_get (pipelines self) pipelineId = None
          \/ exists pipeline, Map_get (pipelines self) pipelineId = Some pipeline
                              /\ enabled pipeline = false))
    /\ (forall e s',
          executePipeline self pipelineId userPrompt s = (Raised e, s') ->
          s' = s
          /\ e = Error ("Pipeline " ++ pipelineId ++ " not found or disabled")).
Proof.
  intros self pipelineId userPrompt s. unfold executePipeline, lookupPipeline.
  destruct (Map_get (pipelines self) pipelineId) as [pipeline|].
  - destruct (enabled pipeline) eqn:Eenabled.
    + destruct (pipelineLoop _ 0 (steps pipeline) _ s) as [r1 s1]. split.
      * split.
        -- intros (e & s' & E). discriminate.
        -- intros [E|(p & E & Hp)]; [discriminate|]. inversion E; subst. congruence.
      * intros e s' E. discriminate.
    + split.
      * split; [|eauto]. intros _. right. eauto.
      * intros e s' E. inversion E; subst. auto.
  - split.
    + split; [|eauto]. intros _. left. reflexivity.
    + intros e s' E. inversion E; subst. auto.
Qed.

(** The call to the pruning agent itself is not guarded: when it fails,
    [pruneAgentMemories] throws. *)
Lemma pruneAgentMemories_throws_on_failed_call
      (originalUserPrompt currentPrompt : string)
      (agentMemories : Map (list (AgentMemory JSON))) (s : Sys)
      (m : string) (w : World) :
  post (pruningRequest originalUserPrompt currentPrompt (flattenMemories agentMemories))
       (world s) = (PostFailed m, w) ->
  exists s',
    pruneAgentMemories originalUserPrompt agentMemories currentPrompt s
    = (Raised (Error ("Failed to communicate with Grok API: " ++ m)), s').
Proof.
  intros Hpost. unfold pruneAgentMemories, chat. rewrite Hpost. eexists. reflexivity.
Qed.

(** In [executeIntelligentOrchestration] the counter is the number of
    agent calls that succeeded, and [maxSteps] is 10: nothing compares
    the two. *)
Lemma orchestration_stepCount (userPrompt : string) (s s' : Sys)
      (r : PipelineResult JSON) :
  executeIntelligentOrchestration userPrompt s = (Returned r, s') ->
  stepCount (context r) = List.length (filter call_ok (history r))
  /\ maxSteps (context r) = 10.
Proof.
  intros Hrun. destruct (orchestration_shape _ _ _ _ Hrun) as ([_ Hcount] & Hmax & _).
  auto.
Qed.

(** The interpretation handed to the workflow director,
    [context.results.get('interpretation') || ''] after the interpreter's
    call, is the empty string whatever the interpreter answered. *)
Lemma director_receives_empty_interpretation (userPrompt : string) (s s0 : Sys)
      (r0 : Run) (ok : bool) :
  executeSingleAgent "interpreter" (interpreterInstructions userPrompt) userPrompt
    (initialRun userPrompt 10) s = (ok, r0, s0) ->
  or_else (Map_get (results (ctx r0)) "interpretation") "" = "".
Proof.
  intros E. destruct (executeSingleAgent_tracks _ _ _ _ _ _ _ _ E) as (_ & _ & Htracks).
  rewrite (tracks_no_other_key _ _ "interpretation" (Htracks (initialRun_tracks _ _)));
    [reflexivity | discriminate].
Qed.

(** The interpreter's output is stored under "interpreter_result"; the
    key "interpretation", which the orchestration reads for the director
    and for the supervisor, is never written. *)
Lemma interpretation_is_never_stored (userPrompt : string) (s s' : Sys)
      (r : PipelineResult JSON) :
  executeIntelligentOrchestration userPrompt s = (Returned r, s') ->
  Map_get (results (context r)) "interpretation" = None.
Proof.
  intros Hrun. destruct (orchestration_shape _ _ _ _ Hrun) as (Htracks & _).
  apply (tracks_no_other_key _ _ _ Htracks). discriminate.
Qed.

End Claims.

(* ================================================================== *)
(** ** Runs against scripted services *)
(* ================================================================== *)

Import Scripted.

(** A run of a scripted service is evaluated: it returned, and this is its
    result. *)
Ltac evaluate_run :=
  match goal with
  | |- exists r s', ?run = (Returned r, s') /\ _ =>
      exists (result_of run), (snd run); split; [vm_compute; reflexivity|]
  end.

Ltac evaluated := vm_compute; reflexivity.

(** C1 (the code at the failing input): the director plans nine steps and
    every call succeeds; the run ends with [stepCount] 11 above [maxSteps]
    10. *)
Theorem stepCount_exceeds_maxSteps :
  exists r s',
    @executeIntelligentOrchestration nineHost crashPrompt (start nineHost 0)
    = (Returned r, s')
    /\ stepCount (context r) = 11
    /\ maxSteps (context r) = 10
    /\ outline r
       = ("interpreter", true) :: repeat ("analysis", true) 9 ++ [("supervisor", true)].
Proof.
  evaluate_run. split; [evaluated|]. split; evaluated.
Qed.

(** C2 (the code at the failing input): the interpreter answers
    [interpreterAnswer], which is stored under "interpreter_result"; the
    third request, the one to the workflow director, carries the user's
    prompt and an empty interpretation, and the interpreter's answer is no
    part of it. *)
Theorem director_message_lacks_interpretation :
  exists r s',
    @executeIntelligentOrchestration answeringHost crashPrompt (start answeringHost 0)
    = (Returned r, s')
    /\ Map_get (results (context r)) "interpreter_result" = Some interpreterAnswer
    /\ option_map (fun request => List.map msg_content (messages request))
                  (nth_error (sent s') 2)
       = Some [ workflowDirectorPrompt; workflowRequestText "" crashPrompt ]
    /\ includes (workflowRequestText "" crashPrompt) crashPrompt = true
    /\ includes (workflowRequestText "" crashPrompt) interpreterAnswer = false.
Proof.
  evaluate_run. split; [evaluated|]. split; [evaluated|]. split; evaluated.
Qed.

(** C3 (counterexample): the interpreter's request fails; the run returns
    with [success] [false] after that one call, and the supervisor is
    never called. *)
Lemma interpreter_failure_skips_supervisor :
  exists r s',
    @executeIntelligentOrchestration offlineHost crashPrompt (start offlineHost 0)
    = (Returned r, s')
    /\ outline r = [("interpreter", false)]
    /\ success r = false
    /\ List.length (sent s') = 1
    /\ existsb (fun call => String.eqb (call_role call) "supervisor") (history r) = false.
Proof.
  evaluate_run. split; [evaluated|]. split; [evaluated|]. split; evaluated.
Qed.

(** C3 (witness): the director answers in prose, the required analysis of
    the fallback plan fails and stops the plan, the supervisor answers: the
    run is a success with an error on record. *)
Lemma orchestration_success_is_supervisor_success_witness :
  exists r s',
    @executeIntelligentOrchestration flakyHost crashPrompt (start flakyHost 0)
    = (Returned r, s')
    /\ outline r = [("interpreter", true); ("analysis", false); ("supervisor", true)]
    /\ List.length (errors (context r)) = 1
    /\ success r = true
    /\ exists interpreterOk rest,
        history r = mkCall "interpreter" (interpreterInstructions crashPrompt) interpreterOk
                      :: rest
        /\ (interpreterOk = false -> rest = [] /\ success r = false)
        /\ (interpreterOk = true ->
            exists planned supervisorInput supervisorOk,
              rest = push planned (mkCall "supervisor" supervisorInput supervisorOk)
              /\ success r = supervisorOk).
Proof.
  evaluate_run. split; [evaluated|]. split; [evaluated|]. split; [evaluated|].
  apply (@orchestration_success_is_supervisor_success
           flakyHost crashPrompt (start flakyHost 0)
           (snd (@executeIntelligentOrchestration flakyHost crashPrompt (start flakyHost 0)))).
  evaluated.
Defined.

(** C10 (counterexample): the interpreter's request fails and the run
    returns the message of the failed interpretation, not the
    placeholder. *)
Lemma interpreter_failure_finalResult :
  exists r s',
    @executeIntelligentOrchestration offlineHost "add a login page" (start offlineHost 0)
    = (Returned r, s')
    /\ finalResult r = "Interpretation failed - cannot determine next steps"
    /\ String.eqb (finalResult r) "Workflow completed" = false.
Proof.
  evaluate_run. split; evaluated.
Qed.

(** C10 (witness): every call succeeds, and [finalResult] is the
    placeholder. *)
Lemma orchestration_finalResult_is_placeholder_witness :
  exists r s',
    @executeIntelligentOrchestration answeringHost crashPrompt (start answeringHost 0)
    = (Returned r, s')
    /\ finalResult r = "Workflow completed"
    /\ Map_keys (results (context r))
       = ["interpreter_result"; "analysis_result"; "coder_result"; "judge_result";
          "supervisor_result"]
    /\ Map_get (results (context r)) "final_summary" = None
    /\ Map_get (results (context r)) "generated_code" = None.
Proof.
  evaluate_run. split; [evaluated|]. split; [evaluated|].
  assert (Hrun : @executeIntelligentOrchestration answeringHost crashPrompt
                   (start answeringHost 0)
                 = (Returned (result_of (@executeIntelligentOrchestration answeringHost
                                           crashPrompt (start answeringHost 0))),
                    snd (@executeIntelligentOrchestration answeringHost crashPrompt
                           (start answeringHost 0))))
    by evaluated.
  destruct (@orchestration_finalResult_is_placeholder
              answeringHost crashPrompt (start answeringHost 0) _ _ Hrun)
    as (_ & Hsummary & Hcode & _).
  split; [exact Hsummary | exact Hcode].
Defined.

(** C9 (counterexample): the coder step is required and declares iterative
    feedback on "judge_result", under which the judge's answer, with
    "issues" in it, is stored; the coder's call fails, the workflow stops,
    and the coder is not called again. *)
Lemma failed_required_step_is_not_retried :
  exists r s',
    @executeIntelligentOrchestration brokenCoderHost crashPrompt (start brokenCoderHost 0)
    = (Returned r, s')
    /\ Map_get (results (context r)) "judge_result" = Some "There are issues in the parser"
    /\ includes (toLowerCase "There are issues in the parser") "issues" = true
    /\ outline r
       = [("interpreter", true); ("judge", true); ("coder", false); ("supervisor", true)].
Proof.
  evaluate_run. split; [evaluated|]. split; evaluated.
Qed.

(** The same plan when the coder's call succeeds: the coder is called a
    second time, once, with the judge's answer after its instructions. *)
Lemma successful_step_is_retried_once :
  exists r s',
    @executeIntelligentOrchestration retryHost crashPrompt (start retryHost 0)
    = (Returned r, s')
    /\ List.map (fun c => (call_role c, call_input c)) (firstn 3 (skipn 1 (history r)))
       = [ ("judge", "Review the parser");
           ("coder", "Repair the parser");
           ("coder", "Repair the parser" ++ nl ++ nl
                     ++ "PREVIOUS FEEDBACK FROM QUALITY CHECK:" ++ nl
                     ++ "There are issues in the parser" ++ nl ++ nl
                     ++ "Please address these issues and improve the solution.") ]
    /\ outline r
       = [("interpreter", true); ("judge", true); ("coder", true); ("coder", true);
          ("supervisor", true)].
Proof.
  evaluate_run. split; evaluated.
Qed.

(** C7 (witness): the scenario of the specification. *)
Lemma executePipeline_completion_witness :
  exists r s',
    @executePipeline (constant stubAnswer) newMultiAgentOrchestrator
      "analysis-only" "review this module for complexity" (start (constant stubAnswer) 0)
    = (Returned r, s')
    /\ success r = true
    /\ finalResult r = "Pipeline completed"
    /\ results (context r) = [("analysis", stubAnswer)].
Proof.
  evaluate_run.
  assert (Hrun : @executePipeline (constant stubAnswer) newMultiAgentOrchestrator
                   "analysis-only" "review this module for complexity"
                   (start (constant stubAnswer) 0)
                 = (Returned (result_of (@executePipeline (constant stubAnswer)
                                           newMultiAgentOrchestrator "analysis-only"
                                           "review this module for complexity"
                                           (start (constant stubAnswer) 0))),
                    snd (@executePipeline (constant stubAnswer)
                           newMultiAgentOrchestrator "analysis-only"
                           "review this module for complexity"
                           (start (constant stubAnswer) 0))))
    by evaluated.
  destruct (@executePipeline_completion
              (constant stubAnswer) newMultiAgentOrchestrator
              "analysis-only" "review this module for complexity"
              (start (constant stubAnswer) 0) _ _ Hrun)
    as (_ & _ & Hscenario).
  exact (Hscenario eq_refl eq_refl (fun _ _ => eq_refl)).
Defined.

(** What [executePipelineWithMemory] owes to the registered pipelines: on
    a list of steps with a step after the supervisor's, its loop, which has
    no [break], calls that step after the supervisor failed, where the loop
    of [executePipeline] stops. *)
Lemma memoryLoop_runs_past_failed_supervisor :
  outline_of (@calls firstDownHost
                (fst (@memoryLoop firstDownHost crashPrompt 2 0 supervisorFirstSteps
                        (@initialRun firstDownHost crashPrompt 2) (start firstDownHost 0))))
  = [("supervisor", false); ("analyzer", true)]
  /\ outline_of (@calls firstDownHost
                   (fst (@pipelineLoop firstDownHost 2 0 supervisorFirstSteps
                           (@initialRun firstDownHost crashPrompt 2)
                           (start firstDownHost 0))))
     = [("supervisor", false)].
Proof.
  split; evaluated.
Qed.

(* ================================================================== *)
(** ** Further properties: the extraction of a JSON block *)
(* ================================================================== *)

Lemma split_from_skip (sep : string) (s : string) :
  forall k cur, split_from sep k cur s = split_from sep 0 cur (drop k s).
Proof.
  induction s as [|c s IH]; intros k cur.
  - destruct k; reflexivity.
  - destruct k as [|k]; [reflexivity|]. simpl. apply IH.
Qed.

Lemma split_from_head (sep : string) (s : string) :
  forall cur, hd_error (split_from sep 0 cur s) = Some (rev_string cur (text_before sep s)).
Proof.
  induction s as [|c s IH]; intros cur.
  - simpl. destruct (startsWith sep ""); reflexivity.
  - cbn [split_from text_before]. destruct (startsWith sep (String c s)).
    + reflexivity.
    + rewrite IH. reflexivity.
Qed.

Lemma nth_error_1 {A} (x : A) (l : list A) : nth_error (x :: l) 1 = hd_error l.
Proof. destruct l; reflexivity. Qed.

Lemma nth_error_0 {A} (l : list A) : nth_error l 0 = hd_error l.
Proof. destruct l; reflexivity. Qed.

Lemma split_from_second (a : ascii) (sep' : string) (s : string) :
  forall cur,
    nth_error (split_from (String a sep') 0 cur s) 1
    = option_map (text_before (String a sep')) (text_after (String a sep') s).
Proof.
  induction s as [|c s IH]; intros cur.
  - reflexivity.
  - cbn [split_from text_after]. destruct (startsWith (String a sep') (String c s)).
    + rewrite nth_error_1, split_from_skip, split_from_head.
      simpl. rewrite Nat.sub_0_r. reflexivity.
    + apply IH.
Qed.

Lemma startsWith_app (p s : string) : startsWith p (p ++ s) = true.
Proof.
  induction p as [|c p IH]; [reflexivity|]. simpl. now rewrite Ascii.eqb_refl, IH.
Qed.

Lemma drop_app (p s : string) : drop (String.length p) (p ++ s) = s.
Proof. induction p as [|c p IH]; [now destruct s | exact IH]. Qed.

Lemma text_after_none (sep s : string) :
  includes s sep = false -> text_after sep s = None.
Proof.
  induction s as [|c s IH]; simpl.
  - rewrite orb_false_r. now intros ->.
  - intros Hs. apply orb_false_elim in Hs. destruct Hs as [-> Hs]. auto.
Qed.

Lemma text_after_lacks (a : ascii) (sep' pre rest : string) :
  lacks a pre = true ->
  text_after (String a sep') (pre ++ String a sep' ++ rest) = Some rest.
Proof.
  induction pre as [|c pre IH]; intros Hpre.
  - change ("" ++ String a sep' ++ rest) with (String a sep' ++ rest).
    destruct (String a sep' ++ rest) as [|d t] eqn:E; [discriminate|].
    cbn [text_after]. rewrite <- E, startsWith_app.
    now rewrite (drop_app (String a sep') rest).
  - simpl in Hpre. apply andb_prop in Hpre. destruct Hpre as [Hc Hpre].
    apply negb_true_iff in Hc.
    change (text_after (String a sep') (String c (pre ++ String a sep' ++ rest))
            = Some rest).
    cbn [text_after startsWith]. rewrite Hc. simpl. exact (IH Hpre).
Qed.

Lemma text_before_lacks (a : ascii) (sep' body rest : string) :
  lacks a body = true ->
  text_before (String a sep') (body ++ rest) = body ++ text_before (String a sep') rest.
Proof.
  induction body as [|c body IH]; intros Hbody; [reflexivity|].
  simpl in Hbody. apply andb_prop in Hbody. destruct Hbody as [Hc Hbody].
  apply negb_true_iff in Hc.
  change (text_before (String a sep') (String c (body ++ rest))
          = String c (body ++ text_before (String a sep') rest)).
  cbn [text_before startsWith]. rewrite Hc. simpl. now rewrite (IH Hbody).
Qed.

Lemma text_before_at (sep s : string) : startsWith sep s = true -> text_before sep s = "".
Proof. intros Hs. destruct s; simpl; rewrite Hs; reflexivity. Qed.

Lemma text_before_step (sep : string) (c : ascii) (s : string) :
  startsWith sep (String c s) = false ->
  text_before sep (String c s) = String c (text_before sep s).
Proof. intros Hs. cbn [text_before]. now rewrite Hs. Qed.

Lemma app_empty_r (s : string) : s ++ "" = s.
Proof. induction s as [|c s IH]; simpl; congruence. Qed.

(** [jsonBlock] in terms of the text around the first fence. *)
Lemma jsonBlock_text (response : string) :
  jsonBlock response
  = match text_after "```json" response with
    | None => response
    | Some rest =>
        match text_before "```" (text_before "```json" rest) with
        | EmptyString => response
        | block => block
        end
    end.
Proof.
  unfold jsonBlock, split. rewrite split_from_second.
  destruct (text_after "```json" response) as [rest|]; [|reflexivity].
  cbn [option_map]. rewrite nth_error_0, split_from_head. cbn [rev_string].
  unfold or_else. destruct (text_before "```" (text_before "```json" rest)); reflexivity.
Qed.

(** X1: [jsonBlock] takes the first fenced region: the text after the
    first "```json" of the response, cut at the next "```json" and then at
    the first "```"; it is the whole response when there is no "```json"
    in it, and also when that text is empty. *)
Theorem jsonBlock_first_fence :
  forall response : string,
    jsonBlock response
    = match text_after "```json" response with
      | None => response
      | Some rest =>
          match text_before "```" (text_before "```json" rest) with
          | EmptyString => response
          | block => block
          end
      end
    /\ (includes response "```json" = false -> jsonBlock response = response).
Proof.
  intros response. split; [apply jsonBlock_text|].
  intros Hnone. rewrite jsonBlock_text, (text_after_none _ _ Hnone). reflexivity.
Qed.

(** X2: for a response that is some text, a fence "```json", a block, the
    closing "```" and more text, where neither the text before the fence nor
    the block holds a backquote and the text after the closing fence does
    not start with one, [jsonBlock] is the block, and the whole response
    when the block is empty. *)
Theorem jsonBlock_of_fenced_block :
  forall pre body post : string,
    lacks "`" pre = true ->
    lacks "`" body = true ->
    startsWith "`" post = false ->
    jsonBlock (pre ++ "```json" ++ body ++ "```" ++ post)
    = match body with
      | EmptyString => pre ++ "```json" ++ body ++ "```" ++ post
      | _ => body
      end.
Proof.
  intros pre body post Hpre Hbody Hpost.
  rewrite jsonBlock_text.
  rewrite (text_after_lacks "`" "``json" pre _ Hpre).
  rewrite (text_before_lacks "`" "``json" body _ Hbody).
  assert (Hcut : text_before "```json" ("```" ++ post) = ""
                 \/ startsWith "```" (text_before "```json" ("```" ++ post)) = true).
  { destruct post as [|c post]; [right; reflexivity|].
    assert (Hc : Ascii.eqb "`" c = false).
    { change (Ascii.eqb "`" c && true = false) in Hpost.
      now rewrite andb_true_r in Hpost. }
    change ("```" ++ String c post)
      with (String "`" (String "`" (String "`" (String c post)))).
    destruct (startsWith "```json" (String "`" (String "`" (String "`" (String c post)))))
      eqn:E0; [left; now apply text_before_at|].
    right. rewrite (text_before_step _ _ _ E0).
    assert (E1 : startsWith "```json" (String "`" (String "`" (String c post))) = false)
      by (cbn [startsWith]; rewrite !Ascii.eqb_refl, Hc; reflexivity).
    assert (E2 : startsWith "```json" (String "`" (String c post)) = false)
      by (cbn [startsWith]; rewrite !Ascii.eqb_refl, Hc; reflexivity).
    rewrite (text_before_step _ _ _ E1), (text_before_step _ _ _ E2).
    cbn [startsWith]. now rewrite !Ascii.eqb_refl. }
  rewrite (text_before_lacks "`" "``" body _ Hbody).
  destruct Hcut as [Hcut|Hcut].
  - rewrite Hcut. simpl text_before. rewrite app_empty_r. destruct body; reflexivity.
  - rewrite (text_before_at _ _ Hcut), app_empty_r. destruct body; reflexivity.
Qed.

(* ================================================================== *)
(** ** Further properties: the chat client and its retries *)
(* ================================================================== *)

Section ClientFacts.

Context {H : Host}.

Lemma chat_raised (request : GrokApiRequest) (s s' : Sys) (e : exn) :
  chat request s = (Raised e, s') ->
  exists m, e = Error ("Failed to communicate with Grok API: " ++ m).
Proof.
  unfold chat. destruct (post request (world s)) as [reply w].
  destruct reply as [c|m]; intros E; inversion E. exists m. reflexivity.
Qed.

Lemma repeat_push {A} (x : A) (k : nat) : (x :: repeat x k) = push (repeat x k) x.
Proof. unfold push. induction k as [|k IH]; simpl; congruence. Qed.

Lemma after_attempts_shift (request : GrokApiRequest) (i : nat) (s : Sys) :
  after_attempts request i (snd (chat request s)) = after_attempts request (S i) s.
Proof. induction i as [|i IH]; [reflexivity|]. simpl in *. now rewrite IH. Qed.

Lemma attempt_shift (request : GrokApiRequest) (i : nat) (s : Sys) :
  attempt request i (snd (chat request s)) = attempt request (S i) s.
Proof. unfold attempt. now rewrite after_attempts_shift. Qed.

Lemma after_attempts_sent (request : GrokApiRequest) (i : nat) (s : Sys) :
  sent (after_attempts request i s) = (sent s ++ repeat request i)%list.
Proof.
  induction i as [|i IH]; simpl; [now rewrite app_nil_r|].
  rewrite (chat_sent request (after_attempts request i s) _ _ (surjective_pairing _)).
  rewrite IH, repeat_push. unfold push. now rewrite app_assoc.
Qed.

Lemma turns_spec (maxRetries : option Z) :
  turns maxRetries = Z.to_nat (match maxRetries with Some n => n | None => 3%Z end).
Proof. destruct maxRetries as [[|n|n]|]; reflexivity. Qed.

(** What the loop of [robustRequest] does, attempt by attempt. *)
Lemma robustAttempts_spec (request : GrokApiRequest) (n : nat) :
  forall (lastError : option exn) (s : Sys),
    match robustAttempts request n lastError s with
    | (inl response, s') =>
        exists k,
          k < n
          /\ (forall i, i < k -> exists e, attempt request i s = Raised e)
          /\ attempt request k s = Returned response
          /\ s' = after_attempts request (S k) s
    | (inr last, s') =>
        (forall i, i < n -> exists e, attempt request i s = Raised e)
        /\ s' = after_attempts request n s
        /\ last = match n with
                  | 0 => lastError
                  | S m => match attempt request m s with
                           | Raised e => Some e
                           | Returned _ => None
                           end
                  end
    end.
Proof.
  induction n as [|n IH]; intros lastError s; simpl.
  - split; [intros i Hi; lia | split; reflexivity].
  - destruct (chat request s) as [[response|error] s1] eqn:Echat.
    + exists 0. split; [lia|]. split; [intros i Hi; lia|].
      unfold attempt. simpl. rewrite Echat. split; reflexivity.
    + assert (Hs1 : s1 = snd (chat request s)) by (rewrite Echat; reflexivity).
      assert (Hfirst : attempt request 0 s = Raised error)
        by (unfold attempt; simpl; rewrite Echat; reflexivity).
      specialize (IH (Some error) s1).
      destruct (robustAttempts request n (Some error) s1) as [[response|last] s2].
      * destruct IH as (k & Hk & Hfail & Hsucc & Hs). subst s1.
        rewrite attempt_shift in Hsucc. rewrite after_attempts_shift in Hs.
        exists (S k). split; [lia|]. split; [|split; assumption].
        intros [|i] Hi; [eauto|]. rewrite <- attempt_shift. apply Hfail. lia.
      * destruct IH as (Hfail & Hs & Hlast). subst s1.
        rewrite after_attempts_shift in Hs. split; [|split; [exact Hs|]].
        -- intros [|i] Hi; [eauto|]. rewrite <- attempt_shift. apply Hfail. lia.
        -- destruct n as [|m]; [now rewrite Hfirst|].
           now rewrite attempt_shift in Hlast.
Qed.

(** X3: [robustRequest] returns the response of the first attempt that
    succeeds, and stops there: it returns a response exactly when, among
    the turns it can take ([maxRetries] of them, three by default, none
    when [maxRetries] is not positive), some attempt succeeds after the
    attempts before it failed; the response is that attempt's, the world
    is the one that attempt left, and the request was posted once for each
    attempt up to it and not again. *)
Theorem robustRequest_returns_first_success :
  forall (request : GrokApiRequest) (maxRetries : option Z) (s s' : Sys)
         (response : string),
    robustRequest request maxRetries s = (Returned response, s')
    <-> exists k,
          k < turns maxRetries
          /\ (forall i, i < k -> exists e, attempt request i s = Raised e)
          /\ attempt request k s = Returned response
          /\ s' = after_attempts request (S k) s
          /\ sent s' = (sent s ++ repeat request (S k))%list.
Proof.
  intros request maxRetries s s' response. rewrite turns_spec. unfold robustRequest.
  pose proof (robustAttempts_spec request
                (Z.to_nat (match maxRetries with Some n => n | None => 3%Z end)) None s)
    as Hspec.
  destruct (robustAttempts request _ None s) as [[response2|last] s2]. 
  - destruct Hspec as (k2 & Hk2 & Hfail2 & Hsucc2 & Hs2). split.
    + intros E; inversion E; subst. exists k2.
      repeat split; try assumption. apply after_attempts_sent.
    + intros (k & Hk & Hfail & Hsucc & Hs & _).
      assert (k = k2).
      { destruct (Nat.lt_trichotomy k k2) as [Hlt|[Heq|Hgt]]; [|exact Heq|].
        - destruct (Hfail2 k Hlt) as [e He]. congruence.
        - destruct (Hfail k2 Hgt) as [e He]. congruence. }
      subst k2. congruence.
  - destruct Hspec as (Hfail & _). split; [discriminate|].
    intros (k & Hk & _ & Hsucc & _). destruct (Hfail k Hk) as [e He]. congruence.
Qed.


End ClientFacts.

(* ================================================================== *)
(** ** Further properties: the ledger of a static run *)
(* ================================================================== *)

Section PipelineFacts.

Context {H : Host}.

Lemma stored_by_cons (step : AgentStep) (rest : list AgentStep) (c : AgentCall)
      (new : list AgentCall) (k : string) :
  stored_by (step :: rest) (c :: new) k
  <-> (call_ok c = true /\ truthy_key (outputKey step) = Some k) \/ stored_by rest new k.
Proof.
  unfold stored_by. split.
  - intros (j & st & call & Hst & Hcall & Hok & Hkey). destruct j as [|j]; simpl in *.
    + inversion Hst; inversion Hcall; subst. auto.
    + right. eauto 8.
  - intros [[Hok Hkey]|(j & st & call & Hst & Hcall & Hok & Hkey)].
    + exists 0, step, c. auto.
    + exists (S j), st, call. auto.
Qed.

Lemma stored_by_single (step : AgentStep) (rest : list AgentStep) (c : AgentCall) (k : string) :
  stored_by (step :: rest) [c] k
  <-> call_ok c = true /\ truthy_key (outputKey step) = Some k.
Proof.
  rewrite stored_by_cons. split; [|auto].
  intros [Hc|(j & st & call & _ & Hcall & _)]; [exact Hc|]. now destruct j.
Qed.

Lemma ledger_step (step : AgentStep) (rest : list AgentStep) (i : nat)
      (r r1 r' : Run) (s s1 s' : Sys) (c : AgentCall) (new : list AgentCall) :
  calls r1 = push (calls r) c ->
  call_role c = role step ->
  List.length (sent s1) = List.length (sent s) + 1 ->
  List.length (errors (ctx r1))
  = List.length (errors (ctx r)) + (if call_ok c then 0 else 1) ->
  stepCount (ctx r1) = i + 1 ->
  maxSteps (ctx r1) = maxSteps (ctx r) ->
  (forall k, In k (Map_keys (results (ctx r1)))
             <-> In k (Map_keys (results (ctx r)))
                 \/ (call_ok c = true /\ truthy_key (outputKey step) = Some k)) ->
  (failed_supervisor c = true -> rest = []) ->
  PipelineLedger rest (i + 1) r1 r' s1 s' new ->
  PipelineLedger (step :: rest) i r r' s s' (c :: new).
Proof.
  intros Hcalls Hrole Hsent Herrors Hcount Hmax Hkeys Hsup L.
  destruct L as [Lc Lr Lsh Lse Le Lst La Lco Lm Lk]. constructor.
  - rewrite Lc, Hcalls. unfold push. now rewrite <- app_assoc.
  - simpl. now rewrite Hrole, Lr.
  - simpl. lia.
  - simpl. lia.
  - rewrite Le, Herrors. simpl. unfold failed at 2. destruct (call_ok c); simpl; lia.
  - simpl. intros Hlt. destruct (Lst ltac:(lia)) as (before & input & ->).
    exists (c :: before), input. reflexivity.
  - simpl. intros Hlast. apply andb_prop in Hlast. destruct Hlast as [_ Hlast].
    now rewrite (La Hlast).
  - rewrite Lco. destruct new; simpl; lia.
  - congruence.
  - intros k. rewrite Lk, Hkeys, stored_by_cons. tauto.
Qed.

Lemma ledger_nil (steps : list AgentStep) (i : nat) (r : Run) (s : Sys) :
  steps = [] -> PipelineLedger steps i r r s s [].
Proof.
  intros ->. constructor; simpl; auto; try lia.
  - now rewrite app_nil_r.
  - intros k. split; [auto|]. intros [Hk|(j & st & call & Hst & _)]; [exact Hk|].
    now destruct j.
Qed.

Lemma pipelineLoop_ledger (steps : list AgentStep) :
  forall total i r s r' s',
    pipelineLoop total i steps r s = (r', s') ->
    exists new, PipelineLedger steps i r r' s s' new.
Proof.
  induction steps as [|step rest IH]; intros total i r s r' s'; simpl.
  - intros E; inversion E; subst. exists []. now apply ledger_nil.
  - destruct (chat _ s) as [[response|error] s1] eqn:Echat.
    + intros E. destruct (IH _ _ _ _ _ _ E) as [new L].
      eexists. refine (ledger_step _ _ _ _ _ _ _ _ _ _ _ _ _ _ _ _ _ _ _ L);
        try (destruct (truthy_key (outputKey step)); reflexivity).
      * rewrite (chat_sent _ _ _ _ Echat). unfold push. rewrite length_app. reflexivity.
      * destruct (truthy_key (outputKey step)); simpl; lia.
      * intros k. destruct (truthy_key (outputKey step)) as [key|]; simpl.
        -- rewrite Map_keys_set. split.
           ++ intros [->|Hk]; auto.
           ++ intros [Hk|[_ Hk]]; [auto | inversion Hk; auto].
        -- split; [auto|]. intros [Hk|[_ Hk]]; [exact Hk | discriminate].
      * unfold failed_supervisor. simpl. rewrite andb_false_r. discriminate.
    + assert (Hfail : forall rest' r2 new,
                 r2 = push_call
                        (push_log (with_ctx
                           (push_log (with_ctx r (set_stepCount (ctx r) (i + 1)))
                              ("Executing step " ++ of_nat (i + 1) ++ "/" ++ of_nat total
                               ++ ": " ++ role step))
                           (push_error (set_stepCount (ctx r) (i + 1))
                              ("Step " ++ role step ++ " failed: " ++ message error)))
                           ("ERROR: " ++ "Step " ++ role step ++ " failed: " ++ message error))
                        (mkCall (role step)
                           (inputMap step (set_stepCount (ctx r) (i + 1))) false) ->
                 (failed_supervisor (mkCall (role step)
                    (inputMap step (set_stepCount (ctx r) (i + 1))) false) = true ->
                  rest' = []) ->
                 PipelineLedger rest' (i + 1) r2 r' s1 s' new ->
                 PipelineLedger (step :: rest') i r r' s s'
                   (mkCall (role step) (inputMap step (set_stepCount (ctx r) (i + 1))) false
                      :: new)).
      { intros rest' r2 new -> Hsup L.
        refine (ledger_step _ _ _ _ _ _ _ _ _ _ _ _ _ _ _ _ _ _ Hsup L); try reflexivity.
        - rewrite (chat_sent _ _ _ _ Echat). unfold push. rewrite length_app. reflexivity.
        - simpl. unfold push. rewrite length_app. reflexivity.
        - intros k. simpl. split; [auto|]. intros [Hk|[Hk _]]; [exact Hk | discriminate]. }
      destruct (String.eqb (role step) "supervisor") eqn:Erole.
      * intros E; inversion E; subst.
        pose proof (Hfail [] _ [] eq_refl (fun _ => eq_refl) (ledger_nil [] _ _ _ eq_refl))
          as L.
        destruct L as [Lc Lr Lsh Lse Le Lst La Lco Lm Lk].
        exists [mkCall (role step) (inputMap step (set_stepCount (ctx r) (i + 1))) false].
        constructor.
        -- exact Lc.
        -- reflexivity.
        -- simpl. lia.
        -- exact Lse.
        -- exact Le.
        -- intros _. apply String.eqb_eq in Erole. rewrite Erole.
           exists [], (inputMap step (set_stepCount (ctx r) (i + 1))). reflexivity.
        -- simpl. rewrite Erole. destruct rest; [reflexivity | discriminate].
        -- exact Lco.
        -- exact Lm.
        -- intros k. rewrite Lk, !stored_by_single. reflexivity.
      * intros E. destruct (IH _ _ _ _ _ _ E) as [new L]. eexists.
        apply (Hfail rest _ new eq_refl); [|exact L].
        unfold failed_supervisor. simpl. rewrite Erole. discriminate.
Qed.

End PipelineFacts.

Section PipelineProperties.

Context {H : Host}.

Lemma no_failure_forallb (cs : list AgentCall) :
  Nat.eqb (List.length (filter failed cs)) 0 = forallb call_ok cs.
Proof.
  induction cs as [|c cs IH]; [reflexivity|].
  simpl. unfold failed at 1. destruct (call_ok c); simpl; [exact IH | reflexivity].
Qed.

Lemma Map_has_In_keys {V} (m : Map V) (k : string) :
  Map_has m k = true <-> In k (Map_keys m).
Proof.
  split; [|apply In_keys_Map_has].
  unfold Map_has. destruct (Map_get m k) as [v|] eqn:E; [|discriminate].
  intros _. exact (Map_get_In_keys _ _ _ E).
Qed.

(** A run of [executePipeline] on a pipeline that is registered and
    enabled, with what its loop added. *)
Lemma executePipeline_ledger (self : MultiAgentOrchestrator)
      (pipelineId userPrompt : string) (s : Sys) (pipeline : AgentPipeline) :
  lookupPipeline self pipelineId = Returned pipeline ->
  exists r s',
    executePipeline self pipelineId userPrompt s = (Returned r, s')
    /\ success r = forallb call_ok (history r)
    /\ PipelineLedger (steps pipeline) 0
         (initialRun userPrompt (List.length (steps pipeline)))
         (mkRun (context r) (executionLog r) [] (history r)) s s' (history r).
Proof.
  intros Hlookup. unfold executePipeline. rewrite Hlookup.
  destruct (pipelineLoop _ 0 (steps pipeline) _ s) as [r1 s1] eqn:Eloop.
  destruct (pipelineLoop_ledger _ _ _ _ _ _ _ Eloop) as [new L].
  pose proof (ledger_calls _ _ _ _ _ _ _ L) as Hcalls. simpl in Hcalls.
  eexists _, _. split; [reflexivity|]. simpl. rewrite Hcalls. split.
  - rewrite (ledger_errors _ _ _ _ _ _ _ L). simpl. apply no_failure_forallb.
  - destruct L as [Lc Lr Lsh Lse Le Lst La Lco Lm Lk]. constructor; simpl; auto.
Qed.

(** X5: [executePipeline] calls the steps of the pipeline in their order,
    one call each, and leaves out steps only after a failed step of the
    role "supervisor"; at the end [stepCount] is the number of steps that
    were called and [maxSteps] the number of steps of the pipeline. *)
Theorem executePipeline_calls_steps_in_order :
  forall (self : MultiAgentOrchestrator) (pipelineId userPrompt : string) (s : Sys)
         (pipeline : AgentPipeline),
    lookupPipeline self pipelineId = Returned pipeline ->
    exists r s',
      executePipeline self pipelineId userPrompt s = (Returned r, s')
      /\ List.map call_role (history r)
         = firstn (List.length (history r)) (List.map role (steps pipeline))
      /\ (List.length (history r) < List.length (steps pipeline) ->
          exists before input,
            history r = (before ++ [mkCall "supervisor" input false])%list)
      /\ stepCount (context r) = List.length (history r)
      /\ maxSteps (context r) = List.length (steps pipeline).
Proof.
  intros self pipelineId userPrompt s pipeline Hlookup.
  destruct (executePipeline_ledger self pipelineId userPrompt s pipeline Hlookup)
    as (r & s' & Hrun & _ & L).
  exists r, s'. split; [exact Hrun|].
  split; [exact (ledger_roles _ _ _ _ _ _ _ L)|].
  split; [exact (ledger_stop _ _ _ _ _ _ _ L)|].
  split; [|exact (ledger_max _ _ _ _ _ _ _ L)].
  pose proof (ledger_count _ _ _ _ _ _ _ L) as Hcount. simpl in Hcount.
  rewrite Hcount. destruct (history r); reflexivity.
Qed.

(** X6: [executePipeline] posts exactly one request for each step it
    calls, records exactly one error for each call that failed, and reports
    [success] exactly when every call succeeded. *)
Theorem executePipeline_accounts_for_every_call :
  forall (self : MultiAgentOrchestrator) (pipelineId userPrompt : string) (s : Sys)
         (pipeline : AgentPipeline),
    lookupPipeline self pipelineId = Returned pipeline ->
    exists r s',
      executePipeline self pipelineId userPrompt s = (Returned r, s')
      /\ List.length (sent s') = List.length (sent s) + List.length (history r)
      /\ List.length (errors (context r)) = List.length (filter failed (history r))
      /\ success r = forallb call_ok (history r).
Proof.
  intros self pipelineId userPrompt s pipeline Hlookup.
  destruct (executePipeline_ledger self pipelineId userPrompt s pipeline Hlookup)
    as (r & s' & Hrun & Hsuccess & L).
  exists r, s'. split; [exact Hrun|].
  split; [exact (ledger_sent _ _ _ _ _ _ _ L)|].
  split; [exact (ledger_errors _ _ _ _ _ _ _ L) | exact Hsuccess].
Qed.

(** X7: after [executePipeline], a key is present in [results] exactly
    when it is the (non-empty) [outputKey] of a step whose call
    succeeded. *)
Theorem executePipeline_results_keys :
  forall (self : MultiAgentOrchestrator) (pipelineId userPrompt : string) (s : Sys)
         (pipeline : AgentPipeline),
    lookupPipeline self pipelineId = Returned pipeline ->
    exists r s',
      executePipeline self pipelineId userPrompt s = (Returned r, s')
      /\ forall k, Map_has (results (context r)) k = true
                   <-> stored_by (steps pipeline) (history r) k.
Proof.
  intros self pipelineId userPrompt s pipeline Hlookup.
  destruct (executePipeline_ledger self pipelineId userPrompt s pipeline Hlookup)
    as (r & s' & Hrun & _ & L).
  exists r, s'. split; [exact Hrun|]. intros k.
  rewrite Map_has_In_keys. rewrite (ledger_keys _ _ _ _ _ _ _ L k). simpl. tauto.
Qed.

(** X8: in an orchestrator as its constructor builds it,
    [runCodeDevelopmentPipeline] and [runAnalysisPipeline] never throw;
    they call every step of their pipeline, whatever fails, so that at the
    end [stepCount] equals [maxSteps]: seven calls and seven requests for
    the one, one call and one request for the other. *)
Theorem registered_pipelines_run_every_step :
  forall (self : MultiAgentOrchestrator) (userPrompt : string) (s : Sys),
    pipelines self = initializePipelines ->
    (exists r s',
        runCodeDevelopmentPipeline self userPrompt s = (Returned r, s')
        /\ List.map call_role (history r)
           = ["interpreter"; "analysis"; "retrieval"; "judge"; "coder"; "quality-check";
              "supervisor"]
        /\ stepCount (context r) = 7 /\ maxSteps (context r) = 7
        /\ List.length (sent s') = List.length (sent s) + 7)
    /\ (exists r s',
          runAnalysisPipeline self userPrompt s = (Returned r, s')
          /\ List.map call_role (history r) = ["analyzer"]
          /\ stepCount (context r) = 1 /\ maxSteps (context r) = 1
          /\ List.length (sent s') = List.length (sent s) + 1).
Proof.
  intros self userPrompt s Hself.
  assert (Hcode : lookupPipeline self "code-development" = Returned codeDevelopmentPipeline)
    by (unfold lookupPipeline; rewrite Hself, initializePipelines_get; reflexivity).
  assert (Honly : lookupPipeline self "analysis-only" = Returned analysisOnlyPipeline)
    by (unfold lookupPipeline; rewrite Hself, initializePipelines_get; reflexivity).
  split.
  - destruct (executePipeline_ledger self _ userPrompt s _ Hcode)
      as (r & s' & Hrun & _ & L).
    exists r, s'. split; [exact Hrun|].
    pose proof (ledger_all _ _ _ _ _ _ _ L eq_refl) as Hlen.
    change (List.length (steps codeDevelopmentPipeline)) with 7 in Hlen.
    pose proof (ledger_roles _ _ _ _ _ _ _ L) as Hroles. rewrite Hlen in Hroles.
    pose proof (ledger_count _ _ _ _ _ _ _ L) as Hcount. simpl in Hcount.
    pose proof (ledger_sent _ _ _ _ _ _ _ L) as Hsent. rewrite Hlen in Hsent.
    split; [exact Hroles|]. split; [|split; [exact (ledger_max _ _ _ _ _ _ _ L) | exact Hsent]].
    rewrite Hcount. destruct (history r); [discriminate | simpl in *; lia].
  - destruct (executePipeline_ledger self _ userPrompt s _ Honly)
      as (r & s' & Hrun & _ & L).
    exists r, s'. split; [exact Hrun|].
    pose proof (ledger_all _ _ _ _ _ _ _ L eq_refl) as Hlen.
    change (List.length (steps analysisOnlyPipeline)) with 1 in Hlen.
    pose proof (ledger_roles _ _ _ _ _ _ _ L) as Hroles. rewrite Hlen in Hroles.
    pose proof (ledger_count _ _ _ _ _ _ _ L) as Hcount. simpl in Hcount.
    pose proof (ledger_sent _ _ _ _ _ _ _ L) as Hsent. rewrite Hlen in Hsent.
    split; [exact Hroles|]. split; [|split; [exact (ledger_max _ _ _ _ _ _ _ L) | exact Hsent]].
    rewrite Hcount. destruct (history r); [discriminate | simpl in *; lia].
Qed.

End PipelineProperties.

(* ================================================================== *)
(** ** Further properties: the run with memories and the memory store *)
(* ================================================================== *)

Lemma Map_set_In_same {V} (m : Map V) (k : string) (v : V) : In (k, v) (Map_set m k v).
Proof.
  induction m as [|[k0 v0] m IH]; simpl; [now left|].
  destruct (String.eqb_spec k0 k) as [->|Hk]; [now left | now right].
Qed.

Lemma Map_set_In {V} (m : Map V) (k : string) (v : V) (k' : string) (v' : V) :
  In (k', v') (Map_set m k v) -> (k' = k /\ v' = v) \/ In (k', v') m.
Proof.
  induction m as [|[k0 v0] m IH]; simpl.
  - intros [E|[]]. inversion E. auto.
  - destruct (String.eqb_spec k0 k) as [->|Hk]; simpl.
    + intros [E|Hin]; [inversion E; auto | auto].
    + intros [E|Hin]; [auto|]. destruct (IH Hin); auto.
Qed.

Lemma Map_get_In {V} (m : Map V) (k : string) (v : V) : Map_get m k = Some v -> In (k, v) m.
Proof.
  induction m as [|[k0 v0] m IH]; simpl; [discriminate|].
  destruct (String.eqb_spec k0 k) as [->|Hk].
  - intros E; inversion E. now left.
  - intros E. right. auto.
Qed.

(** Pushing onto the list under a key adds one element to the map. *)
Lemma Map_push_total {V} (m : Map (list V)) (k : string) (v : V) :
  List.length (List.concat (Map_values (Map_push m k v)))
  = S (List.length (List.concat (Map_values m))).
Proof.
  unfold Map_push, Map_values.
  induction m as [|[k0 v0] m IH]; [reflexivity|].
  simpl. destruct (String.eqb_spec k0 k) as [->|Hk]; simpl.
  - unfold push. rewrite !length_app. simpl. lia.
  - rewrite !length_app. simpl in IH. rewrite IH. lia.
Qed.

(** An element of the map after a push was there before, or is the one
    that was pushed. *)
Lemma Map_push_In {V} (m : Map (list V)) (k : string) (v : V)
      (k' : string) (vs : list V) (x : V) :
  In (k', vs) (Map_push m k v) -> In x vs ->
  (exists vs0, In (k', vs0) m /\ In x vs0) \/ (k' = k /\ x = v).
Proof.
  unfold Map_push. intros Hin Hx. apply Map_set_In in Hin.
  destruct Hin as [[-> ->]|Hin]; [|left; eauto].
  apply In_push in Hx. destruct Hx as [Hx| ->]; [|auto].
  destruct (Map_get m k) as [vs0|] eqn:E; [|contradiction].
  left. exists vs0. split; [exact (Map_get_In _ _ _ E) | exact Hx].
Qed.

Lemma string_app_assoc (a b c : string) : (a ++ b) ++ c = a ++ b ++ c.
Proof. induction a as [|x a IH]; simpl; congruence. Qed.

Section MemoryFacts.

Context {H : Host}.

Lemma generateAgentMemory_posts_once (agentRole0 : string) (output : AgentOutput)
      (userPrompt : string) (c : AgentContext) (s s' : Sys)
      (out : Outcome (AgentMemory JSON)) :
  generateAgentMemory agentRole0 output userPrompt c s = (out, s') ->
  List.length (sent s') = List.length (sent s) + 1
  /\ match out with Returned m => memory_for agentRole0 m | Raised _ => True end.
Proof.
  unfold generateAgentMemory.
  destruct (chat _ s) as [[response|e] s1] eqn:Echat.
  - pose proof (chat_sent _ _ _ _ Echat) as Hsent.
    destruct (JSON_parse (jsonBlock response)) as [memoryContent|e];
      intros E; inversion E; subst; rewrite Hsent; unfold push; rewrite length_app;
      (split; [reflexivity|]); [|exact I].
    repeat split. apply Nat.le_min_r.
  - pose proof (chat_sent _ _ _ _ Echat) as Hsent.
    intros E; inversion E; subst. rewrite Hsent. unfold push. rewrite length_app.
    split; [reflexivity | exact I].
Qed.

Lemma memoryLoop_cons (userPrompt : string) (total i : nat) (step : AgentStep)
      (rest : list AgentStep) (r : Run) (s : Sys) :
  memoryLoop userPrompt total i (step :: rest) r s
  = let (r1, s1) := memoryLoop userPrompt total i [step] r s in
    memoryLoop userPrompt total (i + 1) rest r1 s1.
Proof.
  simpl. destruct (chat _ s) as [[response|error] s1]; [|reflexivity].
  destruct (truthy_key (outputKey step)) as [key|]; [|reflexivity].
  destruct (generateAgentMemory _ _ _ _ s1) as [[memory|memoryError] s2]; reflexivity.
Qed.

Lemma memoryLoop_single (userPrompt : string) (total i : nat) (step : AgentStep)
      (r r1 : Run) (s s1 : Sys) :
  memoryLoop userPrompt total i [step] r s = (r1, s1) ->
  exists c, call_role c = role step /\ MemoryLedger [step] i r r1 s s1 [c].
Proof.
  simpl. destruct (chat _ s) as [[response|error] s0] eqn:Echat.
  - pose proof (chat_sent _ _ _ _ Echat) as Hsent.
    destruct (truthy_key (outputKey step)) as [key|] eqn:Ekey.
    + destruct (generateAgentMemory _ _ _ _ s0) as [[memory|memoryError] s2] eqn:Egen;
        destruct (generateAgentMemory_posts_once _ _ _ _ _ _ _ Egen) as [Hsent2 Hmem];
        intros H0; inversion H0; subst; clear H0;
        (exists (mkCall (role step) (inputMap step (set_stepCount (ctx r) (i + 1))) true));
        (split; [reflexivity|]);
        constructor; simpl; try reflexivity; try lia;
        try (rewrite Hsent2, Hsent; unfold push; rewrite length_app; simpl; lia).
      * intros k. rewrite Map_keys_set, stored_by_single. simpl. rewrite Ekey. split.
        -- intros [->|Hk]; auto.
        -- intros [Hk|[_ Hk]]; [auto | inversion Hk; auto].
      * intros k ms m Hin Hm.
        destruct (Map_push_In _ _ _ _ _ _ Hin Hm) as [Hold|[-> ->]]; [left; exact Hold|].
        right. destruct Hmem as (Hrole & Hrest). rewrite Hrole.
        split; [reflexivity|]. split; [split; [exact Hrole | exact Hrest]|].
        eexists. split; [left; reflexivity|]. split; reflexivity.
      * change (List.length (List.concat (Map_values
                  (Map_push (memories r) (role step ++ "-agent") memory)))
                <= List.length (List.concat (Map_values (memories r))) + 1).
        rewrite Map_push_total. lia.
      * intros k. rewrite Map_keys_set, stored_by_single. simpl. rewrite Ekey. split.
        -- intros [->|Hk]; auto.
        -- intros [Hk|[_ Hk]]; [auto | inversion Hk; auto].
      * intros k ms m Hin Hm. left. eauto.
    + intros H0; inversion H0; subst; clear H0;
        (exists (mkCall (role step) (inputMap step (set_stepCount (ctx r) (i + 1))) true));
        (split; [reflexivity|]);
        constructor; simpl; try reflexivity; try lia;
        try (rewrite Hsent; unfold push; rewrite length_app; simpl; lia).
      * intros k. rewrite stored_by_single. simpl. rewrite Ekey. split; [auto|].
        intros [Hk|[_ Hk]]; [exact Hk | discriminate].
      * intros k ms m Hin Hm. left. eauto.
  - pose proof (chat_sent _ _ _ _ Echat) as Hsent.
    intros H0; inversion H0; subst; clear H0;
      (exists (mkCall (role step) (inputMap step (set_stepCount (ctx r) (i + 1))) false));
      (split; [reflexivity|]);
      constructor; simpl; try reflexivity; try lia;
      try (rewrite Hsent; unfold push; rewrite length_app; simpl; lia);
      try (unfold push; rewrite length_app; simpl; lia).
    + intros k. rewrite stored_by_single. simpl. split; [auto|].
      intros [Hk|[Hk _]]; [exact Hk | discriminate].
    + intros k ms m Hin Hm. left. eauto.
Qed.

Lemma memory_origin_compose (before middle : Map (list (AgentMemory JSON)))
      (c : AgentCall) (new : list AgentCall) (k : string) (m : AgentMemory JSON) :
  (forall k0 ms0 m0, In (k0, ms0) middle -> In m0 ms0 -> memory_origin before [c] k0 m0) ->
  memory_origin middle new k m ->
  memory_origin before (c :: new) k m.
Proof.
  intros Hmiddle [(ms0 & Hin & Hm)|(Hk & Hfor & call & Hcall & Hok & Hrole)].
  - destruct (Hmiddle _ _ _ Hin Hm) as [Hold|(Hk & Hfor & call & Hcall & Hok & Hrole)].
    + left. exact Hold.
    + right. split; [exact Hk|]. split; [exact Hfor|].
      exists call. destruct Hcall as [<-|[]]. split; [now left | auto].
  - right. split; [exact Hk|]. split; [exact Hfor|].
    exists call. split; [now right | auto].
Qed.

Lemma memoryLoop_ledger (userPrompt : string) (steps : list AgentStep) :
  forall total i r s r' s',
    memoryLoop userPrompt total i steps r s = (r', s') ->
    exists new, MemoryLedger steps i r r' s s' new.
Proof.
  induction steps as [|step rest IH]; intros total i r s r' s'.
  - simpl. intros E; inversion E; subst. exists [].
    constructor; simpl; auto; try lia.
    + now rewrite app_nil_r.
    + intros k. split; [auto|]. intros [Hk|(j & st & call & Hst & _)]; [exact Hk|].
      now destruct j.
    + intros k ms m Hin Hm. left. eauto.
  - rewrite memoryLoop_cons.
    destruct (memoryLoop userPrompt total i [step] r s) as [r1 s1] eqn:E1.
    destruct (memoryLoop_single _ _ _ _ _ _ _ _ E1) as (c & Hrole & L1).
    intros E. destruct (IH _ _ _ _ _ _ E) as [new L].
    exists (c :: new).
    destruct L1 as [C1 R1 Slo1 Shi1 E1' N1 M1 K1 O1 T1].
    destruct L as [C R Slo Shi E' N M K O T].
    simpl in Slo1, Shi1, E1', N1, T1.
    constructor.
    + rewrite C, C1. now rewrite <- app_assoc.
    + simpl. now rewrite Hrole, R.
    + simpl. lia.
    + simpl. destruct (call_ok c); simpl in *; lia.
    + rewrite E', E1'. simpl. unfold failed. destruct (call_ok c); simpl; lia.
    + rewrite N. destruct new; simpl; lia.
    + congruence.
    + intros k. rewrite K, K1, (stored_by_cons step rest c new k), (stored_by_single step [] c k). tauto.
    + intros k ms m Hin Hm. eapply memory_origin_compose; [exact O1|].
      exact (O _ _ _ Hin Hm).
    + simpl. destruct (call_ok c); simpl in *; lia.
Qed.

End MemoryFacts.

Lemma Map_get_set_same {V} (m : Map V) (k : string) (v : V) :
  Map_get (Map_set m k v) k = Some v.
Proof.
  induction m as [|[k0 v0] m IH]; simpl.
  - now rewrite String.eqb_refl.
  - destruct (String.eqb_spec k0 k) as [->|Hk]; simpl.
    + now rewrite String.eqb_refl.
    + destruct (String.eqb_spec k0 k) as [E|_]; [contradiction | exact IH].
Qed.

Lemma In_concat_values {V} (m : Map (list V)) (x : V) :
  In x (List.concat (Map_values m)) <-> exists k vs, In (k, vs) m /\ In x vs.
Proof.
  unfold Map_values. rewrite in_concat. split.
  - intros (vs & Hvs & Hx). apply in_map_iff in Hvs. destruct Hvs as ([k vs'] & E & Hin).
    simpl in E. subst. eauto.
  - intros (k & vs & Hin & Hx). exists vs. split; [|exact Hx].
    apply in_map_iff. exists (k, vs). auto.
Qed.

Section MemoryProperties.

Context {H : Host}.

(** A run of [executePipelineWithMemory] on a pipeline that is registered
    and enabled, with what its loop added. *)
Lemma executePipelineWithMemory_ledger (self : MultiAgentOrchestrator)
      (pipelineId userPrompt : string) (s : Sys) (pipeline : AgentPipeline) :
  lookupPipeline self pipelineId = Returned pipeline ->
  exists r s' stored,
    executePipelineWithMemory self pipelineId userPrompt s
    = (Returned r, storeAgentMemories self pipelineId stored s', s')
    /\ agentMemories r = Some stored
    /\ success r = forallb call_ok (history r)
    /\ MemoryLedger (steps pipeline) 0
         (initialRun userPrompt (List.length (steps pipeline)))
         (mkRun (context r) (executionLog r) stored (history r)) s s' (history r).
Proof.
  intros Hlookup. unfold executePipelineWithMemory. rewrite Hlookup.
  destruct (memoryLoop userPrompt _ 0 (steps pipeline) _ s) as [r1 s1] eqn:Eloop.
  destruct (memoryLoop_ledger _ _ _ _ _ _ _ _ Eloop) as [new L].
  pose proof (mem_calls _ _ _ _ _ _ _ L) as Hcalls. simpl in Hcalls.
  exists (mkResult (Nat.eqb (List.length (errors (ctx r1))) 0)
                   (selectFinalResult (ctx r1) "Pipeline completed")
                   (ctx r1) (log r1) (Some (memories r1)) (calls r1)), s1, (memories r1).
  split; [reflexivity|]. split; [reflexivity|]. simpl. rewrite Hcalls. split.
  - rewrite (mem_errors _ _ _ _ _ _ _ L). simpl. apply no_failure_forallb.
  - destruct L as [C R Slo Shi E N M K O T]. constructor; simpl; auto.
Qed.

(** X9: [executePipelineWithMemory] calls every step of the pipeline, in
    order and whatever fails (a failed supervisor does not end this loop);
    [stepCount] ends at [maxSteps], the number of steps; one error is
    recorded for each failed call and [success] holds exactly when every
    call succeeded, so that a failure to generate a memory never counts; a
    run posts one request for each step and at most one more for each call
    that succeeded. *)
Theorem executePipelineWithMemory_runs_every_step :
  forall (self : MultiAgentOrchestrator) (pipelineId userPrompt : string) (s : Sys)
         (pipeline : AgentPipeline),
    lookupPipeline self pipelineId = Returned pipeline ->
    exists r self' s',
      executePipelineWithMemory self pipelineId userPrompt s = (Returned r, self', s')
      /\ List.map call_role (history r) = List.map role (steps pipeline)
      /\ stepCount (context r) = List.length (steps pipeline)
      /\ maxSteps (context r) = List.length (steps pipeline)
      /\ List.length (errors (context r)) = List.length (filter failed (history r))
      /\ success r = forallb call_ok (history r)
      /\ List.length (sent s) + List.length (steps pipeline) <= List.length (sent s')
      /\ List.length (sent s')
         <= List.length (sent s) + List.length (steps pipeline)
            + List.length (filter call_ok (history r)).
Proof.
  intros self pipelineId userPrompt s pipeline Hlookup.
  destruct (executePipelineWithMemory_ledger self pipelineId userPrompt s pipeline Hlookup)
    as (r & s' & stored & Hrun & _ & Hsuccess & L).
  exists r, (storeAgentMemories self pipelineId stored s'), s'. split; [exact Hrun|].
  destruct L as [C R Slo Shi E N M K O T]. simpl in *.
  assert (Hlen : List.length (history r) = List.length (steps pipeline)).
  { rewrite <- (length_map call_role), R. apply length_map. }
  split; [exact R|]. split.
  - rewrite N. destruct (history r); [simpl in Hlen; lia | simpl in *; lia].
  - split; [exact M|]. split; [exact E|]. split; [exact Hsuccess|]. lia.
Qed.

(** X10: the memories [executePipelineWithMemory] returns: each one lies
    under the key made of its [agentRole] and "-agent", has a
    [relevanceScore] of at most ten and the [memoryType] and
    [retentionFlags] of its role, and belongs to a step of the pipeline
    whose call succeeded; there are at most as many memories as calls that
    succeeded. *)
Theorem executePipelineWithMemory_memories :
  forall (self : MultiAgentOrchestrator) (pipelineId userPrompt : string) (s : Sys)
         (pipeline : AgentPipeline),
    lookupPipeline self pipelineId = Returned pipeline ->
    exists r self' s' stored,
      executePipelineWithMemory self pipelineId userPrompt s = (Returned r, self', s')
      /\ agentMemories r = Some stored
      /\ (forall k ms m,
             In (k, ms) stored -> In m ms ->
             k = agentRole m ++ "-agent"
             /\ relevanceScore m <= 10
             /\ memoryType m = getMemoryTypeForRole (agentRole m)
             /\ retentionFlags m = determineRetentionFlags (agentRole m) (content m)
             /\ (exists step, In step (steps pipeline) /\ role step = agentRole m)
             /\ (exists call, In call (history r) /\ call_ok call = true
                              /\ call_role call = agentRole m))
      /\ List.length (List.concat (Map_values stored))
         <= List.length (filter call_ok (history r)).
Proof.
  intros self pipelineId userPrompt s pipeline Hlookup.
  destruct (executePipelineWithMemory_ledger self pipelineId userPrompt s pipeline Hlookup)
    as (r & s' & stored & Hrun & Hstored & _ & L).
  exists r, (storeAgentMemories self pipelineId stored s'), s', stored.
  split; [exact Hrun|]. split; [exact Hstored|].
  destruct L as [C R Slo Shi E N M K O T]. simpl in *. split; [|exact T].
  intros k ms m Hin Hm.
  destruct (O k ms m Hin Hm) as [(ms0 & [] & _)|(Hk & Hfor & call & Hcall & Hok & Hrole)].
  destruct Hfor as (_ & Hscore & Htype & Hflags).
  split; [exact Hk|]. split; [exact Hscore|]. split; [exact Htype|].
  split; [exact Hflags|]. split; [|exists call; auto].
  assert (Hroles : In (call_role call) (List.map role (steps pipeline)))
    by (rewrite <- R; apply in_map; exact Hcall).
  apply in_map_iff in Hroles. destruct Hroles as (step & Hstep & Hin').
  exists step. split; [exact Hin' | congruence].
Qed.

(** X11: [executePipelineWithMemory] leaves the pipelines of the
    orchestrator as they were and puts the memories it returns, flattened,
    into the store under the key made of "pipeline-", the id of the
    pipeline and the clock; [analyzeMemoriesForPipeline] then collects
    every one of them for this pipeline. *)
Theorem executePipelineWithMemory_stores_memories :
  forall (self : MultiAgentOrchestrator) (pipelineId userPrompt : string) (s : Sys)
         (pipeline : AgentPipeline),
    lookupPipeline self pipelineId = Returned pipeline ->
    exists r self' s' stored,
      executePipelineWithMemory self pipelineId userPrompt s = (Returned r, self', s')
      /\ agentMemories r = Some stored
      /\ pipelines self' = pipelines self
      /\ Map_get (memoryStore self')
           ("pipeline-" ++ pipelineId ++ "-" ++ of_N (now (world s')))
         = Some (List.concat (Map_values stored))
      /\ (forall k ms m, In (k, ms) stored -> In m ms ->
                         In m (storedMemoriesFor self' pipelineId)).
Proof.
  intros self pipelineId userPrompt s pipeline Hlookup.
  destruct (executePipelineWithMemory_ledger self pipelineId userPrompt s pipeline Hlookup)
    as (r & s' & stored & Hrun & Hstored & _ & _).
  exists r, (storeAgentMemories self pipelineId stored s'), s', stored.
  split; [exact Hrun|]. split; [exact Hstored|]. split; [reflexivity|].
  split; [apply Map_get_set_same|].
  intros k ms m Hin Hm. unfold storedMemoriesFor, storeAgentMemories. simpl.
  apply in_concat. exists (List.concat (Map_values stored)).
  split; [|apply In_concat_values; eauto].
  apply in_map_iff.
  exists ("pipeline-" ++ pipelineId ++ "-" ++ of_N (now (world s')),
          List.concat (Map_values stored)).
  split; [reflexivity|]. apply filter_In. split; [apply Map_set_In_same|].
  change (startsWith ("pipeline-" ++ pipelineId)
            ("pipeline-" ++ pipelineId ++ "-" ++ of_N (now (world s'))) = true).
  rewrite <- string_app_assoc. apply startsWith_app.
Qed.

End MemoryProperties.

(* ================================================================== *)
(** ** Further properties: the analysis of the stored memories *)
(* ================================================================== *)

Lemma startsWith_trans (a b c : string) :
  startsWith a b = true -> startsWith b c = true -> startsWith a c = true.
Proof.
  revert b c. induction a as [|x a IH]; intros b c; [reflexivity|].
  destruct b as [|y b]; [discriminate|]. destruct c as [|z c]; [discriminate|].
  simpl. intros Hab Hbc.
  apply andb_true_iff in Hab. destruct Hab as [Hxy Hab].
  apply andb_true_iff in Hbc. destruct Hbc as [Hyz Hbc].
  apply Ascii.eqb_eq in Hxy. apply Ascii.eqb_eq in Hyz. subst.
  now rewrite Ascii.eqb_refl, (IH _ _ Hab Hbc).
Qed.

Lemma startsWith_app_both (p a b : string) :
  startsWith (p ++ a) (p ++ b) = startsWith a b.
Proof.
  induction p as [|c p IH]; [reflexivity|]. simpl. now rewrite Ascii.eqb_refl, IH.
Qed.

Lemma Map_push_get {V} (m : Map (list V)) (k : string) (v : V) (k' : string) :
  Map_get (Map_push m k v) k'
  = if String.eqb k k'
    then Some (push (match Map_get m k with Some vs => vs | None => [] end) v)
    else Map_get m k'.
Proof.
  unfold Map_push. destruct (String.eqb_spec k k') as [->|Hk].
  - apply Map_get_set_same.
  - now apply Map_get_set_other.
Qed.

Section StoreProperties.

Context {H : Host}.

Lemma group_of_push (k : string) (seen : list (AgentMemory JSON))
      (memory : AgentMemory JSON) :
  group_of k (push seen memory)
  = if String.eqb (agentRole memory) k
    then Some (push (match group_of k seen with Some ms => ms | None => [] end) memory)
    else group_of k seen.
Proof.
  unfold group_of. rewrite filter_push.
  destruct (String.eqb (agentRole memory) k).
  - destruct (filter _ seen) as [|m0 ms] eqn:E; reflexivity.
  - unfold push. now rewrite app_nil_r.
Qed.

Lemma grouping_invariant (memories : list (AgentMemory JSON)) :
  forall (seen : list (AgentMemory JSON)) (grouped : Map (list (AgentMemory JSON))),
    (forall k, Map_get grouped k = group_of k seen) ->
    List.length (List.concat (Map_values grouped)) = List.length seen ->
    (forall k ms m, In (k, ms) grouped -> In m ms -> agentRole m = k /\ In m seen) ->
    let grouped' := fold_left (fun groupedMemories memory =>
                                 Map_push groupedMemories (agentRole memory) memory)
                              memories grouped in
    (forall k, Map_get grouped' k = group_of k (seen ++ memories)%list)
    /\ List.length (List.concat (Map_values grouped'))
       = List.length (seen ++ memories)%list
    /\ (forall k ms m, In (k, ms) grouped' -> In m ms ->
                       agentRole m = k /\ In m (seen ++ memories)%list).
Proof.
  induction memories as [|memory rest IH]; intros seen grouped Hget Hcount Hin; simpl.
  - rewrite app_nil_r. auto.
  - replace (seen ++ memory :: rest)%list with (push seen memory ++ rest)%list
      by (unfold push; rewrite <- app_assoc; reflexivity).
    apply IH.
    + intros k. rewrite Map_push_get, group_of_push.
      destruct (String.eqb (agentRole memory) k) eqn:E; [|apply Hget].
      apply String.eqb_eq in E. subst k. now rewrite Hget.
    + rewrite Map_push_total, Hcount. unfold push. rewrite length_app. simpl. lia.
    + intros k ms m Hk Hm. rewrite In_push.
      destruct (Map_push_In _ _ _ _ _ _ Hk Hm) as [(ms0 & Hk0 & Hm0)|[-> ->]].
      * destruct (Hin _ _ _ Hk0 Hm0). auto.
      * auto.
Qed.

Lemma In_flattenMemories (grouped : Map (list (AgentMemory JSON))) (f : FlatMemory JSON) :
  In f (flattenMemories grouped)
  <-> exists ms, In (flat_agent f, ms) grouped /\ In (flat_memory f) ms.
Proof.
  unfold flattenMemories. rewrite in_flat_map. split.
  - intros ([k ms] & Hk & Hf). simpl in Hf. apply in_map_iff in Hf.
    destruct Hf as (m & <- & Hm). simpl. eauto.
  - intros (ms & Hk & Hm). exists (flat_agent f, ms). split; [exact Hk|].
    simpl. apply in_map_iff. exists (flat_memory f). split; [|exact Hm].
    destruct f; reflexivity.
Qed.

Lemma length_flattenMemories (grouped : Map (list (AgentMemory JSON))) :
  List.length (flattenMemories grouped) = List.length (List.concat (Map_values grouped)).
Proof.
  unfold flattenMemories, Map_values.
  induction grouped as [|[k ms] grouped IH]; [reflexivity|].
  simpl. rewrite !length_app, length_map, IH. reflexivity.
Qed.

(** X12: the grouping of [analyzeMemoriesForPipeline] puts under each role
    exactly the memories of that role, in the order they were stored, and
    has no entry for a role without memories; what it hands to the pruning
    agent holds as many memories as were stored, each one named after its
    own role (not after the key with "-agent" that a run files it
    under). *)
Theorem groupByRole_spec :
  forall (memories : list (AgentMemory JSON)),
    (forall k, Map_get (groupByRole memories) k
               = match filter (fun memory => String.eqb (agentRole memory) k) memories with
                 | [] => None
                 | ms => Some ms
                 end)
    /\ List.length (flattenMemories (groupByRole memories)) = List.length memories
    /\ (forall f, In f (flattenMemories (groupByRole memories)) ->
                  flat_agent f = agentRole (flat_memory f) /\ In (flat_memory f) memories).
Proof.
  intros memories.
  destruct (grouping_invariant memories [] [])
    as (Hget & Hcount & Hin); [reflexivity | reflexivity | intros k ms m [] |].
  fold (groupByRole memories) in Hget, Hcount, Hin. simpl in Hget, Hcount, Hin.
  split; [exact Hget|]. split; [now rewrite length_flattenMemories|].
  intros f Hf. apply In_flattenMemories in Hf. destruct Hf as (ms & Hk & Hm).
  destruct (Hin _ _ _ Hk Hm). auto.
Qed.

(** X13: [analyzeMemoriesForPipeline] returns [null], without a request,
    exactly when the store holds no memory under a key that starts with
    "pipeline-" and the id; otherwise it posts one request, the pruning
    request for the grouped memories with the user prompt in both places,
    and does not return [null]. *)
Theorem analyzeMemoriesForPipeline_null :
  forall (self : MultiAgentOrchestrator) (pipelineId userPrompt : string) (s : Sys),
    let memories := storedMemoriesFor self pipelineId in
    let '(out, s') := analyzeMemoriesForPipeline self pipelineId userPrompt s in
    match memories with
    | [] => out = Returned None /\ s' = s
    | _ :: _ =>
        out <> Returned None
        /\ sent s' = push (sent s)
                       (pruningRequest userPrompt userPrompt
                          (flattenMemories (groupByRole memories)))
    end.
Proof.
  intros self pipelineId userPrompt s. unfold analyzeMemoriesForPipeline.
  destruct (storedMemoriesFor self pipelineId) as [|memory rest] eqn:E; simpl.
  - split; reflexivity.
  - destruct (pruneAgentMemories _ _ _ s) as [[analysis|e] s1] eqn:Eprune.
    + split; [discriminate|]. unfold pruneAgentMemories in Eprune.
      destruct (chat _ s) as [[response|e] s2] eqn:Echat; [|discriminate].
      pose proof (chat_sent _ _ _ _ Echat) as Hsent.
      destruct (parse_analysis (jsonBlock response)); inversion Eprune; subst; exact Hsent.
    + split; [discriminate|]. unfold pruneAgentMemories in Eprune.
      destruct (chat _ s) as [[response|e'] s2] eqn:Echat.
      * destruct (parse_analysis (jsonBlock response)); discriminate.
      * pose proof (chat_sent _ _ _ _ Echat) as Hsent. inversion Eprune; subst; exact Hsent.
Qed.

(** X14: the keys of the store are matched by prefix: the memories
    collected for a pipeline id are also collected for every id that is a
    prefix of it. *)
Theorem storedMemoriesFor_prefix :
  forall (self : MultiAgentOrchestrator) (shortId pipelineId : string)
         (memory : AgentMemory JSON),
    startsWith shortId pipelineId = true ->
    In memory (storedMemoriesFor self pipelineId) ->
    In memory (storedMemoriesFor self shortId).
Proof.
  intros self shortId pipelineId memory Hprefix. unfold storedMemoriesFor.
  rewrite !in_concat. intros (ms & Hms & Hm). exists ms. split; [|exact Hm].
  apply in_map_iff in Hms. destruct Hms as (entry & <- & Hentry).
  apply in_map. apply filter_In in Hentry. destruct Hentry as [Hentry Hkey].
  apply filter_In. split; [exact Hentry|].
  apply (startsWith_trans _ ("pipeline-" ++ pipelineId)); [|exact Hkey].
  rewrite startsWith_app_both. exact Hprefix.
Qed.


End StoreProperties.

(* ================================================================== *)
(** ** Further properties: the books of an intelligent orchestration *)
(* ================================================================== *)

Section OrchestrationProperties.

Context {H : Host}.

Lemma memory_origin_push (cs : list AgentCall) (c : AgentCall) (k : string)
      (m : AgentMemory JSON) :
  memory_origin [] cs k m -> memory_origin [] (push cs c) k m.
Proof.
  intros [(ms0 & [] & _)|(Hk & Hfor & call & Hcall & Hok & Hrole)].
  right. split; [exact Hk|]. split; [exact Hfor|].
  exists call. split; [apply In_push; auto | auto].
Qed.

Lemma executeSingleAgent_accounted (base : nat) (agentRole0 instructions0 userPrompt : string)
      (r r' : Run) (s s' : Sys) (ok : bool) :
  executeSingleAgent agentRole0 instructions0 userPrompt r s = (ok, r', s') ->
  accounted base r s -> accounted base r' s'.
Proof.
  unfold executeSingleAgent, accounted. intros E (Herrors & Hsent & Horigin).
  destruct (chat _ s) as [[response|error] s1] eqn:Echat;
    pose proof (chat_sent _ _ _ _ Echat) as Hsent1.
  - destruct (generateAgentMemory _ _ _ _ s1) as [[memory|memoryError] s2] eqn:Egen;
      destruct (generateAgentMemory_posts_once _ _ _ _ _ _ _ Egen) as [Hsent2 Hmem];
      inversion E; subst; simpl; rewrite !filter_push; simpl;
      unfold push; rewrite !length_app; simpl;
      (split; [lia|]);
      (split; [rewrite Hsent2, Hsent1; unfold push; rewrite length_app; simpl; lia|]).
    + intros k ms m Hin Hm. fold (push (calls r) (mkCall agentRole0 instructions0 true)).
      destruct (Map_push_In _ _ _ _ _ _ Hin Hm) as [(ms0 & Hin0 & Hm0)|[-> ->]].
      * apply memory_origin_push. exact (Horigin _ _ _ Hin0 Hm0).
      * right. destruct Hmem as (Hrole & Hrest). rewrite Hrole.
        split; [reflexivity|]. split; [split; [exact Hrole | exact Hrest]|].
        exists (mkCall agentRole0 instructions0 true).
        split; [apply In_push; auto | auto].
    + intros k ms m Hin Hm. fold (push (calls r) (mkCall agentRole0 instructions0 true)).
      apply memory_origin_push. exact (Horigin _ _ _ Hin Hm).
  - inversion E; subst; simpl. rewrite !filter_push. simpl.
    unfold push. rewrite !length_app. simpl.
    split; [lia|]. split; [rewrite Hsent1; unfold push; rewrite length_app; simpl; lia|].
    intros k ms m Hin Hm. fold (push (calls r) (mkCall agentRole0 instructions0 false)).
    apply memory_origin_push. exact (Horigin _ _ _ Hin Hm).
Qed.

Lemma workflowStep_accounted (base : nat) (userPrompt : string) (step : PlannedStep)
      (r r' : Run) (s s' : Sys) (continue : bool) :
  workflowStep userPrompt step r s = (continue, r', s') ->
  accounted base r s -> accounted base r' s'.
Proof.
  unfold workflowStep. intros E Hacc.
  destruct (executeSingleAgent (plan_agent step) (instructions step) userPrompt r s)
    as [[ok r1] s1] eqn:E1.
  pose proof (executeSingleAgent_accounted base _ _ _ _ _ _ _ _ E1 Hacc) as Hacc1.
  destruct (negb ok && required step).
  - inversion E; subst. exact Hacc1.
  - destruct (feedbackFor step (ctx r1)) as [qualityCheck|].
    + destruct (signalsIssues qualityCheck).
      * destruct (executeSingleAgent _ _ _ _ s1) as [[ok2 r2] s2] eqn:E2.
        inversion E; subst.
        exact (executeSingleAgent_accounted base _ _ _ _ _ _ _ _ E2 Hacc1).
      * inversion E; subst. exact Hacc1.
    + inversion E; subst. exact Hacc1.
Qed.

Lemma workflowLoop_accounted (base : nat) (userPrompt : string) (steps : list PlannedStep) :
  forall r s r' s',
    workflowLoop userPrompt steps r s = (r', s') ->
    accounted base r s -> accounted base r' s'.
Proof.
  induction steps as [|step rest IH]; intros r s r' s'; simpl.
  - intros E; inversion E; subst. auto.
  - destruct (workflowStep userPrompt step r s) as [[continue r1] s1] eqn:E1.
    intros E Hacc.
    pose proof (workflowStep_accounted base _ _ _ _ _ _ _ E1 Hacc) as Hacc1.
    destruct continue; [exact (IH _ _ _ _ E Hacc1) | inversion E; subst; exact Hacc1].
Qed.

Lemma initialRun_accounted (userPrompt : string) (n : nat) (s : Sys) :
  accounted (List.length (sent s)) (initialRun userPrompt n) s.
Proof.
  split; [reflexivity|]. split; [simpl; lia|]. intros k ms m [].
Qed.

Lemma determineWorkflow_sent (interpretation originalPrompt : string) (s s' : Sys)
      (out : Outcome PlanReading) :
  determineWorkflowFromInterpretation interpretation originalPrompt s = (out, s') ->
  List.length (sent s') = List.length (sent s) + 1.
Proof.
  unfold determineWorkflowFromInterpretation.
  destruct (chat _ s) as [[response|e] s1] eqn:Echat;
    pose proof (chat_sent _ _ _ _ Echat) as Hsent.
  - destruct (parse_plan (jsonBlock response)); intros E; inversion E; subst;
      rewrite Hsent; unfold push; rewrite length_app; reflexivity.
  - intros E; inversion E; subst. rewrite Hsent. unfold push. rewrite length_app. reflexivity.
Qed.

(** The run of an orchestration that returned, as a [Run], is accounted
    for, the request to the director apart. *)
Lemma orchestration_accounted (userPrompt : string) (s s' : Sys)
      (r : PipelineResult JSON) :
  executeIntelligentOrchestration userPrompt s = (Returned r, s') ->
  accounted (List.length (sent s) + directorRequests (history r))
            (mkRun (context r) (executionLog r)
                   (match agentMemories r with Some stored => stored | None => [] end)
                   (history r)) s'.
Proof.
  unfold executeIntelligentOrchestration.
  destruct (executeSingleAgent "interpreter" _ userPrompt _ s) as [[ok0 r0] s0] eqn:E0.
  pose proof (executeSingleAgent_accounted _ _ _ _ _ _ _ _ _ E0
                (initialRun_accounted userPrompt 10 s)) as Hacc0.
  destruct (executeSingleAgent_tracks _ _ _ _ _ _ _ _ E0) as (Hc0 & _ & _).
  simpl in Hc0.
  destruct ok0; simpl.
  - destruct (determineWorkflowFromInterpretation _ userPrompt s0)
      as [[[workflowPlan|typeError]|e] s1] eqn:E1; [|discriminate|discriminate].
    pose proof (determineWorkflow_sent _ _ _ _ _ E1) as Hsent1.
    assert (Hacc1 : accounted (List.length (sent s) + 1)
                      (push_log r0 (target_mark ++ " Workflow determined: "
                                    ++ stringify_plan workflowPlan)) s1).
    { destruct Hacc0 as (He & Hs & Ho). split; [exact He|]. split; [|exact Ho].
      simpl. lia. }
    destruct (workflowLoop userPrompt (plan_steps workflowPlan) _ s1)
      as [r2 s2] eqn:E2.
    pose proof (workflowLoop_accounted _ _ _ _ _ _ _ E2 Hacc1) as Hacc2.
    destruct (workflowLoop_tracks _ _ _ _ _ _ E2) as ([planned Hc2] & _ & _).
    simpl in Hc2.
    destruct (executeSingleAgent "supervisor" _ userPrompt r2 s2)
      as [[ok3 r3] s3] eqn:E3.
    pose proof (executeSingleAgent_accounted _ _ _ _ _ _ _ _ _ E3 Hacc2) as Hacc3.
    destruct (executeSingleAgent_tracks _ _ _ _ _ _ _ _ E3) as (Hc3 & _ & _).
    intros E; inversion E; subst; simpl.
    replace (directorRequests (calls r3)) with 1
      by (rewrite Hc3, Hc2, Hc0; reflexivity).
    destruct Hacc3 as (He & Hs & Ho). split; [exact He|]. split; [exact Hs | exact Ho].
  - intros E; inversion E; subst; simpl.
    replace (directorRequests (calls r0)) with 0 by (rewrite Hc0; reflexivity).
    destruct Hacc0 as (He & Hs & Ho). rewrite Hc0 in *. simpl in *.
    split; [exact He|]. split; [unfold push; simpl; lia|]. intros k ms m [].
Qed.


(** X17: the memories a run of [executeIntelligentOrchestration] returns:
    each one lies under the key made of its [agentRole] and "-agent", has a
    [relevanceScore] of at most ten and the [memoryType] and
    [retentionFlags] of its role, and belongs to an agent whose call
    succeeded. *)
Theorem orchestration_memories :
  forall (userPrompt : string) (s s' : Sys) (r : PipelineResult JSON)
         (stored : Map (list (AgentMemory JSON))) (k : string)
         (ms : list (AgentMemory JSON)) (m : AgentMemory JSON),
    executeIntelligentOrchestration userPrompt s = (Returned r, s') ->
    agentMemories r = Some stored ->
    In (k, ms) stored -> In m ms ->
    k = agentRole m ++ "-agent"
    /\ relevanceScore m <= 10
    /\ memoryType m = getMemoryTypeForRole (agentRole m)
    /\ retentionFlags m = determineRetentionFlags (agentRole m) (content m)
    /\ exists call, In call (history r) /\ call_ok call = true
                    /\ call_role call = agentRole m.
Proof.
  intros userPrompt s s' r stored k ms m Hrun Hstored Hin Hm.
  destruct (orchestration_accounted _ _ _ _ Hrun) as (_ & _ & Horigin).
  simpl in Horigin. rewrite Hstored in Horigin.
  destruct (Horigin k ms m Hin Hm) as [(ms0 & [] & _)|(Hk & Hfor & Hcall)].
  destruct Hfor as (_ & Hscore & Htype & Hflags). auto.
Qed.

(** X18: a failure of the request to the workflow director is the one
    failure [executeIntelligentOrchestration] does not catch: when the
    interpreter's call succeeded and the director's fails, the run throws
    the error of the client, after the three requests (interpreter, its
    memory, director), and no other agent is called. *)
Theorem director_failure_is_thrown :
  forall (userPrompt : string) (s s1 s' : Sys) (r1 : Run) (e : exn),
    executeSingleAgent "interpreter" (interpreterInstructions userPrompt) userPrompt
      (initialRun userPrompt 10) s = (true, r1, s1) ->
    chat (mkRequest
            [ mkMessage "system" workflowDirectorPrompt;
              mkMessage "user" (workflowRequestText "" userPrompt) ]
            "grok-code-fast-1" 1 1500) s1 = (Raised e, s') ->
    executeIntelligentOrchestration userPrompt s = (Raised e, s')
    /\ (exists m, e = Error ("Failed to communicate with Grok API: " ++ m))
    /\ List.length (sent s') = List.length (sent s) + 3.
Proof.
  intros userPrompt s s1 s' r1 e E0 Echat.
  pose proof (director_receives_empty_interpretation _ _ _ _ _ E0) as Hempty.
  pose proof (executeSingleAgent_accounted _ _ _ _ _ _ _ _ _ E0
                (initialRun_accounted userPrompt 10 s)) as (_ & Hsent & _).
  destruct (executeSingleAgent_tracks _ _ _ _ _ _ _ _ E0) as (Hc0 & _ & _).
  rewrite Hc0 in Hsent. simpl in Hsent.
  split; [|split].
  - unfold executeIntelligentOrchestration. rewrite E0. simpl. rewrite Hempty.
    unfold determineWorkflowFromInterpretation.
    change (systemPrompt (createAgentWithRole "workflow-director" "orchestrate"
                            workflowDirectorPrompt)) with workflowDirectorPrompt.
    rewrite Echat. reflexivity.
  - exact (chat_raised _ _ _ _ Echat).
  - rewrite (chat_sent _ _ _ _ Echat). unfold push. rewrite length_app. simpl. lia.
Qed.

End OrchestrationProperties.

(* ================================================================== *)
(** ** Further properties: the plan the director's answer falls back to *)
(* ================================================================== *)

Section FallbackProperties.

Context {H : Host}.

(** A step of a plan that declares no iterative feedback is one call. *)
Lemma workflowStep_plain (userPrompt : string) (step : PlannedStep) (r : Run) (s : Sys) :
  iterativeFeedback step = None ->
  workflowStep userPrompt step r s
  = let '(ok, r1, s1) := executeSingleAgent (plan_agent step) (instructions step)
                           userPrompt r s in
    if negb ok && required step
    then (false,
          push_log r1 (cross_mark ++ " Required step '" ++ plan_agent step
                       ++ "' failed - stopping workflow"),
          s1)
    else (true, r1, s1).
Proof.
  intros Hnone. unfold workflowStep, feedbackFor.
  destruct (executeSingleAgent _ _ _ r s) as [[ok r1] s1].
  rewrite Hnone. destruct (negb ok && required step); reflexivity.
Qed.

Lemma fallbackWorkflow_loop (userPrompt : string) (r r' : Run) (s s' : Sys) :
  workflowLoop userPrompt (plan_steps (fallbackWorkflow "")) r s = (r', s') ->
  exists planned, calls r' = (calls r ++ planned)%list /\ fallback_calls planned.
Proof.
  change (plan_steps (fallbackWorkflow ""))
    with [ mkPlanned "analysis" "Analyze codebase for: " true None None;
           mkPlanned "coder" "Generate code based on analysis: " true None None;
           mkPlanned "judge" "Review the generated code for quality and correctness"
                     false None None ].
  cbn [workflowLoop]. rewrite !workflowStep_plain by reflexivity.
  cbn [plan_agent instructions required].
  destruct (executeSingleAgent "analysis" _ userPrompt r s) as [[okA rA] sA] eqn:EA.
  destruct (executeSingleAgent_tracks _ _ _ _ _ _ _ _ EA) as (HcA & _ & _).
  destruct okA; cbn [negb andb].
  - rewrite workflowStep_plain by reflexivity. cbn [plan_agent instructions required].
    destruct (executeSingleAgent "coder" _ userPrompt rA sA) as [[okC rC] sC] eqn:EC.
    destruct (executeSingleAgent_tracks _ _ _ _ _ _ _ _ EC) as (HcC & _ & _).
    destruct okC; cbn [negb andb].
    + rewrite workflowStep_plain by reflexivity. cbn [plan_agent instructions required].
      destruct (executeSingleAgent "judge" _ userPrompt rC sC) as [[okJ rJ] sJ] eqn:EJ.
      destruct (executeSingleAgent_tracks _ _ _ _ _ _ _ _ EJ) as (HcJ & _ & _).
      rewrite andb_false_r. intros E; inversion E; subst.
      eexists. split; [|right; right; exists okJ; reflexivity].
      rewrite HcJ, HcC, HcA. unfold push. rewrite <- !app_assoc. reflexivity.
    + intros E; inversion E; subst.
      eexists. split; [|right; left; reflexivity].
      cbn [calls push_log]. rewrite HcC, HcA. unfold push. rewrite <- !app_assoc. reflexivity.
  - intros E; inversion E; subst.
    eexists. split; [|left; reflexivity].
    cbn [calls push_log]. rewrite HcA. reflexivity.
Qed.

(** X19: when the interpreter's call succeeded and [JSON.parse] throws on
    the answer of the workflow director, [executeIntelligentOrchestration]
    does not throw; it runs the fallback plan on an empty interpretation:
    the analysis, the coder only if the analysis succeeded, the judge only
    if the coder succeeded too, and then in every case the supervisor. *)
Theorem unparsable_plan_runs_fallback :
  forall (userPrompt : string) (s s1 s2 : Sys) (r1 : Run) (response : string)
         (parseError : exn),
    executeSingleAgent "interpreter" (interpreterInstructions userPrompt) userPrompt
      (initialRun userPrompt 10) s = (true, r1, s1) ->
    chat (mkRequest
            [ mkMessage "system" workflowDirectorPrompt;
              mkMessage "user" (workflowRequestText "" userPrompt) ]
            "grok-code-fast-1" 1 1500) s1 = (Returned response, s2) ->
    parse_plan (jsonBlock response) = Raised parseError ->
    exists r s' planned supervisorInput supervisorOk,
      executeIntelligentOrchestration userPrompt s = (Returned r, s')
      /\ history r
         = mkCall "interpreter" (interpreterInstructions userPrompt) true
             :: push planned (mkCall "supervisor" supervisorInput supervisorOk)
      /\ fallback_calls planned
      /\ success r = supervisorOk.
Proof.
  intros userPrompt s s1 s2 r1 response parseError E0 Echat Hparse.
  pose proof (director_receives_empty_interpretation _ _ _ _ _ E0) as Hempty.
  destruct (executeSingleAgent_tracks _ _ _ _ _ _ _ _ E0) as (Hc0 & _ & _).
  simpl in Hc0.
  unfold executeIntelligentOrchestration. rewrite E0. cbn [negb]. cbv iota. rewrite Hempty.
  unfold determineWorkflowFromInterpretation.
  change (systemPrompt (createAgentWithRole "workflow-director" "orchestrate"
                          workflowDirectorPrompt)) with workflowDirectorPrompt.
  rewrite Echat, Hparse.
  destruct (workflowLoop userPrompt (plan_steps (fallbackWorkflow "")) _ s2)
    as [r3 s3] eqn:Eloop.
  destruct (fallbackWorkflow_loop _ _ _ _ _ Eloop) as (planned & Hc3 & Hplanned).
  cbn [calls push_log] in Hc3.
  destruct (executeSingleAgent "supervisor" _ userPrompt r3 s3) as [[okS r4] s4] eqn:ES.
  destruct (executeSingleAgent_tracks _ _ _ _ _ _ _ _ ES) as (Hc4 & _ & _).
  eexists _, _, planned, _, okS. split; [reflexivity|].
  cbn [history success]. split; [|split; [exact Hplanned | reflexivity]].
  rewrite Hc4, Hc3, Hc0. reflexivity.
Qed.

End FallbackProperties.

(* ================================================================== *)
(** ** Further properties: retention flags, the registry, permissions *)
(* ================================================================== *)

Section RegistryProperties.

Context {H : Host}.

Ltac flags_leaf :=
  cbn [app List.length];
  repeat split;
    try lia; try discriminate; try reflexivity; try congruence;
    try (repeat constructor; cbn [In]; intuition discriminate);
    try (cbn [In]; intuition discriminate);
    try (cbn [In]; intuition congruence).

(** X20: the flags [determineRetentionFlags] gives are at most three and
    never repeated, because the tests on the role exclude each other; the
    flags of the core interpretation go to the role "interpreter" and to no
    other, those of quality to the roles whose name contains "judge", and
    "problem-resolution" to a content whose JSON text contains "error",
    "bug" or "fix". *)
Theorem determineRetentionFlags_spec :
  forall (agentRole0 : string) (memoryContent : JSON),
    let flags := determineRetentionFlags agentRole0 memoryContent in
    let text := JSON_stringify memoryContent in
    NoDup flags
    /\ List.length flags <= 3
    /\ (In "core-interpretation" flags <-> agentRole0 = "interpreter")
    /\ (In "permanent-retention" flags <-> agentRole0 = "interpreter")
    /\ (In "quality-insights" flags <-> includes agentRole0 "judge" = true)
    /\ (In "problem-resolution" flags
        <-> includes text "error" || includes text "bug" || includes text "fix" = true).
Proof.
  intros agentRole0 memoryContent flags text. subst flags text.
  unfold determineRetentionFlags.
  destruct (includes (JSON_stringify memoryContent) "error"
            || includes (JSON_stringify memoryContent) "bug"
            || includes (JSON_stringify memoryContent) "fix") eqn:Etext;
    (destruct (String.eqb_spec agentRole0 "interpreter") as [->|Hinterpreter];
     [ change (includes "interpreter" "judge") with false;
       change (String.eqb "interpreter" "coder" || String.eqb "interpreter" "analysis")
         with false;
       flags_leaf
     | destruct (String.eqb_spec agentRole0 "coder") as [->|Hcoder];
       [ change (includes "coder" "judge") with false; cbn [orb]; flags_leaf
       | destruct (String.eqb_spec agentRole0 "analysis") as [->|Hanalysis];
         [ change (includes "analysis" "judge") with false; cbn [orb]; flags_leaf
         | cbn [orb]; destruct (includes agentRole0 "judge") eqn:Ejudge; flags_leaf ] ] ]).
Qed.

Lemma In_Map_values {V} (m : Map V) (k : string) (v : V) :
  Map_get m k = Some v -> In v (Map_values m).
Proof.
  intros E. unfold Map_values. apply in_map_iff. exists (k, v).
  split; [reflexivity | exact (Map_get_In _ _ _ E)].
Qed.

(** X21: [getAvailablePipelines] and [executePipeline] agree: a pipeline
    that [executePipeline] accepts under some id is listed, every pipeline
    listed is enabled, and in an orchestrator as its constructor builds it
    the pipelines listed are the two registered ones, each accepted under
    its own [id]. *)
Theorem getAvailablePipelines_runnable :
  forall (self : MultiAgentOrchestrator),
    (forall pipelineId pipeline,
        lookupPipeline self pipelineId = Returned pipeline ->
        In pipeline (getAvailablePipelines self))
    /\ (forall pipeline, In pipeline (getAvailablePipelines self) -> enabled pipeline = true)
    /\ (pipelines self = initializePipelines ->
        getAvailablePipelines self = [codeDevelopmentPipeline; analysisOnlyPipeline]
        /\ forall pipeline,
            In pipeline (getAvailablePipelines self) ->
            lookupPipeline self (id pipeline) = Returned pipeline).
Proof.
  intros self. split; [|split].
  - intros pipelineId pipeline. unfold lookupPipeline, getAvailablePipelines.
    destruct (Map_get (pipelines self) pipelineId) as [p|] eqn:E; [|discriminate].
    destruct (enabled p) eqn:Eenabled; [|discriminate].
    intros E'; inversion E'; subst. apply filter_In.
    split; [exact (In_Map_values _ _ _ E) | exact Eenabled].
  - intros pipeline Hin. apply filter_In in Hin. tauto.
  - intros Hself. unfold getAvailablePipelines, lookupPipeline. rewrite Hself.
    split; [reflexivity|].
    intros pipeline [<-|[<-|[]]]; reflexivity.
Qed.

End RegistryProperties.

(** X22: [FileTools.updatePermissions] takes every field the update gives
    and keeps every field it does not give, for each of the three fields:
    paths that are given replace the old ones even when the list is empty,
    and [allowExec] that is given as [false] is taken as [false].  An
    update without fields changes nothing, the same update applied twice is
    applied once, and two updates in a row are the one update in which the
    later one wins field by field. *)
Theorem updatePermissions_laws :
  forall (permissions : FileToolPermissions) (first second : PartialPermissions),
    let updated := updatePermissions permissions second in
    (readPaths updated
     = match newReadPaths second with Some paths => paths | None => readPaths permissions end)
    /\ (writePaths updated
        = match newWritePaths second with
          | Some paths => paths
          | None => writePaths permissions
          end)
    /\ (execAllowed updated
        = match newExecAllowed second with
          | Some allow => allow
          | None => execAllowed permissions
          end)
    /\ updatePermissions permissions (mkPartial None None None) = permissions
    /\ updatePermissions updated second = updated
    /\ updatePermissions (updatePermissions permissions first) second
       = updatePermissions permissions (mergePartial first second).
Proof.
  intros [reads writes exec] [reads1 writes1 exec1] [reads2 writes2 exec2] updated.
  subst updated. unfold updatePermissions, mergePartial. simpl.
  split; [reflexivity|]. split; [reflexivity|]. split; [reflexivity|].
  split; [reflexivity|]. split.
  - destruct reads2, writes2, exec2; reflexivity.
  - destruct reads1, writes1, exec1, reads2, writes2, exec2; reflexivity.
Qed.

(* ================================================================== *)
(** ** Further properties: the prompts of a static run *)
(* ================================================================== *)

Section PromptProperties.

Context {H : Host}.

Lemma stored_by_nil (steps : list AgentStep) (k : string) : ~ stored_by steps [] k.
Proof. intros (j & step & call & _ & Hcall & _). now destruct j. Qed.

Lemma prompted_cons (step : AgentStep) (rest : list AgentStep) (i : nat)
      (c0 c1 : AgentContext) (ok : bool) (new : list AgentCall)
      (first added : list string) :
  userPrompt c1 = userPrompt c0 ->
  maxSteps c1 = maxSteps c0 ->
  errors c1 = (errors c0 ++ first)%list ->
  Forall2 failure_text
    (filter failed [mkCall (role step) (inputMap step (set_stepCount c0 (i + 1))) ok])
    first ->
  (forall k, In k (Map_keys (results c1))
             <-> In k (Map_keys (results c0))
                 \/ (ok = true /\ truthy_key (outputKey step) = Some k)) ->
  prompted rest (i + 1) c1 new added ->
  prompted (step :: rest) i c0
    (mkCall (role step) (inputMap step (set_stepCount c0 (i + 1))) ok :: new)
    (first ++ added)%list.
Proof.
  intros Hprompt Hmax Herrors Hfirst Hkeys Hrest j st call Hst Hcall.
  destruct j as [|j]; simpl in Hst, Hcall.
  - inversion Hst; inversion Hcall; subst. exists (set_stepCount c0 (i + 1)).
    split; [reflexivity|]. split; [reflexivity|]. split; [simpl; lia|].
    split; [reflexivity|]. split; [simpl; lia|]. split.
    + intros k. simpl. split; [auto|]. intros [Hk|Hk]; [exact Hk|].
      now apply stored_by_nil in Hk.
    + exists [], (first ++ added)%list. simpl. rewrite app_nil_r.
      split; [reflexivity|]. split; [reflexivity | constructor].
  - destruct (Hrest j st call Hst Hcall)
      as (c & Hin & Hp & Hcount & Hm & He & Hk & listed & later & Hl & Ha & Hf).
    pose proof (Forall2_length Hfirst) as Hlen.
    exists c. split; [exact Hin|]. split; [congruence|]. split; [lia|].
    split; [congruence|]. split; [|split].
    + rewrite He, Herrors, length_app, <- Hlen.
      unfold failed. cbn [firstn filter call_ok].
      destruct ok; simpl; lia.
    + intros k. rewrite Hk, Hkeys. simpl. rewrite stored_by_cons. simpl. tauto.
    + exists (first ++ listed)%list, later.
      split; [rewrite Hl, Herrors, app_assoc; reflexivity|].
      split; [rewrite Ha, app_assoc; reflexivity|].
      unfold failed in *. cbn [firstn filter call_ok] in *.
      destruct ok; cbn [negb] in *.
      * inversion Hfirst; subst. exact Hf.
      * inversion Hfirst as [|call0 text0 l0 l0' Htext Hnil]; subst.
        inversion Hnil; subst. constructor; assumption.
Qed.

Lemma prompted_single (step : AgentStep) (rest : list AgentStep) (i : nat)
      (c0 : AgentContext) (ok : bool) (added : list string) :
  prompted (step :: rest) i c0
    [mkCall (role step) (inputMap step (set_stepCount c0 (i + 1))) ok] added.
Proof.
  intros j st call Hst Hcall. destruct j as [|j]; simpl in Hst, Hcall.
  - inversion Hst; inversion Hcall; subst. exists (set_stepCount c0 (i + 1)).
    split; [reflexivity|]. split; [reflexivity|]. split; [simpl; lia|].
    split; [reflexivity|]. split; [simpl; lia|]. split.
    + intros k. simpl. split; [auto|]. intros [Hk|Hk]; [exact Hk|].
      now apply stored_by_nil in Hk.
    + exists [], added. simpl. rewrite app_nil_r.
      split; [reflexivity|]. split; [reflexivity | constructor].
  - now destruct j.
Qed.

Lemma pipelineLoop_prompted (steps : list AgentStep) :
  forall total i r s r' s',
    pipelineLoop total i steps r s = (r', s') ->
    exists new added,
      calls r' = (calls r ++ new)%list
      /\ errors (ctx r') = (errors (ctx r) ++ added)%list
      /\ prompted steps i (ctx r) new added.
Proof.
  induction steps as [|step rest IH]; intros total i r s r' s'; simpl.
  - intros E; inversion E; subst. exists [], [].
    split; [now rewrite app_nil_r|]. split; [now rewrite app_nil_r|].
    intros j st call Hst. now destruct j.
  - destruct (chat _ s) as [[response|error] s1] eqn:Echat.
    + intros E. destruct (IH _ _ _ _ _ _ E) as (new & added & Hcalls & Herrs & Hnew).
      exists (mkCall (role step) (inputMap step (set_stepCount (ctx r) (i + 1))) true :: new),
             ([] ++ added)%list.
      split; [|split].
      * rewrite Hcalls. destruct (truthy_key (outputKey step)); simpl;
          unfold push; rewrite <- app_assoc; reflexivity.
      * rewrite Herrs. destruct (truthy_key (outputKey step)); reflexivity.
      * refine (prompted_cons _ _ _ _ _ _ _ [] _ _ _ _ _ _ Hnew);
          try (destruct (truthy_key (outputKey step)); reflexivity).
        -- destruct (truthy_key (outputKey step)); simpl; now rewrite app_nil_r.
        -- constructor.
        -- intros k. destruct (truthy_key (outputKey step)) as [key|]; simpl.
           ++ rewrite Map_keys_set. split.
              ** intros [->|Hk]; auto.
              ** intros [Hk|[_ Hk]]; [auto | inversion Hk; auto].
           ++ split; [auto|]. intros [Hk|[_ Hk]]; [exact Hk | discriminate].
    + destruct (chat_raised _ _ _ _ Echat) as [m Hm].
      destruct (String.eqb (role step) "supervisor").
      * intros E; inversion E; subst.
        exists [mkCall (role step) (inputMap step (set_stepCount (ctx r) (i + 1))) false],
               ["Step " ++ role step ++ " failed: "
                ++ message (Error ("Failed to communicate with Grok API: " ++ m))].
        split; [reflexivity|]. split; [reflexivity | apply prompted_single].
      * intros E. destruct (IH _ _ _ _ _ _ E) as (new & added & Hcalls & Herrs & Hnew).
        exists (mkCall (role step) (inputMap step (set_stepCount (ctx r) (i + 1))) false
                  :: new),
               (("Step " ++ role step ++ " failed: " ++ message error) :: added).
        split; [|split].
        -- rewrite Hcalls. simpl. unfold push. rewrite <- app_assoc. reflexivity.
        -- rewrite Herrs. simpl. unfold push. rewrite <- app_assoc. reflexivity.
        -- refine (prompted_cons _ _ _ _ _ _ _ [_] _ _ _ _ _ _ Hnew); try reflexivity.
           ++ constructor; [|constructor]. exists m. subst error. reflexivity.
           ++ intros k. simpl. split; [auto|]. intros [Hk|[Hk _]]; [exact Hk | discriminate].
Qed.

(** A run of [executePipeline] with the origin of its prompts. *)
Lemma executePipeline_prompted (self : MultiAgentOrchestrator)
      (pipelineId userPrompt0 : string) (s : Sys) (pipeline : AgentPipeline) :
  lookupPipeline self pipelineId = Returned pipeline ->
  exists r s',
    executePipeline self pipelineId userPrompt0 s = (Returned r, s')
    /\ prompted (steps pipeline) 0
         (ctx (initialRun userPrompt0 (List.length (steps pipeline)))) (history r)
         (errors (context r)).
Proof.
  intros Hlookup. unfold executePipeline. rewrite Hlookup.
  destruct (pipelineLoop _ 0 (steps pipeline) _ s) as [r1 s1] eqn:Eloop.
  destruct (pipelineLoop_prompted _ _ _ _ _ _ _ Eloop) as (new & added & Hcalls & Herrs & Hnew).
  simpl in Hcalls, Herrs. eexists _, _. split; [reflexivity|]. simpl.
  rewrite Hcalls, Herrs. exact Hnew.
Qed.

(** X23: in a run of [executePipeline] the prompt of each call is the
    [inputMap] of its step on the context as the calls before it left it:
    the user's prompt, [stepCount] the position of the call counted from
    one, [maxSteps] the number of steps, one error for each earlier call
    that failed, and in [results] exactly the output keys of the earlier
    steps whose call succeeded. *)
Theorem executePipeline_prompts :
  forall (self : MultiAgentOrchestrator) (pipelineId userPrompt0 : string) (s : Sys)
         (pipeline : AgentPipeline),
    lookupPipeline self pipelineId = Returned pipeline ->
    exists r s',
      executePipeline self pipelineId userPrompt0 s = (Returned r, s')
      /\ forall j step call,
          nth_error (steps pipeline) j = Some step ->
          nth_error (history r) j = Some call ->
          exists c : AgentContext,
            call_input call = inputMap step c
            /\ userPrompt c = userPrompt0
            /\ stepCount c = j + 1
            /\ maxSteps c = List.length (steps pipeline)
            /\ List.length (errors c)
               = List.length (filter failed (firstn j (history r)))
            /\ (forall k, Map_has (results c) k = true
                          <-> stored_by (firstn j (steps pipeline))
                                        (firstn j (history r)) k).
Proof.
  intros self pipelineId userPrompt0 s pipeline Hlookup.
  destruct (executePipeline_prompted self pipelineId userPrompt0 s pipeline Hlookup)
    as (r & s' & Hrun & Hprompted).
  exists r, s'. split; [exact Hrun|]. intros j step call Hstep Hcall.
  destruct (Hprompted j step call Hstep Hcall) as (c & Hin & Hp & Hcount & Hm & He & Hk & _).
  exists c. simpl in *. split; [exact Hin|]. split; [exact Hp|]. split; [exact Hcount|].
  split; [exact Hm|]. split; [exact He|].
  intros k. rewrite Map_has_In_keys, Hk. tauto.
Qed.

Lemma run_unique {A S} (run : Outcome A * S) (r1 r2 : A) (s1 s2 : S) :
  run = (Returned r1, s1) -> run = (Returned r2, s2) -> r1 = r2 /\ s1 = s2.
Proof. intros -> E. inversion E. auto. Qed.

Lemma no_failed_call (cs : list AgentCall) :
  forallb call_ok cs = true -> filter failed cs = [].
Proof.
  induction cs as [|c cs IH]; [reflexivity|]. simpl. unfold failed at 1.
  destruct (call_ok c); [exact IH | discriminate].
Qed.

Lemma length_seven {A} (l : list A) :
  List.length l = 7 -> exists a b c d e f g, l = [a; b; c; d; e; f; g].
Proof.
  intros Hlen.
  destruct l as [|a [|b [|c [|d [|e [|f [|g [|x l]]]]]]]]; try discriminate.
  eexists _, _, _, _, _, _, _. reflexivity.
Qed.

(** A run of the code-development pipeline of the constructor: seven
    calls, with the origin of their prompts. *)
Lemma runCodeDevelopmentPipeline_prompted (self : MultiAgentOrchestrator)
      (userPrompt0 : string) (s : Sys) :
  pipelines self = initializePipelines ->
  exists r s' c0 c1 c2 c3 c4 c5 input supervisorOk,
    runCodeDevelopmentPipeline self userPrompt0 s = (Returned r, s')
    /\ history r = [c0; c1; c2; c3; c4; c5; mkCall "supervisor" input supervisorOk]
    /\ prompted createCodeDevelopmentSteps 0 (ctx (initialRun userPrompt0 7)) (history r)
         (errors (context r)).
Proof.
  intros Hself.
  assert (Hcode : lookupPipeline self "code-development" = Returned codeDevelopmentPipeline)
    by (unfold lookupPipeline; rewrite Hself, initializePipelines_get; reflexivity).
  destruct (executePipeline_ledger self _ userPrompt0 s _ Hcode)
    as (r & s' & Hrun & _ & L).
  destruct (executePipeline_prompted self _ userPrompt0 s _ Hcode)
    as (r2 & s2 & Hrun2 & Hprompted).
  destruct (run_unique _ _ _ _ _ Hrun Hrun2) as [<- <-].
  pose proof (ledger_all _ _ _ _ _ _ _ L eq_refl) as Hlen.
  change (List.length (steps codeDevelopmentPipeline)) with 7 in Hlen.
  pose proof (ledger_roles _ _ _ _ _ _ _ L) as Hroles. rewrite Hlen in Hroles.
  destruct (length_seven _ Hlen) as (c0 & c1 & c2 & c3 & c4 & c5 & c6 & Hhistory).
  rewrite Hhistory in Hroles. destruct c6 as [role6 input ok6].
  assert (Hrole6 : role6 = "supervisor") by (inversion Hroles; reflexivity).
  subst role6.
  exists r, s', c0, c1, c2, c3, c4, c5, input, ok6.
  split; [exact Hrun|]. split; [exact Hhistory | exact Hprompted].
Qed.

(** X24: whatever failed before, the supervisor of the code-development
    pipeline is told that seven of seven steps are completed: its prompt
    is written when [stepCount] has already been set to its own position.
    The prompt lists, joined by ", ", the errors recorded so far, which
    are the first errors of the context the run returns: one line for each
    of the six calls before it that failed, in their order, with the role
    and the message of the client; it reads "None" when there is none.  It
    reports the final result as ready exactly when the call of the coder
    succeeded. *)
Theorem supervisor_is_told_all_steps_completed :
  forall (self : MultiAgentOrchestrator) (userPrompt0 : string) (s : Sys),
    pipelines self = initializePipelines ->
    exists r s' c0 c1 c2 c3 coder c5 listed later supervisorOk,
      runCodeDevelopmentPipeline self userPrompt0 s = (Returned r, s')
      /\ history r
         = [ c0; c1; c2; c3; coder; c5;
             mkCall "supervisor"
               (lines [
                  "";
                  "Pipeline Summary:";
                  "        - Steps completed: 7/7";
                  "        - Errors encountered: "
                    ++ match listed with [] => "None" | _ :: _ => join ", " listed end;
                  "        - Final result ready: " ++ of_bool (call_ok coder);
                  "";
                  "        Provide overall pipeline success assessment and final deliverable." ])
               supervisorOk ]
      /\ errors (context r) = (listed ++ later)%list
      /\ Forall2 failure_text (filter failed [c0; c1; c2; c3; coder; c5]) listed.
Proof.
  intros self userPrompt0 s Hself.
  destruct (runCodeDevelopmentPipeline_prompted self userPrompt0 s Hself)
    as (r & s' & c0 & c1 & c2 & c3 & c4 & c5 & input & ok6 & Hrun & Hhistory & Hprompted).
  rewrite Hhistory in Hprompted.
  destruct (Hprompted 6 _ _ eq_refl eq_refl)
    as (c & Hin & _ & Hcount & Hmax & _ & Hkeys & listed & later & Hlisted & Hlater & Hforms).
  cbn [call_input inputMap] in Hin.
  change (firstn 6 [c0; c1; c2; c3; c4; c5; mkCall "supervisor" input ok6])
    with [c0; c1; c2; c3; c4; c5] in Hkeys, Hforms.
  change (errors (ctx (initialRun userPrompt0 7))) with (@nil string) in Hlisted.
  cbn [app] in Hlisted.
  assert (Hstored : stored_by (firstn 6 createCodeDevelopmentSteps)
                      [c0; c1; c2; c3; c4; c5] "generated_code"
                    <-> call_ok c4 = true).
  { split.
    - intros (j & step & call & Hstep & Hcall & Hok & Hkey).
      do 6 (destruct j as [|j]; [inversion Hstep; subst step; try discriminate Hkey;
                                 inversion Hcall; subst call; exact Hok|]).
      destruct j; discriminate Hstep.
    - intros Hok. exists 4, (nth 4 createCodeDevelopmentSteps
                                (mkStep (createAgentWithRole "" "" "") ""
                                   (fun _ => "") None)), c4.
      split; [reflexivity|]. split; [reflexivity|]. split; [exact Hok | reflexivity]. }
  assert (Hready : Map_has (results c) "generated_code" = call_ok c4).
  { apply eq_true_iff_eq. rewrite Map_has_In_keys, (Hkeys "generated_code"). split.
    - intros [Hk|Hst]; [destruct Hk | apply Hstored; exact Hst].
    - intros Hok. right. apply Hstored. exact Hok. }
  exists r, s', c0, c1, c2, c3, c4, c5, listed, later, ok6.
  split; [exact Hrun|]. split; [|split; [exact Hlater | exact Hforms]].
  rewrite Hhistory, Hin, Hcount, Hmax, Hready, Hlisted.
  destruct listed; reflexivity.
Qed.

(** X25: a result that is missing is passed on as the text "undefined":
    when the call of the interpreter failed, the analysis of the
    code-development pipeline is still called, on the interpretation
    "undefined"; when it succeeded, on an interpretation that was
    stored. *)
Theorem failed_interpretation_is_passed_as_undefined :
  forall (self : MultiAgentOrchestrator) (userPrompt0 : string) (s : Sys),
    pipelines self = initializePipelines ->
    exists r s' interpreter analysis rest interpretation,
      runCodeDevelopmentPipeline self userPrompt0 s = (Returned r, s')
      /\ history r = interpreter :: analysis :: rest
      /\ call_role analysis = "analysis"
      /\ call_input analysis
         = "Using this interpretation " ++ quoted interpretation
           ++ ", analyze the codebase and identify relevant files and components. Focus on what needs to be modified or created."
      /\ (call_ok interpreter = false -> interpretation = "undefined").
Proof.
  intros self userPrompt0 s Hself.
  destruct (runCodeDevelopmentPipeline_prompted self userPrompt0 s Hself)
    as (r & s' & c0 & c1 & c2 & c3 & c4 & c5 & input & ok6 & Hrun & Hhistory & Hprompted).
  assert (Hcode : lookupPipeline self "code-development" = Returned codeDevelopmentPipeline)
    by (unfold lookupPipeline; rewrite Hself, initializePipelines_get; reflexivity).
  destruct (executePipeline_ledger self _ userPrompt0 s _ Hcode)
    as (r2 & s2 & Hrun2 & _ & L).
  destruct (run_unique _ _ _ _ _ Hrun Hrun2) as [<- <-].
  pose proof (ledger_roles _ _ _ _ _ _ _ L) as Hroles.
  rewrite Hhistory in Hroles, Hprompted.
  destruct (Hprompted 1 _ _ eq_refl eq_refl) as (c & Hin & _ & _ & _ & _ & Hkeys & _).
  cbn [firstn] in Hkeys.
  exists r, s', c0, c1, [c2; c3; c4; c5; mkCall "supervisor" input ok6],
         (result_text c "interpretation").
  split; [exact Hrun|]. split; [exact Hhistory|].
  split; [inversion Hroles; reflexivity|]. split; [exact Hin|].
  intros Hfailed. unfold result_text.
  destruct (Map_get (results c) "interpretation") as [v|] eqn:Eget; [|reflexivity].
  apply Map_get_In_keys in Eget. apply Hkeys in Eget.
  destruct Eget as [[]|(j & step & call & Hstep & Hcall & Hok & _)].
  destruct j as [|j]; [|destruct j; discriminate Hcall].
  inversion Hcall; subst call. congruence.
Qed.

End PromptProperties.

(* ================================================================== *)
(** ** Further properties: outcomes of the pruning and of the runs *)
(* ================================================================== *)

Section OutcomeProperties.

Context {H : Host}.

Lemma memoryLoop_results_nonempty (userPrompt0 : string) (steps : list AgentStep) :
  forall total i r s r' s',
    memoryLoop userPrompt0 total i steps r s = (r', s') ->
    all_nonempty (results (ctx r)) ->
    all_nonempty (results (ctx r')).
Proof.
  induction steps as [|step rest IH]; intros total i r s r' s'; simpl.
  - intros E; inversion E; subst; auto.
  - destruct (chat _ s) as [[response|error] s1] eqn:Echat.
    + destruct (truthy_key (outputKey step)) as [key|].
      * destruct (generateAgentMemory _ _ _ _ s1) as [[memory|memoryError] s2];
          intros E Hr; apply (IH _ _ _ _ _ _ E); simpl;
          (apply Map_set_nonempty; [exact Hr | exact (chat_nonempty _ _ _ _ Echat)]).
      * intros E Hr. apply (IH _ _ _ _ _ _ E). exact Hr.
    + intros E Hr. apply (IH _ _ _ _ _ _ E). exact Hr.
Qed.

(** X27: what [executePipelineWithMemory] returns: [success] exactly when
    no error was recorded; as [finalResult] the value under "final_summary"
    if that key is present, else the value under "generated_code" if that
    one is, else "Pipeline completed"; and in [results] exactly the output
    keys of the steps whose call succeeded. *)
Theorem executePipelineWithMemory_result :
  forall (self : MultiAgentOrchestrator) (pipelineId userPrompt0 : string) (s : Sys)
         (pipeline : AgentPipeline),
    lookupPipeline self pipelineId = Returned pipeline ->
    exists r self' s',
      executePipelineWithMemory self pipelineId userPrompt0 s = (Returned r, self', s')
      /\ (success r = true <-> errors (context r) = [])
      /\ finalResult r = finalResult_spec (context r) "Pipeline completed"
      /\ (forall k, Map_has (results (context r)) k = true
                    <-> stored_by (steps pipeline) (history r) k).
Proof.
  intros self pipelineId userPrompt0 s pipeline Hlookup.
  destruct (executePipelineWithMemory_ledger self pipelineId userPrompt0 s pipeline Hlookup)
    as (r & s' & stored & Hrun & _ & _ & L).
  exists r, (storeAgentMemories self pipelineId stored s'), s'. split; [exact Hrun|].
  revert Hrun. unfold executePipelineWithMemory. rewrite Hlookup.
  destruct (memoryLoop userPrompt0 _ 0 (steps pipeline) _ s) as [r1 s1] eqn:Eloop.
  intros Hrun. inversion Hrun; subst r. simpl. split; [|split].
  - rewrite Nat.eqb_eq. destruct (errors (ctx r1)); simpl; split; congruence.
  - apply selectFinalResult_spec.
    apply (memoryLoop_results_nonempty _ _ _ _ _ _ _ _ Eloop). constructor.
  - intros k. rewrite Map_has_In_keys.
    rewrite (mem_keys _ _ _ _ _ _ _ L k). simpl. tauto.
Qed.

(** X28: after a run of [executeIntelligentOrchestration] that returns, a
    key is present in [results] exactly when it is the role of an agent
    whose call succeeded followed by "_result". *)
Theorem orchestration_results_keys :
  forall (userPrompt0 : string) (s s' : Sys) (r : PipelineResult JSON) (k : string),
    executeIntelligentOrchestration userPrompt0 s = (Returned r, s') ->
    (Map_has (results (context r)) k = true
     <-> exists call, In call (history r) /\ call_ok call = true
                      /\ k = call_role call ++ "_result").
Proof.
  intros userPrompt0 s s' r k Hrun.
  destruct (orchestration_shape _ _ _ _ Hrun) as ((Hkeys & _) & _).
  rewrite Map_has_In_keys. apply Hkeys.
Qed.



End OutcomeProperties.

(* ================================================================== *)
(** ** The failed supervisor, and the outcomes of the pruning *)
(* ================================================================== *)

Section LoopClaims.

Context {H : Host}.


(** C5 (amended): [pruneAgentMemories] posts one request, the pruning
    request for the flattened memories, and its outcome follows the answer.
    When the request fails, it throws the error of the client.  When the
    request is answered and the answer cannot be parsed, it returns the
    first five of the flattened memories (in the order of the map and of
    each list) as [relevantMemories], the others as [prunedMemories], the
    fixed summary of the automatic pruning and the one fixed
    recommendation.  When the answer parses, it returns what the answer
    reports, field by field, and for a field that is missing the default:
    no memories, the summary "Memory analysis completed", no
    recommendations. *)
Theorem pruneAgentMemories_raises_or_returns :
  forall (originalUserPrompt currentPrompt : string)
         (agentMemories : Map (list (AgentMemory JSON))) (s : Sys),
    let allMemories := flattenMemories agentMemories in
    let request := pruningRequest originalUserPrompt currentPrompt allMemories in
    (forall failure w,
        post request (world s) = (PostFailed failure, w) ->
        pruneAgentMemories originalUserPrompt agentMemories currentPrompt s
        = (Raised (Error ("Failed to communicate with Grok API: " ++ failure)),
           mkSys w (push (sent s) request)))
    /\ (forall answer w,
           post request (world s) = (Replied answer, w) ->
           pruneAgentMemories originalUserPrompt agentMemories currentPrompt s
           = (Returned
                match parse_analysis (jsonBlock (or_else answer "No response from Grok")) with
                | Raised _ =>
                    mkAnalysisResult
                      (Recorded (firstn 5 allMemories))
                      (Recorded (skipn 5 allMemories))
                      "Automatic pruning performed due to parsing error"
                      ["Implement better JSON parsing for memory analysis"]
                | Returned analysis =>
                    mkAnalysisResult
                      (Reported (match an_relevantMemories analysis with
                                 | Some reported => reported
                                 | None => []
                                 end))
                      (Reported (match an_prunedMemories analysis with
                                 | Some reported => reported
                                 | None => []
                                 end))
                      (match an_contextSummary analysis with
                       | Some EmptyString | None => "Memory analysis completed"
                       | Some summary => summary
                       end)
                      (match an_cleanupRecommendations analysis with
                       | Some reported => reported
                       | None => []
                       end)
                end,
              mkSys w (push (sent s) request)))
    /\ (firstn 5 allMemories ++ skipn 5 allMemories)%list = allMemories
    /\ List.length (firstn 5 allMemories) = Nat.min 5 (List.length allMemories).
Proof.
  intros originalUserPrompt currentPrompt agentMemories s allMemories request.
  split; [|split; [|split]].
  - intros failure w Hpost. unfold pruneAgentMemories, chat.
    fold allMemories. fold request. rewrite Hpost. reflexivity.
  - intros answer w Hpost. unfold pruneAgentMemories, chat.
    fold allMemories. fold request. rewrite Hpost.
    destruct (parse_analysis (jsonBlock (or_else answer "No response from Grok")))
      as [analysis|parseError]; [|reflexivity].
    destruct (an_contextSummary analysis) as [[|c summary]|]; reflexivity.
  - apply firstn_skipn.
  - apply length_firstn.
Qed.

(** X30: an answer of the workflow director that parses and is no plan is
    not caught either: when the interpreter's call succeeded and the
    director's answer parses to a value without steps, the run throws the
    [TypeError] of the read of [workflowPlan.steps.length], after the three
    requests (interpreter, its memory, director), and no planned agent and
    no supervisor is called. *)
Theorem planless_answer_is_thrown :
  forall (userPrompt0 : string) (s s1 s2 : Sys) (r1 : Run) (response : string)
         (typeError : exn),
    executeSingleAgent "interpreter" (interpreterInstructions userPrompt0) userPrompt0
      (initialRun userPrompt0 10) s = (true, r1, s1) ->
    chat (mkRequest
            [ mkMessage "system" workflowDirectorPrompt;
              mkMessage "user" (workflowRequestText "" userPrompt0) ]
            "grok-code-fast-1" 1 1500) s1 = (Returned response, s2) ->
    parse_plan (jsonBlock response) = Returned (Planless typeError) ->
    executeIntelligentOrchestration userPrompt0 s = (Raised typeError, s2)
    /\ List.length (sent s2) = List.length (sent s) + 3.
Proof.
  intros userPrompt0 s s1 s2 r1 response typeError E0 Echat Hparse.
  pose proof (director_receives_empty_interpretation _ _ _ _ _ E0) as Hempty.
  pose proof (executeSingleAgent_accounted _ _ _ _ _ _ _ _ _ E0
                (initialRun_accounted userPrompt0 10 s)) as (_ & Hsent & _).
  destruct (executeSingleAgent_tracks _ _ _ _ _ _ _ _ E0) as (Hc0 & _ & _).
  rewrite Hc0 in Hsent. simpl in Hsent. split.
  - unfold executeIntelligentOrchestration. rewrite E0. cbn [negb]. cbv iota.
    rewrite Hempty. unfold determineWorkflowFromInterpretation.
    change (systemPrompt (createAgentWithRole "workflow-director" "orchestrate"
                            workflowDirectorPrompt)) with workflowDirectorPrompt.
    rewrite Echat, Hparse. reflexivity.
  - rewrite (chat_sent _ _ _ _ Echat). unfold push. rewrite length_app. simpl. lia.
Qed.

End LoopClaims.

(* ================================================================== *)
(** ** Further properties at scripted services *)
(* ================================================================== *)

(** X2 (witness): an answer that wraps an empty object in a fence. *)
Lemma jsonBlock_of_fenced_block_witness :
  jsonBlock ("Here is the memory: " ++ "```json" ++ "{}" ++ "```" ++ " Done.") = "{}".
Proof.
  exact (jsonBlock_of_fenced_block "Here is the memory: " "{}" " Done."
           eq_refl eq_refl eq_refl).
Defined.

(** X5 (witness): the code-development pipeline at a service whose
    seventh answer, the supervisor's, fails. *)
Lemma executePipeline_calls_steps_in_order_witness :
  exists r s',
    @executePipeline supervisorDownHost newMultiAgentOrchestrator
      "code-development" crashPrompt (start supervisorDownHost 0)
    = (Returned r, s')
    /\ List.map call_role (history r)
       = firstn (List.length (history r))
                (List.map role (steps codeDevelopmentPipeline))
    /\ (List.length (history r) < List.length (steps codeDevelopmentPipeline) ->
        exists before input,
          history r = (before ++ [mkCall "supervisor" input false])%list)
    /\ stepCount (context r) = List.length (history r)
    /\ maxSteps (context r) = List.length (steps codeDevelopmentPipeline).
Proof.
  exact (@executePipeline_calls_steps_in_order supervisorDownHost
           newMultiAgentOrchestrator "code-development" crashPrompt
           (start supervisorDownHost 0) codeDevelopmentPipeline eq_refl).
Defined.

(** X6 (witness): the same run. *)
Lemma executePipeline_accounts_for_every_call_witness :
  exists r s',
    @executePipeline supervisorDownHost newMultiAgentOrchestrator
      "code-development" crashPrompt (start supervisorDownHost 0)
    = (Returned r, s')
    /\ List.length (sent s')
       = List.length (sent (start supervisorDownHost 0)) + List.length (history r)
    /\ List.length (errors (context r)) = List.length (filter failed (history r))
    /\ success r = forallb call_ok (history r).
Proof.
  exact (@executePipeline_accounts_for_every_call supervisorDownHost
           newMultiAgentOrchestrator "code-development" crashPrompt
           (start supervisorDownHost 0) codeDevelopmentPipeline eq_refl).
Defined.

(** X7 (witness): the analysis pipeline at a service that always
    answers. *)
Lemma executePipeline_results_keys_witness :
  exists r s',
    @executePipeline (constant stubAnswer) newMultiAgentOrchestrator
      "analysis-only" crashPrompt (start (constant stubAnswer) 0)
    = (Returned r, s')
    /\ forall k, Map_has (results (context r)) k = true
                 <-> stored_by (steps analysisOnlyPipeline) (history r) k.
Proof.
  exact (@executePipeline_results_keys (constant stubAnswer)
           newMultiAgentOrchestrator "analysis-only" crashPrompt
           (start (constant stubAnswer) 0) analysisOnlyPipeline eq_refl).
Defined.

(** X8 (witness): the orchestrator of the constructor at a service that
    never answers: all seven steps are called all the same. *)
Lemma registered_pipelines_run_every_step_witness :
  exists r s',
    @runCodeDevelopmentPipeline offlineHost newMultiAgentOrchestrator crashPrompt
      (start offlineHost 0)
    = (Returned r, s')
    /\ List.map call_role (history r)
       = ["interpreter"; "analysis"; "retrieval"; "judge"; "coder"; "quality-check";
          "supervisor"]
    /\ stepCount (context r) = 7 /\ maxSteps (context r) = 7
    /\ List.length (sent s') = List.length (sent (start offlineHost 0)) + 7.
Proof.
  exact (proj1 (@registered_pipelines_run_every_step offlineHost
                  newMultiAgentOrchestrator crashPrompt (start offlineHost 0) eq_refl)).
Defined.

(** X9 (witness): the code-development pipeline run with memories at a
    service whose fifth answer, the one to the retrieval step, fails. *)
Lemma executePipelineWithMemory_runs_every_step_witness :
  exists r self' s',
    @executePipelineWithMemory recordingHost newMultiAgentOrchestrator
      "code-development" crashPrompt (start recordingHost 0)
    = (Returned r, self', s')
    /\ List.map call_role (history r) = List.map role (steps codeDevelopmentPipeline)
    /\ stepCount (context r) = List.length (steps codeDevelopmentPipeline)
    /\ maxSteps (context r) = List.length (steps codeDevelopmentPipeline)
    /\ List.length (errors (context r)) = List.length (filter failed (history r))
    /\ success r = forallb call_ok (history r)
    /\ List.length (sent (start recordingHost 0))
       + List.length (steps codeDevelopmentPipeline) <= List.length (sent s')
    /\ List.length (sent s')
       <= List.length (sent (start recordingHost 0))
          + List.length (steps codeDevelopmentPipeline)
          + List.length (filter call_ok (history r)).
Proof.
  exact (@executePipelineWithMemory_runs_every_step recordingHost
           newMultiAgentOrchestrator "code-development" crashPrompt
           (start recordingHost 0) codeDevelopmentPipeline eq_refl).
Defined.

(** X10 (witness): the same run; it returns six memories. *)
Lemma executePipelineWithMemory_memories_witness :
  exists r self' s' stored,
    @executePipelineWithMemory recordingHost newMultiAgentOrchestrator
      "code-development" crashPrompt (start recordingHost 0)
    = (Returned r, self', s')
    /\ agentMemories r = Some stored
    /\ (forall k ms m,
           In (k, ms) stored -> In m ms ->
           k = agentRole m ++ "-agent"
           /\ relevanceScore m <= 10
           /\ memoryType m = getMemoryTypeForRole (agentRole m)
           /\ retentionFlags m = determineRetentionFlags (agentRole m) (content m)
           /\ (exists step, In step (steps codeDevelopmentPipeline)
                            /\ role step = agentRole m)
           /\ (exists call, In call (history r) /\ call_ok call = true
                            /\ call_role call = agentRole m))
    /\ List.length (List.concat (Map_values stored))
       <= List.length (filter call_ok (history r)).
Proof.
  exact (@executePipelineWithMemory_memories recordingHost
           newMultiAgentOrchestrator "code-development" crashPrompt
           (start recordingHost 0) codeDevelopmentPipeline eq_refl).
Defined.

(** X11 (witness): the same run; its memories are in the store. *)
Lemma executePipelineWithMemory_stores_memories_witness :
  exists r self' s' stored,
    @executePipelineWithMemory recordingHost newMultiAgentOrchestrator
      "code-development" crashPrompt (start recordingHost 0)
    = (Returned r, self', s')
    /\ agentMemories r = Some stored
    /\ pipelines self' = pipelines (@newMultiAgentOrchestrator recordingHost)
    /\ Map_get (memoryStore self')
         ("pipeline-" ++ "code-development" ++ "-" ++ of_N (now (world s')))
       = Some (List.concat (Map_values stored))
    /\ (forall k ms m, In (k, ms) stored -> In m ms ->
                       In m (storedMemoriesFor self' "code-development")).
Proof.
  exact (@executePipelineWithMemory_stores_memories recordingHost
           newMultiAgentOrchestrator "code-development" crashPrompt
           (start recordingHost 0) codeDevelopmentPipeline eq_refl).
Defined.

(** What the run of the three witnesses above returned. *)
Lemma executePipelineWithMemory_at_recordingHost :
  let run := @executePipelineWithMemory recordingHost newMultiAgentOrchestrator
               "code-development" crashPrompt (start recordingHost 0) in
  outline (result_of (fst run))
  = [("interpreter", true); ("analysis", true); ("retrieval", false); ("judge", true);
     ("coder", true); ("quality-check", true); ("supervisor", true)]
  /\ List.length (sent (snd run)) = 13
  /\ option_map (List.map (fun entry => (fst entry, List.length (snd entry))))
                (agentMemories (result_of (fst run)))
     = Some [("interpreter-agent", 1); ("analysis-agent", 1); ("judge-agent", 1);
             ("coder-agent", 1); ("quality-check-agent", 1); ("supervisor-agent", 1)]
  /\ Map_keys (memoryStore (snd (fst run))) = ["pipeline-code-development-13"].
Proof.
  split; [evaluated|]. split; [evaluated|]. split; evaluated.
Qed.

(** X14 (witness): the memories stored for "code-development" are
    collected for the id "code". *)
Lemma storedMemoriesFor_prefix_witness :
  In (note "judge" "[2]") (@storedMemoriesFor offlineHost storedOrchestrator "code").
Proof.
  apply (@storedMemoriesFor_prefix offlineHost storedOrchestrator "code" "code-development"
           (note "judge" "[2]") eq_refl).
  right. left. reflexivity.
Defined.



(** X17 (witness): the same run and the memory of its coder. *)
Lemma orchestration_memories_witness :
  let run := @executeIntelligentOrchestration recordingHost crashPrompt
               (start recordingHost 0) in
  let memory := hd (note "" "") (memories_under "coder-agent" (result_of run)) in
  (agentRole memory, memoryType memory, relevanceScore memory)
  = ("coder", "implementation-patterns", 2)
  /\ ("coder-agent" = agentRole memory ++ "-agent"
      /\ relevanceScore memory <= 10
      /\ memoryType memory = getMemoryTypeForRole (agentRole memory)
      /\ retentionFlags memory
         = @determineRetentionFlags recordingHost (agentRole memory) (content memory)
      /\ exists call, In call (history (result_of run)) /\ call_ok call = true
                      /\ call_role call = agentRole memory).
Proof.
  split; [evaluated|].
  apply (@orchestration_memories recordingHost crashPrompt (start recordingHost 0)
           (snd (@executeIntelligentOrchestration recordingHost crashPrompt
                   (start recordingHost 0)))
           (result_of (@executeIntelligentOrchestration recordingHost crashPrompt
                         (start recordingHost 0)))
           (memories_of (result_of (@executeIntelligentOrchestration recordingHost
                                      crashPrompt (start recordingHost 0))))
           "coder-agent"
           (memories_under "coder-agent"
              (result_of (@executeIntelligentOrchestration recordingHost crashPrompt
                            (start recordingHost 0))))).
  - evaluated.
  - evaluated.
  - vm_compute. right. left. reflexivity.
  - vm_compute. left. reflexivity.
Defined.

(** X18 (witness): the interpreter and its memory are answered, the
    director's request fails. *)
Lemma director_failure_is_thrown_witness :
  let interpreter := @executeSingleAgent directorDownHost "interpreter"
                       (interpreterInstructions crashPrompt) crashPrompt
                       (initialRun crashPrompt 10) (start directorDownHost 0) in
  let director := @chat directorDownHost
                    (mkRequest
                       [ mkMessage "system" workflowDirectorPrompt;
                         mkMessage "user" (workflowRequestText "" crashPrompt) ]
                       "grok-code-fast-1" 1 1500) (snd interpreter) in
  @executeIntelligentOrchestration directorDownHost crashPrompt (start directorDownHost 0)
  = (Raised (Error "Failed to communicate with Grok API: socket hang up"), snd director)
  /\ (exists m, Error "Failed to communicate with Grok API: socket hang up"
                = Error ("Failed to communicate with Grok API: " ++ m))
  /\ List.length (sent (snd director))
     = List.length (sent (start directorDownHost 0)) + 3.
Proof.
  apply (@director_failure_is_thrown directorDownHost crashPrompt
           (start directorDownHost 0)
           (snd (@executeSingleAgent directorDownHost "interpreter"
                   (interpreterInstructions crashPrompt) crashPrompt
                   (initialRun crashPrompt 10) (start directorDownHost 0)))
           _
           (snd (fst (@executeSingleAgent directorDownHost "interpreter"
                        (interpreterInstructions crashPrompt) crashPrompt
                        (initialRun crashPrompt 10) (start directorDownHost 0))))).
  - evaluated.
  - evaluated.
Defined.

(** X19 (witness): the director answers in prose and the analysis of the
    fallback plan fails: the coder and the judge are not called, the
    supervisor is. *)
Lemma unparsable_plan_runs_fallback_witness :
  exists r s' planned supervisorInput supervisorOk,
    @executeIntelligentOrchestration flakyHost crashPrompt (start flakyHost 0)
    = (Returned r, s')
    /\ history r
       = mkCall "interpreter" (interpreterInstructions crashPrompt) true
           :: push planned (mkCall "supervisor" supervisorInput supervisorOk)
    /\ fallback_calls planned
    /\ success r = supervisorOk.
Proof.
  apply (@unparsable_plan_runs_fallback flakyHost crashPrompt (start flakyHost 0)
           (snd (@executeSingleAgent flakyHost "interpreter"
                   (interpreterInstructions crashPrompt) crashPrompt
                   (initialRun crashPrompt 10) (start flakyHost 0)))
           (snd (@chat flakyHost
                   (mkRequest
                      [ mkMessage "system" workflowDirectorPrompt;
                        mkMessage "user" (workflowRequestText "" crashPrompt) ]
                      "grok-code-fast-1" 1 1500)
                   (snd (@executeSingleAgent flakyHost "interpreter"
                           (interpreterInstructions crashPrompt) crashPrompt
                           (initialRun crashPrompt 10) (start flakyHost 0)))))
           (snd (fst (@executeSingleAgent flakyHost "interpreter"
                        (interpreterInstructions crashPrompt) crashPrompt
                        (initialRun crashPrompt 10) (start flakyHost 0))))
           "done" syntaxError).
  - evaluated.
  - evaluated.
  - evaluated.
Defined.

(** X23 (witness): the code-development pipeline at a service that never
    answers. *)
Lemma executePipeline_prompts_witness :
  exists r s',
    @executePipeline offlineHost newMultiAgentOrchestrator
      "code-development" crashPrompt (start offlineHost 0)
    = (Returned r, s')
    /\ forall j step call,
        nth_error (steps codeDevelopmentPipeline) j = Some step ->
        nth_error (history r) j = Some call ->
        exists c : AgentContext,
          call_input call = inputMap step c
          /\ userPrompt c = crashPrompt
          /\ stepCount c = j + 1
          /\ maxSteps c = List.length (steps codeDevelopmentPipeline)
          /\ List.length (errors c)
             = List.length (filter failed (firstn j (history r)))
          /\ (forall k, Map_has (results c) k = true
                        <-> stored_by (firstn j (steps codeDevelopmentPipeline))
                                      (firstn j (history r)) k).
Proof.
  exact (@executePipeline_prompts offlineHost newMultiAgentOrchestrator
           "code-development" crashPrompt (start offlineHost 0)
           codeDevelopmentPipeline eq_refl).
Defined.

(** X24 (witness): at a service that never answers, all seven calls fail
    and the supervisor is asked about seven completed steps, with the six
    errors before it listed. *)
Lemma supervisor_is_told_all_steps_completed_witness :
  exists r s' c0 c1 c2 c3 coder c5 listed later supervisorOk,
    @runCodeDevelopmentPipeline offlineHost newMultiAgentOrchestrator crashPrompt
      (start offlineHost 0)
    = (Returned r, s')
    /\ history r
       = [ c0; c1; c2; c3; coder; c5;
           mkCall "supervisor"
             (lines [
                "";
                "Pipeline Summary:";
                "        - Steps completed: 7/7";
                "        - Errors encountered: "
                  ++ match listed with [] => "None" | _ :: _ => join ", " listed end;
                "        - Final result ready: " ++ of_bool (call_ok coder);
                "";
                "        Provide overall pipeline success assessment and final deliverable." ])
             supervisorOk ]
    /\ errors (context r) = (listed ++ later)%list
    /\ Forall2 failure_text (filter failed [c0; c1; c2; c3; coder; c5]) listed.
Proof.
  exact (@supervisor_is_told_all_steps_completed offlineHost newMultiAgentOrchestrator
           crashPrompt (start offlineHost 0) eq_refl).
Defined.

(** X25 (witness): only the first request, the interpreter's, fails. *)
Lemma failed_interpretation_is_passed_as_undefined_witness :
  exists r s' interpreter analysis rest interpretation,
    @runCodeDevelopmentPipeline firstDownHost newMultiAgentOrchestrator crashPrompt
      (start firstDownHost 0)
    = (Returned r, s')
    /\ history r = interpreter :: analysis :: rest
    /\ call_role analysis = "analysis"
    /\ call_input analysis
       = "Using this interpretation " ++ quoted interpretation
         ++ ", analyze the codebase and identify relevant files and components. Focus on what needs to be modified or created."
    /\ (call_ok interpreter = false -> interpretation = "undefined").
Proof.
  exact (@failed_interpretation_is_passed_as_undefined firstDownHost
           newMultiAgentOrchestrator crashPrompt (start firstDownHost 0) eq_refl).
Defined.

(** The run of the last witness: the interpreter fails, the analysis is
    asked about the interpretation "undefined", and the run goes on. *)
Lemma code_development_after_failed_interpreter :
  let r := result_of (@runCodeDevelopmentPipeline firstDownHost newMultiAgentOrchestrator
                        crashPrompt (start firstDownHost 0)) in
  outline r
  = [("interpreter", false); ("analysis", true); ("retrieval", true); ("judge", true);
     ("coder", true); ("quality-check", true); ("supervisor", true)]
  /\ option_map call_input (nth_error (history r) 1)
     = Some ("Using this interpretation " ++ quoted "undefined"
             ++ ", analyze the codebase and identify relevant files and components. Focus on what needs to be modified or created.")
  /\ success r = false
  /\ finalResult r = "done".
Proof.
  split; [evaluated|]. split; [evaluated|]. split; evaluated.
Qed.

(** X27 (witness): the code-development pipeline run with memories at the
    service whose fifth answer fails. *)
Lemma executePipelineWithMemory_result_witness :
  exists r self' s',
    @executePipelineWithMemory recordingHost newMultiAgentOrchestrator
      "code-development" crashPrompt (start recordingHost 0)
    = (Returned r, self', s')
    /\ (success r = true <-> errors (context r) = [])
    /\ finalResult r = finalResult_spec (context r) "Pipeline completed"
    /\ (forall k, Map_has (results (context r)) k = true
                  <-> stored_by (steps codeDevelopmentPipeline) (history r) k).
Proof.
  exact (@executePipelineWithMemory_result recordingHost newMultiAgentOrchestrator
           "code-development" crashPrompt (start recordingHost 0)
           codeDevelopmentPipeline eq_refl).
Defined.

(** X28 (witness): the orchestration at the same service and the key of
    its coder. *)
Lemma orchestration_results_keys_witness :
  let r := result_of (@executeIntelligentOrchestration recordingHost crashPrompt
                        (start recordingHost 0)) in
  Map_keys (results (context r))
  = ["interpreter_result"; "analysis_result"; "coder_result"; "judge_result";
     "supervisor_result"]
  /\ (Map_has (results (context r)) "coder_result" = true
      <-> exists call, In call (history r) /\ call_ok call = true
                       /\ "coder_result" = call_role call ++ "_result").
Proof.
  split; [evaluated|].
  apply (@orchestration_results_keys recordingHost crashPrompt (start recordingHost 0)
           (snd (@executeIntelligentOrchestration recordingHost crashPrompt
                   (start recordingHost 0)))).
  evaluated.
Defined.


(** X30 (witness): the director answers with an empty object. *)
Lemma planless_answer_is_thrown_witness :
  exists s',
    @executeIntelligentOrchestration planlessHost crashPrompt (start planlessHost 0)
    = (Raised noStepsError, s')
    /\ List.length (sent s') = 3.
Proof.
  exists (snd (@executeIntelligentOrchestration planlessHost crashPrompt
                 (start planlessHost 0))).
  apply (@planless_answer_is_thrown planlessHost crashPrompt (start planlessHost 0)
           (snd (@executeSingleAgent planlessHost "interpreter"
                   (interpreterInstructions crashPrompt) crashPrompt
                   (initialRun crashPrompt 10) (start planlessHost 0)))
           (snd (@executeIntelligentOrchestration planlessHost crashPrompt
                   (start planlessHost 0)))
           (snd (fst (@executeSingleAgent planlessHost "interpreter"
                        (interpreterInstructions crashPrompt) crashPrompt
                        (initialRun crashPrompt 10) (start planlessHost 0))))
           "{}" noStepsError).
  - evaluated.
  - evaluated.
  - evaluated.
Defined.

(** [robustRequest] at scripted services.  With [maxRetries] at -1 the loop
    takes no turn: nothing is posted and the text ends in "undefined".  At
    the default of 3, a service that never answers is asked three times and
    the text ends in the message of the third failure; a service that
    answers the third request is asked three times and its answer is
    returned. *)
Lemma robustRequest_at_scripted_services :
  let request := mkRequest [mkMessage "user" "hello"] "grok-code-fast-1" 1 1500 in
  @robustRequest offlineHost request (Some (-1)%Z) (start offlineHost 0)
  = (Raised (Error "All -1 attempts failed. Last error: undefined"), start offlineHost 0)
  /\ @robustRequest offlineHost request None (start offlineHost 0)
     = (Raised (Error ("All 3 attempts failed. Last error: "
                       ++ "Failed to communicate with Grok API: timeout of 120000ms exceeded")),
        @mkSys offlineHost 3 [request; request; request])
  /\ @robustRequest twiceDownHost request None (start twiceDownHost 0)
     = (Returned "done", @mkSys twiceDownHost 3 [request; request; request])
  /\ @robustRequest twiceDownHost request (Some 2%Z) (start twiceDownHost 0)
     = (Raised (Error ("All 2 attempts failed. Last error: "
                       ++ "Failed to communicate with Grok API: socket hang up")),
        @mkSys twiceDownHost 2 [request; request]).
Proof.
  intros request. repeat split; evaluated.
Qed.

(* ================================================================== *)
(** ** The failed supervisor and the pruning at scripted services *)
(* ================================================================== *)



(** C5 (witness): six memories and an answer in prose, on which
    [JSON.parse] throws: the first five are kept. *)
Lemma pruneAgentMemories_raises_or_returns_witness :
  exists s',
    @pruneAgentMemories proseHost "build a parser" sixMemories "fix the parser"
      (start proseHost 0)
    = (Returned
         (mkAnalysisResult
            (Recorded [ mkFlat "interpreter-agent" (note "interpreter" "{}");
                        mkFlat "coder-agent" (note "coder" "[1]");
                        mkFlat "coder-agent" (note "coder" "[2]");
                        mkFlat "coder-agent" (note "coder" "[3]");
                        mkFlat "judge-agent" (note "judge" "[4]") ])
            (Recorded [ mkFlat "judge-agent" (note "judge" "[5]") ])
            "Automatic pruning performed due to parsing error"
            ["Implement better JSON parsing for memory analysis"]),
       s').
Proof.
  eexists.
  exact (proj1 (proj2 (@pruneAgentMemories_raises_or_returns
                         proseHost "build a parser" "fix the parser" sixMemories
                         (start proseHost 0)))
           (Some "I would keep the interpreter memory.") 1 eq_refl).
Defined.

(** C5 (counterexample): at a service that does not answer,
    [pruneAgentMemories] throws; and on the answer [{}], which parses and
    has none of the expected fields, it returns no memories at all and the
    summary of a completed analysis, not the first five memories. *)
Lemma pruneAgentMemories_throws_and_defaults :
  fst (@pruneAgentMemories offlineHost "build a parser" sixMemories "fix the parser"
         (start offlineHost 0))
  = Raised (Error "Failed to communicate with Grok API: timeout of 120000ms exceeded")
  /\ fst (@pruneAgentMemories emptyObjectHost "build a parser" sixMemories "fix the parser"
            (start emptyObjectHost 0))
     = Returned (mkAnalysisResult (Reported []) (Reported [])
                   "Memory analysis completed" [])
  /\ List.length (@flattenMemories emptyObjectHost sixMemories) = 6.
Proof.
  repeat split; evaluated.
Qed.
